(** * Reward ledger and approval workflows of the task bot (src/main.py)

    A shallow embedding of the database tables, of the per-user
    conversation data ([context.user_data]), of the connections to the
    database file and of the handlers that write through them, followed
    by the properties of the ledger, of the two review workflows and of
    the network-address claim, and by what the code keeps besides: its
    bookkeeping, the fate of rows, what a sender outside [ADMIN_IDS] can
    do, the statistics screens, the command texts and the buttons.

    The five handlers that move money ([admin_approve_submission],
    [handle_withdraw_details], [admin_reject_withdrawal],
    [admin_add_points], [admin_deduct_points]) call [log_transaction]
    between their own writes and their [conn.commit()].
    [log_transaction] opens a second connection to the same file, whose
    [INSERT] is refused while the first holds the write lock; the
    exception leaves the handler before the commit.  Much of what
    follows is a consequence of this.

    Modelling conventions.
    - The [REAL] columns (balance, reward, amount, ...) and the values of
      [float(text)] are binary64 floating-point numbers ([float] of the
      kernel), with their infinities and NaN; [<?], [+] and [-] on them
      are those of IEEE 754, as in Python and SQLite.  SQLite stores a
      NaN as NULL, which Python reads back as [None]; the one column
      where a committed write can store one is [tasks.reward], and the
      one handler that computes with a reward read from the table
      raises either way.
    - A handler's statements take effect in program order through its
      connection.  A handler that raises before [conn.commit()] leaves the
      tables as they were: its connection goes away with the exception
      and its transaction is rolled back, which is taken to have happened
      by the time the next update is handled.  The five seconds that
      [log_transaction] waits for the lock are not represented.
    - Handlers are modelled from the point where the command or callback
      text has been split into its arguments; the text of an ordinary
      message is kept, because [handle_message] dispatches on the
      conversation data and parses the text itself.  The reading of the
      arguments from the text is modelled on its own
      ([approve_submission_id] and what follows, [handle_callback]).
    - Updates are handled one at a time, and a call to the chat platform
      (an answer, a notification) returns; what a handler would leave
      behind if such a call raised is not represented.
    - Handlers that only read the tables (menus, lists, statistics) are
      left out as handlers; the queries of [admin_system_stats] and
      [check_channel_membership] are functions of the state.
    - Replies are an enumeration; the comment of each constructor quotes
      the message the handler sends.  Where an update goes on to code
      that only reads the tables, the reply is [Screen] whatever that
      code answers. *)

From stdpp Require Import gmap strings list fin_maps pretty.
From Stdlib Require Import ZArith Lia Ascii Floats.

Open Scope string_scope.
Open Scope Z_scope.
Open Scope list_scope.

(** ** Configuration (lines 18-25) *)

(** The two minimums are the ints 10 and 1; the handlers compare them
    with a float, which Python does by value: they stand here as the
    floats 10.0 and 1.0. *)
Definition MIN_WITHDRAWAL_UPI : float := 10.
Definition MIN_WITHDRAWAL_GATEWAY : float := 1.

(** ** Rows of the tables created by [init_database] *)

Record User := mkUser {
  username : string;
  first_name : string;
  last_name : string;
  balance : float;
  total_earned : float;
  total_withdrawn : float;
  completed_tasks : Z;
  pending_tasks : Z;
  joined_date : string;
  last_active : string;
  verified_ip : option string;
  is_verified : bool;
  is_blocked : bool
}.

Record IpRow := mkIpRow {
  ip_user_id : Z;
  first_seen : string;
  last_seen : string
}.

Record Task := mkTask {
  task_id : Z;
  description : string;
  reward : float;
  requirements : string;
  task_link : string;
  is_active : bool;
  created_date : string;
  created_by : Z
}.

Inductive SubmissionStatus := SubPending | SubApproved | SubRejected.

Record Submission := mkSubmission {
  submission_id : Z;
  sub_user_id : Z;
  sub_task_id : Z;
  screenshot : string;
  sub_status : SubmissionStatus;
  submitted_date : string;
  reviewed_date : option string;
  reviewed_by : option Z;
  notes : option string;
  sub_ip_address : string
}.

Inductive WithdrawalStatus := WdPending | WdCompleted | WdRejected.

Record Withdrawal := mkWithdrawal {
  withdrawal_id : Z;
  wd_user_id : Z;
  wd_amount : float;
  wd_method : string;
  account_details : string;
  wd_status : WithdrawalStatus;
  requested_date : string;
  processed_date : option string;
  wd_transaction_id : option string;
  admin_notes : option string
}.

Record Channel := mkChannel {
  channel_name : string;
  channel_type : string;
  is_required : bool;
  added_date : string;
  added_by : Z
}.

(** The four values the handlers pass as [type] to [log_transaction]. *)
Inductive TxType := TxCredit | TxDebit | TxWithdrawalRequest | TxRefund.

Record Transaction := mkTransaction {
  transaction_id : Z;
  tx_user_id : Z;
  tx_type : TxType;
  tx_amount : float;
  balance_before : float;
  balance_after : float;
  tx_description : string;
  tx_timestamp : string;
  tx_admin_id : option Z
}.

(** ** [context.user_data]: the keys the handlers set and delete.
    A key that is absent is [None] or [false]. *)

Record UserData := mkUserData {
  pending_submission : option Z;
  withdraw_method : option string;
  awaiting_withdraw_amount : bool;
  withdraw_amount : option float;
  awaiting_upi_details : bool;
  awaiting_gateway_details : bool;
  admin_action : option string
}.

Definition no_user_data : UserData :=
  mkUserData None None false None false false None.

(** ** The whole state *)

Record State := mkState {
  users : gmap Z User;
  ip_addresses : gmap string IpRow;
  tasks : list Task;
  submissions : list Submission;
  withdrawals : list Withdrawal;
  channels : gmap string Channel;
  transactions : list Transaction;
  user_data : gmap Z UserData
}.

Definition init : State := mkState ∅ ∅ [] [] [] ∅ [] ∅.

(** ** What a handler receives: the sender, the address the hosting
    environment attaches to the request, and the clock reading
    ([datetime.datetime.now().isoformat()]). *)

Record Update := mkUpdate {
  user_id : Z;
  upd_username : string;
  upd_first_name : string;
  upd_last_name : string;
  remote_addr : string;
  now : string
}.

(** [get_user_ip] (lines 142-151).  The source returns the placeholder
    ["0.0.0.0"] on both paths and leaves the capture to the hosting
    environment; here the update carries what that environment captured,
    and the placeholder is one possible value of it. *)
Definition get_user_ip (update : Update) : string := remote_addr update.

(** ** Tables with an [AUTOINCREMENT] key: rows in insertion order *)

Section Table.
Context {A : Type} (rowid : A → Z).

(** Largest key handed out so far; no handler deletes from these tables. *)
Definition last_rowid (rows : list A) : Z :=
  foldr (λ r m, Z.max (rowid r) m) 0 rows.

Definition next_rowid (rows : list A) : Z := last_rowid rows + 1.

(** [UPDATE ... SET ... WHERE p]. *)
Definition update_where (p : A → bool) (f : A → A) (rows : list A) : list A :=
  (λ r, if p r then f r else r) <$> rows.

(** [SELECT COUNT( * ) ... WHERE p]. *)
Definition count_where (p : A → bool) (rows : list A) : nat :=
  length (List.filter p rows).
End Table.

(** ** Text helpers on ASCII text: [str.split(sep)], [str.strip()], [c in s] *)

Fixpoint split_on (sep : ascii) (s : string) : list string :=
  match s with
  | EmptyString => [EmptyString]
  | String c rest =>
      if Ascii.eqb c sep then EmptyString :: split_on sep rest
      else match split_on sep rest with
           | [] => [String c EmptyString]
           | w :: ws => String c w :: ws
           end
  end.

Definition is_space (c : ascii) : bool :=
  let n := nat_of_ascii c in
  ((9 <=? n)%nat && (n <=? 13)%nat) || (n =? 32)%nat || ((28 <=? n)%nat && (n <=? 31)%nat).

Fixpoint lstrip (s : string) : string :=
  match s with
  | String c rest => if is_space c then lstrip rest else s
  | EmptyString => EmptyString
  end.

Fixpoint rstrip (s : string) : string :=
  match s with
  | EmptyString => EmptyString
  | String c rest =>
      match rstrip rest with
      | EmptyString => if is_space c then EmptyString else String c EmptyString
      | r => String c r
      end
  end.

Definition strip (s : string) : string := rstrip (lstrip s).

Fixpoint contains_char (c : ascii) (s : string) : bool :=
  match s with
  | EmptyString => false
  | String d rest => Ascii.eqb c d || contains_char c rest
  end.

(** ** Column and key updates *)

Definition set_balance (v : float) (u : User) : User :=
  mkUser (username u) (first_name u) (last_name u) v (total_earned u)
         (total_withdrawn u) (completed_tasks u) (pending_tasks u)
         (joined_date u) (last_active u) (verified_ip u) (is_verified u) (is_blocked u).

Definition set_total_earned (v : float) (u : User) : User :=
  mkUser (username u) (first_name u) (last_name u) (balance u) v
         (total_withdrawn u) (completed_tasks u) (pending_tasks u)
         (joined_date u) (last_active u) (verified_ip u) (is_verified u) (is_blocked u).

Definition set_total_withdrawn (v : float) (u : User) : User :=
  mkUser (username u) (first_name u) (last_name u) (balance u) (total_earned u)
         v (completed_tasks u) (pending_tasks u)
         (joined_date u) (last_active u) (verified_ip u) (is_verified u) (is_blocked u).

Definition set_completed_tasks (v : Z) (u : User) : User :=
  mkUser (username u) (first_name u) (last_name u) (balance u) (total_earned u)
         (total_withdrawn u) v (pending_tasks u)
         (joined_date u) (last_active u) (verified_ip u) (is_verified u) (is_blocked u).

Definition set_pending_tasks (v : Z) (u : User) : User :=
  mkUser (username u) (first_name u) (last_name u) (balance u) (total_earned u)
         (total_withdrawn u) (completed_tasks u) v
         (joined_date u) (last_active u) (verified_ip u) (is_verified u) (is_blocked u).

Definition set_last_active (v : string) (u : User) : User :=
  mkUser (username u) (first_name u) (last_name u) (balance u) (total_earned u)
         (total_withdrawn u) (completed_tasks u) (pending_tasks u)
         (joined_date u) v (verified_ip u) (is_verified u) (is_blocked u).

Definition set_verified (ip : string) (u : User) : User :=
  mkUser (username u) (first_name u) (last_name u) (balance u) (total_earned u)
         (total_withdrawn u) (completed_tasks u) (pending_tasks u)
         (joined_date u) (last_active u) (Some ip) true (is_blocked u).

Definition set_pending_submission (v : option Z) (d : UserData) : UserData :=
  mkUserData v (withdraw_method d) (awaiting_withdraw_amount d) (withdraw_amount d)
             (awaiting_upi_details d) (awaiting_gateway_details d) (admin_action d).

Definition set_withdraw_method (v : option string) (d : UserData) : UserData :=
  mkUserData (pending_submission d) v (awaiting_withdraw_amount d) (withdraw_amount d)
             (awaiting_upi_details d) (awaiting_gateway_details d) (admin_action d).

Definition set_awaiting_withdraw_amount (v : bool) (d : UserData) : UserData :=
  mkUserData (pending_submission d) (withdraw_method d) v (withdraw_amount d)
             (awaiting_upi_details d) (awaiting_gateway_details d) (admin_action d).

Definition set_withdraw_amount (v : option float) (d : UserData) : UserData :=
  mkUserData (pending_submission d) (withdraw_method d) (awaiting_withdraw_amount d) v
             (awaiting_upi_details d) (awaiting_gateway_details d) (admin_action d).

Definition set_awaiting_upi_details (v : bool) (d : UserData) : UserData :=
  mkUserData (pending_submission d) (withdraw_method d) (awaiting_withdraw_amount d)
             (withdraw_amount d) v (awaiting_gateway_details d) (admin_action d).

Definition set_awaiting_gateway_details (v : bool) (d : UserData) : UserData :=
  mkUserData (pending_submission d) (withdraw_method d) (awaiting_withdraw_amount d)
             (withdraw_amount d) (awaiting_upi_details d) v (admin_action d).

Definition set_admin_action (v : option string) (d : UserData) : UserData :=
  mkUserData (pending_submission d) (withdraw_method d) (awaiting_withdraw_amount d)
             (withdraw_amount d) (awaiting_upi_details d) (awaiting_gateway_details d) v.

Definition set_users (v : gmap Z User) (st : State) : State :=
  mkState v (ip_addresses st) (tasks st) (submissions st) (withdrawals st)
          (channels st) (transactions st) (user_data st).

Definition set_ip_addresses (v : gmap string IpRow) (st : State) : State :=
  mkState (users st) v (tasks st) (submissions st) (withdrawals st)
          (channels st) (transactions st) (user_data st).

Definition set_tasks (v : list Task) (st : State) : State :=
  mkState (users st) (ip_addresses st) v (submissions st) (withdrawals st)
          (channels st) (transactions st) (user_data st).

Definition set_submissions (v : list Submission) (st : State) : State :=
  mkState (users st) (ip_addresses st) (tasks st) v (withdrawals st)
          (channels st) (transactions st) (user_data st).

Definition set_withdrawals (v : list Withdrawal) (st : State) : State :=
  mkState (users st) (ip_addresses st) (tasks st) (submissions st) v
          (channels st) (transactions st) (user_data st).

Definition set_channels (v : gmap string Channel) (st : State) : State :=
  mkState (users st) (ip_addresses st) (tasks st) (submissions st) (withdrawals st)
          v (transactions st) (user_data st).

Definition set_transactions (v : list Transaction) (st : State) : State :=
  mkState (users st) (ip_addresses st) (tasks st) (submissions st) (withdrawals st)
          (channels st) v (user_data st).

(** [context.user_data] of one Telegram user; an empty dict until written. *)
Definition get_user_data (st : State) (uid : Z) : UserData :=
  default no_user_data (user_data st !! uid).

Definition set_user_data (uid : Z) (d : UserData) (st : State) : State :=
  mkState (users st) (ip_addresses st) (tasks st) (submissions st) (withdrawals st)
          (channels st) (transactions st) (<[uid := d]> (user_data st)).

(** [UPDATE users SET ... WHERE user_id = ?]: no row, no effect. *)
Definition update_user (uid : Z) (f : User → User) (st : State) : State :=
  set_users (alter f uid (users st)) st.

(** ** Row predicates used in the [WHERE] clauses *)

Definition is_pending (s : Submission) : bool :=
  match sub_status s with SubPending => true | _ => false end.

Definition is_approved (s : Submission) : bool :=
  match sub_status s with SubApproved => true | _ => false end.

Definition wd_is_pending (w : Withdrawal) : bool :=
  match wd_status w with WdPending => true | _ => false end.

(** [WHERE user_id = ? AND task_id = ? AND status = 'pending'] *)
Definition pending_for (uid tid : Z) (s : Submission) : bool :=
  (sub_user_id s =? uid) && (sub_task_id s =? tid) && is_pending s.

Definition approved_for (uid tid : Z) (s : Submission) : bool :=
  (sub_user_id s =? uid) && (sub_task_id s =? tid) && is_approved s.

Definition set_reviewed (status : SubmissionStatus) (ts : string) (by_admin : Z)
    (note : option string) (s : Submission) : Submission :=
  mkSubmission (submission_id s) (sub_user_id s) (sub_task_id s) (screenshot s)
               status (submitted_date s) (Some ts) (Some by_admin) note (sub_ip_address s).

Definition set_completed (ts txn : string) (w : Withdrawal) : Withdrawal :=
  mkWithdrawal (withdrawal_id w) (wd_user_id w) (wd_amount w) (wd_method w)
               (account_details w) WdCompleted (requested_date w) (Some ts)
               (Some txn) (admin_notes w).

Definition set_wd_rejected (ts reason : string) (w : Withdrawal) : Withdrawal :=
  mkWithdrawal (withdrawal_id w) (wd_user_id w) (wd_amount w) (wd_method w)
               (account_details w) WdRejected (requested_date w) (Some ts)
               (wd_transaction_id w) (Some reason).

Definition deactivate (t : Task) : Task :=
  mkTask (task_id t) (description t) (reward t) (requirements t) (task_link t)
         false (created_date t) (created_by t).

(** ** Connections to the database file ([get_db], lines 128-129)

    Every handler opens a connection of its own.  With the defaults of
    the [sqlite3] module the first [INSERT] or [UPDATE] executed through
    a connection begins a transaction, which holds the write lock of the
    file until [conn.commit()]; until then the writes are seen through
    that connection only, and they are undone when the connection goes
    away without a commit. *)

Record Connection := mkConnection {
  committed : State;             (* the file, as any other connection finds it *)
  uncommitted : option State     (* the open transaction of this connection *)
}.

Definition get_db (st : State) : Connection := mkConnection st None.

(** What a [SELECT] through the connection reads. *)
Definition seen (conn : Connection) : State :=
  default (committed conn) (uncommitted conn).

(** [c.execute] of an [INSERT] or [UPDATE]. *)
Definition execute (write : State → State) (conn : Connection) : Connection :=
  mkConnection (committed conn) (Some (write (seen conn))).

(** [conn.commit()] *)
Definition commit (conn : Connection) : State := seen conn.

(** ** [log_transaction] (lines 131-140)

    It opens a second connection to the file, inserts through it, commits
    and closes.  [conn] is the connection its caller has open at the
    call.  While that one holds the write lock the [INSERT] of line 134
    waits for the lock (five seconds, the default [timeout] of
    [sqlite3.connect]) and raises [sqlite3.OperationalError: database is
    locked]: [None].  Otherwise the row is committed to the file at
    once. *)

Definition log_transaction (uid : Z) (type : TxType) (amount before after : float)
    (descr ts : string) (admin : option Z) (conn : Connection) : option Connection :=
  match uncommitted conn with
  | Some _ => None
  | None =>
      let st := committed conn in
      Some (get_db
              (set_transactions
                 (transactions st ++
                    [mkTransaction (next_rowid transaction_id (transactions st)) uid type
                                   amount before after descr ts admin]) st))
  end.

(** ** [verify_user_ip] (lines 180-207) *)

Definition verify_user_ip (uid : Z) (ip_address : string) (ts : string)
    (st : State) : State * bool :=
  let result := ip_addresses st !! ip_address in
  if match result with Some row => negb (ip_user_id row =? uid) | None => false end
  then (st, false)
  else
    let first := from_option first_seen ts result in
    let st1 := set_ip_addresses (<[ip_address := mkIpRow uid first ts]> (ip_addresses st)) st in
    (update_user uid (set_verified ip_address) st1, true).

(** ** What the handler answers *)

Inductive Reply :=
  | NoReply                    (* a bare [return] *)
  | Raised                     (* an uncaught exception ended the handler *)
  | Welcome                    (* [start]: one of its three screens *)
  | IpDetectionIssue           (* "IP Detection Issue" *)
  | VerificationComplete       (* "Verification Complete!" *)
  | VerificationFailed         (* "This IP address is already associated with another account." *)
  | NotVerified                (* "Please complete verification first using /start" *)
  | TaskNotFoundOrInactive     (* "Task not found or inactive" *)
  | PendingSubmissionExists    (* "You already have a pending submission for this task" *)
  | AskScreenshot (tid : Z)    (* "Please send a screenshot of your task completion ..." *)
  | NoSubmissionStarted        (* "Please start a task submission first using /tasks" *)
  | AlreadyCompleted           (* "You have already completed this task" *)
  | TaskSubmitted (sid : Z)    (* "Task Submitted Successfully!" *)
  | AskAmount                  (* "Please enter the amount you want to withdraw" *)
  | InvalidNumber              (* "Please enter a valid number" *)
  | BelowMinimum (min_amount : float)      (* "Minimum withdrawal amount is ..." *)
  | InsufficientBalance (current : float)  (* "Insufficient balance. Your balance: ..." *)
  | AskGatewayDetails          (* "Please enter your gateway account details ..." *)
  | AskUpiId                   (* "Please enter your UPI ID ..." *)
  | InvalidUpiId               (* "Please enter a valid UPI ID (e.g., name@bank)" *)
  | WithdrawalRequested (wid : Z) (amount : float)   (* "Withdrawal Request Submitted" *)
  | AskTaskDetails             (* "Add New Task ..." *)
  | InvalidTaskFormat          (* "Invalid format. Please use: Description | Reward | ..." *)
  | InvalidReward              (* "Invalid reward amount" *)
  | TaskAdded (tid : Z)        (* "Task #... added successfully!" *)
  | AskTaskId                  (* "Please enter the Task ID to remove" *)
  | TaskDeactivated (tid : Z)  (* "Task #... has been removed/deactivated." *)
  | TaskNotFound (tid : Z)     (* "Task #... not found." *)
  | SubmissionNotFoundOrProcessed          (* "Submission not found or already processed" *)
  | SubmissionApproved (sid : Z) (credited : float)  (* "Submission #... approved. ... credited to user." *)
  | SubmissionRejected (sid : Z)           (* "Submission #... rejected. User notified." *)
  | WithdrawalNotFoundOrProcessed          (* "Withdrawal not found or already processed" *)
  | WithdrawalApproved (wid : Z)           (* "Withdrawal #... approved and marked as completed." *)
  | WithdrawalRefunded (wid : Z) (refunded : float)  (* "Withdrawal #... rejected. ... refunded to user." *)
  | UserNotFound               (* "User not found" *)
  | PointsAdded (target : Z) (amount new_balance : float)     (* "Added ... to user ..." *)
  | InsufficientUserBalance (current : float)       (* "Insufficient balance. User has ..." *)
  | PointsDeducted (target : Z) (amount new_balance : float)  (* "Deducted ... from user ..." *)
  | AskChannelDetails          (* "Add Required Channel ..." *)
  | InvalidChannelFormat       (* "Invalid format. Please use: Channel ID | Channel Name | Type" *)
  | ChannelAdded               (* "Channel ... added successfully!" *)
  | ChannelRemoved             (* "Channel removed successfully!" *)
  | Screen.                    (* the update goes on to code that only reads the tables:
                                  a menu, a list, a statistics screen, or nothing; what
                                  it sends, or whether it raises, is not represented *)

(** ** The handlers *)

Section Handlers.

(** [ADMIN_IDS] is read from the environment at start-up (line 20). *)
Variable ADMIN_IDS : list Z.

(** [float(text)]: any reading of texts as binary64 numbers, the
    infinities and NaN included; [None] is the [ValueError] of a text
    that is not a number. *)
Variable parse_float : string → option float.

Definition is_admin (update : Update) : bool :=
  bool_decide (user_id update ∈ ADMIN_IDS).

(** [start] (lines 210-276): the insert of a first-time user.  What
    follows in the source only reads. *)
Definition start (update : Update) (st : State) : State * Reply :=
  match users st !! user_id update with
  | Some _ => (st, Welcome)
  | None =>
      (set_users
         (<[user_id update :=
              mkUser (upd_username update) (upd_first_name update) (upd_last_name update)
                     0%float 0%float 0%float 0 0 (now update) (now update)
                     None false false]> (users st)) st,
       Welcome)
  end.

(** [handle_verification], branch ["verify_ip"] (lines 351-379). *)
Definition handle_verification (update : Update) (st : State) : State * Reply :=
  let ip_address := get_user_ip update in
  if String.eqb ip_address "0.0.0.0" then (st, IpDetectionIssue)
  else
    let '(st1, ok) := verify_user_ip (user_id update) ip_address (now update) st in
    if ok then (st1, VerificationComplete) else (st1, VerificationFailed).

(** [submit_task] (lines 447-479). *)
Definition submit_task (update : Update) (tid : Z) (st : State) : State * Reply :=
  let uid := user_id update in
  match users st !! uid with
  | None => (st, NotVerified)
  | Some u =>
      if negb (is_verified u) || is_blocked u then (st, NotVerified)
      else if negb (existsb (λ t, (task_id t =? tid) && is_active t) (tasks st))
      then (st, TaskNotFoundOrInactive)
      else if existsb (pending_for uid tid) (submissions st)
      then (st, PendingSubmissionExists)
      else (set_user_data uid (set_pending_submission (Some tid) (get_user_data st uid)) st,
            AskScreenshot tid)
  end.

(** [handle_screenshot] (lines 481-562).  The unpacking of the task row
    at line 527 comes after [conn.commit()]: if it raises, the row stays
    and the key is not deleted. *)
Definition handle_screenshot (update : Update) (photo : string) (st : State)
    : State * Reply :=
  let uid := user_id update in
  let d := get_user_data st uid in
  match pending_submission d with
  | None => (st, NoSubmissionStarted)
  | Some tid =>
      if existsb (approved_for uid tid) (submissions st)
      then (set_user_data uid (set_pending_submission None d) st, AlreadyCompleted)
      else
        let sid := next_rowid submission_id (submissions st) in
        let row := mkSubmission sid uid tid photo SubPending (now update)
                                None None None (get_user_ip update) in
        let st1 := set_submissions (submissions st ++ [row]) st in
        let st2 := update_user uid
                     (λ u, set_last_active (now update)
                             (set_pending_tasks (pending_tasks u + 1) u)) st1 in
        match find (λ t, task_id t =? tid) (tasks st) with
        | None => (st2, Raised)
        | Some _ => (set_user_data uid (set_pending_submission None d) st2, TaskSubmitted sid)
        end
  end.

Definition is_gateway (method : option string) : bool :=
  match method with Some m => String.eqb m "gateway" | None => false end.

(** [handle_withdraw_method] (lines 639-669); [method] is
    [query.data.split('_')[1]]. *)
Definition handle_withdraw_method (update : Update) (method : string) (st : State)
    : State * Reply :=
  let uid := user_id update in
  let d := set_withdraw_method (Some method) (get_user_data st uid) in
  match users st !! uid with
  | None => (set_user_data uid d st, Raised)
  | Some _ => (set_user_data uid (set_awaiting_withdraw_amount true d) st, AskAmount)
  end.

(** [handle_withdraw_amount] (lines 671-720). *)
Definition handle_withdraw_amount (update : Update) (text : string) (st : State)
    : State * Reply :=
  let uid := user_id update in
  let d := get_user_data st uid in
  if negb (awaiting_withdraw_amount d) then (st, NoReply)
  else
    let method := withdraw_method d in
    match parse_float text with
    | None => (st, InvalidNumber)
    | Some amount =>
        let min_amount :=
          if is_gateway method then MIN_WITHDRAWAL_GATEWAY else MIN_WITHDRAWAL_UPI in
        if (amount <? min_amount)%float then (st, BelowMinimum min_amount)
        else
          match users st !! uid with
          | None => (st, Raised)
          | Some u =>
              if (balance u <? amount)%float then (st, InsufficientBalance (balance u))
              else if is_gateway method
              then (set_user_data uid
                      (set_awaiting_withdraw_amount false
                         (set_awaiting_gateway_details true
                            (set_withdraw_amount (Some amount) d))) st,
                    AskGatewayDetails)
              else (set_user_data uid
                      (set_awaiting_withdraw_amount false
                         (set_awaiting_upi_details true
                            (set_withdraw_amount (Some amount) d))) st,
                    AskUpiId)
          end
    end.

(** Lines 741-770 and 800-802 of [handle_withdraw_details]: the request
    itself, once the method is known and its flag is deleted ([d]).  The
    call of line 766 comes after the [INSERT] of line 752 and the
    [UPDATE] of line 762 and before the [conn.commit()] of line 769. *)
Definition process_withdrawal (update : Update) (method upper account : string)
    (d : UserData) (st : State) : State * Reply :=
  let uid := user_id update in
  let st0 := set_user_data uid d st in
  let conn := get_db st0 in
  match users (seen conn) !! uid, withdraw_amount d with
  | Some u, Some amount =>
      let balance_before := balance u in
      let wid := next_rowid withdrawal_id (withdrawals (seen conn)) in
      let row := mkWithdrawal wid uid amount method account WdPending (now update)
                              None None None in
      let conn := execute (λ s, set_withdrawals (withdrawals s ++ [row]) s) conn in
      let balance_after := (balance_before - amount)%float in
      let conn := execute
                    (update_user uid
                       (λ r, set_total_withdrawn (total_withdrawn r + amount)%float
                               (set_balance balance_after r))) conn in
      match log_transaction uid TxWithdrawalRequest amount balance_before balance_after
              ("Withdrawal request #" +:+ pretty wid +:+ " via " +:+ upper)
              (now update) None conn with
      | None =>
          (* line 766 raises: nothing is committed, the flag stays
             deleted and the amount and the method stay *)
          (st0, Raised)
      | Some conn =>
          (set_user_data uid (set_withdraw_method None (set_withdraw_amount None d))
             (commit conn),
           WithdrawalRequested wid amount)
      end
  | _, _ =>
      (* [c.fetchone()[0]] on no row, or [balance_before - None]: nothing
         is committed, the flag stays deleted *)
      (st0, Raised)
  end.

(** [handle_withdraw_details] (lines 722-802). *)
Definition handle_withdraw_details (update : Update) (text : string) (st : State)
    : State * Reply :=
  let d := get_user_data st (user_id update) in
  if negb (awaiting_upi_details d) && negb (awaiting_gateway_details d) then (st, NoReply)
  else if awaiting_upi_details d then
    if negb (contains_char "@" text) then (st, InvalidUpiId)
    else process_withdrawal update "upi" "UPI" text (set_awaiting_upi_details false d) st
  else process_withdrawal update "gateway" "GATEWAY" text
         (set_awaiting_gateway_details false d) st.

(** [admin_add_task] (lines 836-850): no check of the sender. *)
Definition admin_add_task (update : Update) (st : State) : State * Reply :=
  let uid := user_id update in
  (set_user_data uid (set_admin_action (Some "add_task") (get_user_data st uid)) st,
   AskTaskDetails).

(** [admin_handle_task_add] (lines 852-901). *)
Definition admin_handle_task_add (update : Update) (text : string) (st : State)
    : State * Reply :=
  let uid := user_id update in
  let d := get_user_data st uid in
  if negb (bool_decide (admin_action d = Some "add_task")) then (st, NoReply)
  else if negb (is_admin update) then (st, NoReply)
  else
    let parts := split_on "|" text in
    match parts with
    | p0 :: p1 :: rest =>
        match parse_float (strip p1) with
        | None => (st, InvalidReward)
        | Some reward =>
            let requirements := from_option strip "" (rest !! 0%nat) in
            let task_link := from_option strip "" (rest !! 1%nat) in
            let tid := next_rowid task_id (tasks st) in
            let row := mkTask tid (strip p0) reward requirements task_link true
                              (now update) uid in
            (set_user_data uid (set_admin_action None d)
               (set_tasks (tasks st ++ [row]) st),
             TaskAdded tid)
        end
    | _ => (st, InvalidTaskFormat)
    end.

(** [admin_approve_submission] (lines 984-1037).  The [SELECT] joins the
    submission with its task and its user; primary keys are unique, so
    at most one row of each table takes part.  The call of line 1018
    comes after the two [UPDATE]s (lines 1004, 1012) and before the
    [conn.commit()] of line 1021. *)
Definition admin_approve_submission (update : Update) (sid : Z) (st : State)
    : State * Reply :=
  if negb (is_admin update) then (st, NoReply)
  else
    let conn := get_db st in
    match find (λ s, (submission_id s =? sid) && is_pending s) (submissions (seen conn)) with
    | None => (st, SubmissionNotFoundOrProcessed)
    | Some s =>
        match find (λ t, task_id t =? sub_task_id s) (tasks (seen conn)),
              users (seen conn) !! sub_user_id s with
        | Some t, Some u =>
            let uid := sub_user_id s in
            let current_balance := balance u in
            let conn := execute
                          (λ st, set_submissions
                                   (update_where (λ r, submission_id r =? sid)
                                      (λ r, set_reviewed SubApproved (now update)
                                              (user_id update) (notes r) r)
                                      (submissions st)) st) conn in
            let new_balance := (current_balance + reward t)%float in
            let conn := execute
                          (update_user uid
                             (λ r, set_pending_tasks (pending_tasks r - 1)
                                     (set_completed_tasks (completed_tasks r + 1)
                                        (set_total_earned (total_earned r + reward t)%float
                                           (set_balance new_balance r))))) conn in
            match log_transaction uid TxCredit (reward t) current_balance new_balance
                    ("Task #" +:+ pretty (sub_task_id s) +:+ " approved") (now update)
                    None conn with
            | None => (st, Raised)     (* line 1018 raises: nothing is committed *)
            | Some conn => (commit conn, SubmissionApproved sid (reward t))
            end
        | _, _ => (st, SubmissionNotFoundOrProcessed)
        end
    end.

(** [admin_reject_submission] (lines 1068-1113). *)
Definition admin_reject_submission (update : Update) (sid : Z) (reason : string)
    (st : State) : State * Reply :=
  if negb (is_admin update) then (st, NoReply)
  else
    match find (λ s, (submission_id s =? sid) && is_pending s) (submissions st) with
    | None => (st, SubmissionNotFoundOrProcessed)
    | Some s =>
        match users st !! sub_user_id s with
        | Some _ =>
            let st1 := set_submissions
                         (update_where (λ r, submission_id r =? sid)
                            (set_reviewed SubRejected (now update) (user_id update)
                               (Some reason))
                            (submissions st)) st in
            (update_user (sub_user_id s)
               (λ r, set_pending_tasks (pending_tasks r - 1) r) st1,
             SubmissionRejected sid)
        | None => (st, SubmissionNotFoundOrProcessed)
        end
    end.

(** [admin_approve_withdrawal] (lines 1179-1218). *)
Definition admin_approve_withdrawal (update : Update) (wid : Z) (txn_id : string)
    (st : State) : State * Reply :=
  if negb (is_admin update) then (st, NoReply)
  else
    match find (λ w, (withdrawal_id w =? wid) && wd_is_pending w) (withdrawals st) with
    | None => (st, WithdrawalNotFoundOrProcessed)
    | Some _ =>
        (set_withdrawals
           (update_where (λ r, withdrawal_id r =? wid) (set_completed (now update) txn_id)
              (withdrawals st)) st,
         WithdrawalApproved wid)
    end.

(** [admin_reject_withdrawal] (lines 1249-1303).  The call of line 1283
    comes after the two [UPDATE]s (lines 1274, 1280) and before the
    [conn.commit()] of line 1286. *)
Definition admin_reject_withdrawal (update : Update) (wid : Z) (reason : string)
    (st : State) : State * Reply :=
  if negb (is_admin update) then (st, NoReply)
  else
    let conn := get_db st in
    match find (λ w, (withdrawal_id w =? wid) && wd_is_pending w)
               (withdrawals (seen conn)) with
    | None => (st, WithdrawalNotFoundOrProcessed)
    | Some w =>
        let uid := wd_user_id w in
        let amount := wd_amount w in
        match users (seen conn) !! uid with
        | None => (st, Raised)          (* [c.fetchone()[0]] on no row *)
        | Some u =>
            let current_balance := balance u in
            let new_balance := (current_balance + amount)%float in
            let conn := execute
                          (λ st, set_withdrawals
                                   (update_where (λ r, withdrawal_id r =? wid)
                                      (set_wd_rejected (now update) reason)
                                      (withdrawals st)) st) conn in
            let conn := execute (update_user uid (set_balance new_balance)) conn in
            match log_transaction uid TxRefund amount current_balance new_balance
                    ("Withdrawal #" +:+ pretty wid +:+ " rejected - " +:+ reason)
                    (now update) (Some (user_id update)) conn with
            | None => (st, Raised)     (* line 1283 raises: nothing is committed *)
            | Some conn => (commit conn, WithdrawalRefunded wid amount)
            end
        end
    end.

(** [admin_add_points] (lines 1563-1620); [amount] is
    [float(context.args[1])].  The call of line 1601 comes after the
    [UPDATE] of line 1597 and before the [conn.commit()] of line 1604. *)
Definition admin_add_points (update : Update) (target_id : Z) (amount : float)
    (reason : string) (st : State) : State * Reply :=
  if negb (is_admin update) then (st, NoReply)
  else
    let conn := get_db st in
    match users (seen conn) !! target_id with
    | None => (st, UserNotFound)
    | Some u =>
        let current_balance := balance u in
        let new_balance := (current_balance + amount)%float in
        let conn := execute
                      (update_user target_id
                         (λ r, set_total_earned (total_earned r + amount)%float
                                 (set_balance new_balance r))) conn in
        match log_transaction target_id TxCredit amount current_balance new_balance
                ("Admin add: " +:+ reason) (now update) (Some (user_id update)) conn with
        | None => (st, Raised)         (* line 1601 raises: nothing is committed *)
        | Some conn => (commit conn, PointsAdded target_id amount new_balance)
        end
    end.

(** [admin_deduct_points] (lines 1622-1685).  The call of line 1666 comes
    after the [UPDATE] of line 1662 and before the [conn.commit()] of
    line 1669. *)
Definition admin_deduct_points (update : Update) (target_id : Z) (amount : float)
    (reason : string) (st : State) : State * Reply :=
  if negb (is_admin update) then (st, NoReply)
  else
    let conn := get_db st in
    match users (seen conn) !! target_id with
    | None => (st, UserNotFound)
    | Some u =>
        let current_balance := balance u in
        if (current_balance <? amount)%float
        then (st, InsufficientUserBalance current_balance)
        else
          let new_balance := (current_balance - amount)%float in
          let conn := execute (update_user target_id (set_balance new_balance)) conn in
          match log_transaction target_id TxDebit amount current_balance new_balance
                  ("Admin deduct: " +:+ reason) (now update) (Some (user_id update))
                  conn with
          | None => (st, Raised)       (* line 1666 raises: nothing is committed *)
          | Some conn => (commit conn, PointsDeducted target_id amount new_balance)
          end
    end.

(** [admin_remove_task] (lines 1687-1721): [None] is the callback of the
    admin panel, [Some tid] the command [/removetask tid]. *)
Definition admin_remove_task (update : Update) (arg : option Z) (st : State)
    : State * Reply :=
  if negb (is_admin update) then (st, NoReply)
  else
    match arg with
    | None =>
        let uid := user_id update in
        (set_user_data uid (set_admin_action (Some "remove_task") (get_user_data st uid)) st,
         AskTaskId)
    | Some tid =>
        if existsb (λ t, task_id t =? tid) (tasks st)
        then (set_tasks (update_where (λ t, task_id t =? tid) deactivate (tasks st)) st,
              TaskDeactivated tid)
        else (st, TaskNotFound tid)
    end.

(** [admin_add_channel] (lines 1431-1446). *)
Definition admin_add_channel (update : Update) (st : State) : State * Reply :=
  let uid := user_id update in
  (set_user_data uid (set_admin_action (Some "add_channel") (get_user_data st uid)) st,
   AskChannelDetails).

(** [admin_handle_channel_add] (lines 1448-1484). *)
Definition admin_handle_channel_add (update : Update) (text : string) (st : State)
    : State * Reply :=
  let uid := user_id update in
  let d := get_user_data st uid in
  if negb (bool_decide (admin_action d = Some "add_channel")) then (st, NoReply)
  else if negb (is_admin update) then (st, NoReply)
  else
    match split_on "|" text with
    | p0 :: p1 :: rest =>
        let channel_type := from_option strip "public" (rest !! 0%nat) in
        (set_user_data uid (set_admin_action None d)
           (set_channels
              (<[strip p0 := mkChannel (strip p1) channel_type true (now update) uid]>
                 (channels st)) st),
         ChannelAdded)
    | _ => (st, InvalidChannelFormat)
    end.

(** [admin_handle_channel_remove] (lines 1513-1526). *)
Definition admin_handle_channel_remove (update : Update) (channel_id : string)
    (st : State) : State * Reply :=
  (set_channels (delete channel_id (channels st)) st, ChannelRemoved).

(** [handle_message] (lines 1723-1833): the dispatch on the conversation
    data.  What comes after it only reads: the screens of the menu
    buttons, and nothing at all for any other text. *)
Definition handle_message (update : Update) (text : string) (st : State)
    : State * Reply :=
  let d := get_user_data st (user_id update) in
  if bool_decide (admin_action d = Some "add_task")
  then admin_handle_task_add update text st
  else if bool_decide (admin_action d = Some "add_channel")
  then admin_handle_channel_add update text st
  else if awaiting_withdraw_amount d
  then handle_withdraw_amount update text st
  else if awaiting_upi_details d || awaiting_gateway_details d
  then handle_withdraw_details update text st
  else (st, Screen).

(** ** Incoming updates and runs *)

Inductive Event :=
  | Start
  | VerifyIp
  | SubmitTask (tid : Z)
  | Photo (file_id : string)
  | WithdrawMethod (method : string)
  | Message (text : string)
  | AddTaskButton
  | AddChannelButton
  | RemoveChannel (channel_id : string)
  | RemoveTask (arg : option Z)
  | ApproveSubmission (sid : Z)
  | RejectSubmission (sid : Z) (reason : string)
  | ApproveWithdrawal (wid : Z) (txn_id : string)
  | RejectWithdrawal (wid : Z) (reason : string)
  | AddPoints (target_id : Z) (amount : float) (reason : string)
  | DeductPoints (target_id : Z) (amount : float) (reason : string).

Definition handle (update : Update) (ev : Event) (st : State) : State * Reply :=
  match ev with
  | Start => start update st
  | VerifyIp => handle_verification update st
  | SubmitTask tid => submit_task update tid st
  | Photo file_id => handle_screenshot update file_id st
  | WithdrawMethod method => handle_withdraw_method update method st
  | Message text => handle_message update text st
  | AddTaskButton => admin_add_task update st
  | AddChannelButton => admin_add_channel update st
  | RemoveChannel channel_id => admin_handle_channel_remove update channel_id st
  | RemoveTask arg => admin_remove_task update arg st
  | ApproveSubmission sid => admin_approve_submission update sid st
  | RejectSubmission sid reason => admin_reject_submission update sid reason st
  | ApproveWithdrawal wid txn_id => admin_approve_withdrawal update wid txn_id st
  | RejectWithdrawal wid reason => admin_reject_withdrawal update wid reason st
  | AddPoints target_id amount reason => admin_add_points update target_id amount reason st
  | DeductPoints target_id amount reason =>
      admin_deduct_points update target_id amount reason st
  end.

Definition step (st : State) (e : Update * Event) : State :=
  fst (handle (fst e) (snd e) st).

(** The state after the updates of [trace], oldest first. *)
Definition run (trace : list (Update * Event)) (st : State) : State :=
  foldl step st trace.

Definition reachable (st : State) : Prop :=
  ∃ trace, st = run trace init.

End Handlers.

Arguments reachable ADMIN_IDS parse_float st : simpl never.

(** ** A concrete reading of [float(text)] for the examples: decimal
    integers of at most 15 digits, with an optional sign and surrounding
    blanks, and ["nan"].  Python's [float] gives these texts these values
    (and reads others besides). *)

Definition digit_of (c : ascii) : option Z :=
  let n := nat_of_ascii c in
  if (48 <=? n)%nat && (n <=? 57)%nat then Some (Z.of_nat (n - 48)) else None.

Fixpoint digits_value (acc : Z) (s : string) : option Z :=
  match s with
  | EmptyString => Some acc
  | String c rest =>
      match digit_of c with
      | Some d => digits_value (10 * acc + d) rest
      | None => None
      end
  end.

(** The float of an integer below 2^53, which is exact. *)
Definition float_of_Z (z : Z) : float := PrimFloat.of_uint63 (Uint63.of_Z z).

Definition float_of_digits (s : string) : option float :=
  if (String.length s <=? 15)%nat then float_of_Z <$> digits_value 0 s else None.

Definition float_of_text (text : string) : option float :=
  let s := strip text in
  if String.eqb s "nan" then Some nan
  else
    match s with
    | EmptyString => None
    | String "-" (String c rest) => PrimFloat.opp <$> float_of_digits (String c rest)
    | String "+" (String c rest) => float_of_digits (String c rest)
    | String c rest => float_of_digits (String c rest)
    end.

(** ** The scenarios of the specification, run on the model *)

Module Scenario.

Definition admins : list Z := [900].

Definition alice : Update :=
  mkUpdate 1 "alice" "Alice" "A" "203.0.113.7" "2024-05-01T10:00:00".

(** Bob writes from Alice's address. *)
Definition bob : Update :=
  mkUpdate 2 "bob" "Bob" "B" "203.0.113.7" "2024-05-01T10:05:00".

Definition operator : Update :=
  mkUpdate 900 "op" "Olga" "O" "198.51.100.1" "2024-05-01T09:00:00".

Definition go := run admins float_of_text.
Definition call := handle admins float_of_text.

(** Alice registers and claims her address; the operator adds task 1
    with reward 5. *)
Definition setup : list (Update * Event) :=
  [ (alice, Start); (alice, VerifyIp);
    (operator, AddTaskButton); (operator, Message "Join and post comment | 5") ].

(** Alice submits for task 1 and sends her screenshot. *)
Definition submitted : list (Update * Event) :=
  setup ++ [ (alice, SubmitTask 1); (alice, Photo "AgACAgQAAx0") ].

(** The operator approves submission 1. *)
Definition approval : list (Update * Event) :=
  submitted ++ [ (operator, ApproveSubmission 1) ].

(** The operator sends [/addpoints 1 10 bonus]. *)
Definition funding : list (Update * Event) :=
  setup ++ [ (operator, AddPoints 1 10 "bonus") ].

(** After it Alice chooses UPI and types 10. *)
Definition ten_typed : list (Update * Event) :=
  funding ++ [ (alice, WithdrawMethod "upi"); (alice, Message "10") ].

(** Alice chooses UPI and types [nan]; her UPI id is awaited. *)
Definition nan_typed : list (Update * Event) :=
  setup ++ [ (alice, WithdrawMethod "upi"); (alice, Message "nan") ].

(** She sends her UPI id. *)
Definition nan_requested : list (Update * Event) :=
  nan_typed ++ [ (alice, Message "alice@okhdfcbank") ].

(** The operator rejects withdrawal 1. *)
Definition nan_rejected : list (Update * Event) :=
  nan_requested ++ [ (operator, RejectWithdrawal 1 "wrong id") ].

Definition alice_submission : Submission :=
  mkSubmission 1 1 1 "AgACAgQAAx0" SubPending "2024-05-01T10:00:00"
               None None None "203.0.113.7".

Definition alice_withdrawal : Withdrawal :=
  mkWithdrawal 1 1 10 "upi" "alice@okhdfcbank" WdPending "2024-05-01T10:00:00"
               None None None.

Definition alice_row (balance withdrawn : float) (pending : Z) : User :=
  mkUser "alice" "Alice" "A" balance 0 withdrawn 0 pending "2024-05-01T10:00:00"
         "2024-05-01T10:00:00" (Some "203.0.113.7") true false.

Definition task_one : Task :=
  mkTask 1 "Join and post comment" 5 "" "" true "2024-05-01T09:00:00" 900.


(** Alice has a balance of 50, has chosen UPI and typed 10; her UPI id
    is awaited. *)
Definition with_balance : State :=
  mkState {[ 1 := alice_row 50 0 0 ]} ∅ [ task_one ] [] [] ∅ []
    {[ 1 := mkUserData None (Some "upi") false (Some 10%float) true false None ]}.

(** The table holds her request of 10, pending, and her row shows the
    hold. *)
Definition with_request : State :=
  mkState {[ 1 := alice_row 40 10 0 ]} ∅ [ task_one ] [] [ alice_withdrawal ] ∅ [] ∅.

End Scenario.

(** ** Observations on a state *)

Definition balance_of (st : State) (uid : Z) : float :=
  from_option balance 0%float (users st !! uid).

(** The sign a transaction type gives to its amount. *)
Definition signed_amount (t : Transaction) : float :=
  match tx_type t with
  | TxCredit | TxRefund => tx_amount t
  | TxDebit | TxWithdrawalRequest => (- tx_amount t)%float
  end.

Definition ledger_sum (uid : Z) (txs : list Transaction) : float :=
  foldr (λ t acc, if tx_user_id t =? uid then (signed_amount t + acc)%float else acc)
        0%float txs.

(** [t] records the change of one balance between [st] and [st'], and
    no other balance differs. *)
Definition brackets (st st' : State) (t : Transaction) : Prop :=
  balance_before t = balance_of st (tx_user_id t) ∧
  balance_after t = balance_of st' (tx_user_id t) ∧
  balance_after t = (balance_before t + signed_amount t)%float ∧
  ∀ uid, uid ≠ tx_user_id t → balance_of st' uid = balance_of st uid.

(** Between [st] and [st'] either no balance and no log row changed, or
    exactly one row was appended and it brackets the change. *)
Definition ledger_step (st st' : State) : Prop :=
  (transactions st' = transactions st ∧ ∀ uid, balance_of st' uid = balance_of st uid)
  ∨ (∃ t, transactions st' = transactions st ++ [t] ∧ brackets st st' t).

(** The answers that report a payment: the last message of each of the
    five handlers that call [log_transaction]. *)
Definition reports_payment (r : Reply) : bool :=
  match r with
  | SubmissionApproved _ _ | WithdrawalRequested _ _ | WithdrawalRefunded _ _
  | PointsAdded _ _ _ | PointsDeducted _ _ _ => true
  | _ => false
  end.

Definition user_known (st : State) (uid : Z) : Prop := is_Some (users st !! uid).

Definition task_known (st : State) (tid : Z) : Prop :=
  existsb (λ t, task_id t =? tid) (tasks st) = true.

(** [SELECT COUNT( * ) FROM submissions WHERE user_id = ? AND status = 'pending'] *)
Definition pending_count (st : State) (uid : Z) : nat :=
  count_where (λ s, (sub_user_id s =? uid) && is_pending s) (submissions st).

(** ** What the handlers maintain between them

    Keys are unique, rows refer to existing users and tasks, a started
    submission ([pending_submission] in the conversation data) is for an
    existing user and task with no pending row yet, a (user, task) pair
    has at most one pending row, and [pending_tasks] counts the pending
    rows of its user. *)

Record consistent (st : State) : Prop := {
  submission_ids_unique : NoDup (submission_id <$> submissions st);
  submission_refs : ∀ s, s ∈ submissions st →
    user_known st (sub_user_id s) ∧ task_known st (sub_task_id s);
  withdrawal_ids_unique : NoDup (withdrawal_id <$> withdrawals st);
  withdrawal_refs : ∀ w, w ∈ withdrawals st → user_known st (wd_user_id w);
  draft_refs : ∀ uid d tid,
    user_data st !! uid = Some d → pending_submission d = Some tid →
    user_known st uid ∧ task_known st tid;
  draft_not_pending : ∀ uid d tid,
    user_data st !! uid = Some d → pending_submission d = Some tid →
    existsb (pending_for uid tid) (submissions st) = false;
  pending_once : ∀ uid tid,
    (count_where (pending_for uid tid) (submissions st) ≤ 1)%nat;
  pending_counter : ∀ uid u,
    users st !! uid = Some u → pending_tasks u = Z.of_nat (pending_count st uid)
}.

(** A started submission of [uid] for [tid] is in order in [st]. *)
Definition draft_ok (st : State) (uid tid : Z) : Prop :=
  user_known st uid ∧ task_known st tid ∧
  existsb (pending_for uid tid) (submissions st) = false.

(** Each user row of [m] is still there in [m'] and related by [R]. *)
Definition rows_related (R : User → User → Prop) (m m' : gmap Z User) : Prop :=
  ∀ uid u, m !! uid = Some u → ∃ u', m' !! uid = Some u' ∧ R u u'.

(** The money of a user row and its count of completed tasks are the
    very same values. *)
Definition money_same (u u' : User) : Prop :=
  balance u' = balance u ∧ total_earned u' = total_earned u ∧
  total_withdrawn u' = total_withdrawn u ∧ completed_tasks u' = completed_tasks u.

(** Every recorded address is still recorded for the same user, with the
    same [first_seen]. *)
Definition keeps_owners (m m' : gmap string IpRow) : Prop :=
  ∀ ip row, m !! ip = Some row →
    ∃ row', m' !! ip = Some row' ∧
            ip_user_id row' = ip_user_id row ∧ first_seen row' = first_seen row.

(** ** What one handler call does to the five ledger tables

    [ip_addresses], [channels] and the conversation data are left aside;
    each case gives the new [users], [tasks], [submissions], [withdrawals]
    and [transactions] in terms of the old ones.  There is no case for an
    approval, a withdrawal request, a refund or a change of points: the
    handlers of these call [log_transaction] before they commit. *)

Definition same_ledger_tables (st st' : State) : Prop :=
  tasks st' = tasks st ∧ submissions st' = submissions st ∧
  withdrawals st' = withdrawals st ∧ transactions st' = transactions st.

Inductive Effect (upd : Update) (st st' : State) : Prop :=
  | Untouched :
      users st' = users st → same_ledger_tables st st' → Effect upd st st'
  | Registered :
      users st !! user_id upd = None →
      users st' =
        <[user_id upd :=
            mkUser (upd_username upd) (upd_first_name upd) (upd_last_name upd)
                   0%float 0%float 0%float 0 0 (now upd) (now upd) None false false]>
          (users st) →
      same_ledger_tables st st' → Effect upd st st'
  | Verified ip :
      users st' = alter (set_verified ip) (user_id upd) (users st) →
      same_ledger_tables st st' → Effect upd st st'
  | TaskCreated row :
      task_id row = next_rowid task_id (tasks st) → is_active row = true →
      users st' = users st → tasks st' = tasks st ++ [row] →
      submissions st' = submissions st → withdrawals st' = withdrawals st →
      transactions st' = transactions st → Effect upd st st'
  | TaskRemoved tid :
      users st' = users st →
      tasks st' = update_where (λ t, task_id t =? tid) deactivate (tasks st) →
      submissions st' = submissions st → withdrawals st' = withdrawals st →
      transactions st' = transactions st → Effect upd st st'
  | Submitted tid photo :
      pending_submission (get_user_data st (user_id upd)) = Some tid →
      existsb (approved_for (user_id upd) tid) (submissions st) = false →
      users st' =
        alter (λ u, set_last_active (now upd) (set_pending_tasks (pending_tasks u + 1) u))
          (user_id upd) (users st) →
      tasks st' = tasks st →
      submissions st' =
        submissions st ++
          [mkSubmission (next_rowid submission_id (submissions st)) (user_id upd) tid photo
                        SubPending (now upd) None None None (get_user_ip upd)] →
      withdrawals st' = withdrawals st → transactions st' = transactions st →
      Effect upd st st'
  | Rejected s reason :
      find (λ r, (submission_id r =? submission_id s) && is_pending r) (submissions st)
        = Some s →
      is_Some (users st !! sub_user_id s) →
      users st' =
        alter (λ r, set_pending_tasks (pending_tasks r - 1) r) (sub_user_id s) (users st) →
      tasks st' = tasks st →
      submissions st' =
        update_where (λ r, submission_id r =? submission_id s)
          (set_reviewed SubRejected (now upd) (user_id upd) (Some reason))
          (submissions st) →
      withdrawals st' = withdrawals st → transactions st' = transactions st →
      Effect upd st st'
  | Completed w txn_id :
      find (λ r, (withdrawal_id r =? withdrawal_id w) && wd_is_pending r) (withdrawals st)
        = Some w →
      users st' = users st →
      tasks st' = tasks st → submissions st' = submissions st →
      withdrawals st' =
        update_where (λ r, withdrawal_id r =? withdrawal_id w)
          (set_completed (now upd) txn_id) (withdrawals st) →
      transactions st' = transactions st → Effect upd st st'.

(** ** Counts over the tables *)

(** A submission of [uid] for [tid] that is pending or approved. *)
Definition live_for (uid tid : Z) (s : Submission) : bool :=
  (sub_user_id s =? uid) && (sub_task_id s =? tid) && (is_pending s || is_approved s).

(** Keys are 1, 2, 3, ... in the order of insertion. *)
Definition numbered {A} (rowid : A → Z) (rows : list A) : Prop :=
  ∀ i r, rows !! i = Some r → rowid r = Z.of_nat i + 1.

(** [SELECT SUM(col) FROM users] on an [INTEGER] column; no row gives
    NULL, read as 0 by [or 0]. *)
Definition sum_users (f : User → Z) (m : gmap Z User) : Z :=
  map_fold (λ _ u acc, f u + acc) 0 m.

(** [SELECT COUNT( * ) FROM users WHERE is_blocked = 1] *)
Definition blocked_users (st : State) : Z :=
  sum_users (λ u, if is_blocked u then 1 else 0) (users st).

Definition pending_subs (st : State) : nat := count_where is_pending (submissions st).

Definition approved_subs (st : State) : nat := count_where is_approved (submissions st).

(** ** The bookkeeping the handlers keep in step with the tables *)
Record accounted (st : State) : Prop := {
  never_blocked : ∀ uid u, users st !! uid = Some u → is_blocked u = false;
  tasks_numbered : numbered task_id (tasks st);
  submissions_numbered : numbered submission_id (submissions st);
  pending_total : sum_users pending_tasks (users st) = Z.of_nat (pending_subs st)
}.

(** ** What the runs from the empty database never get to write

    No withdrawal, no log row, no approved submission; every user row
    has the money and the count of completed tasks it was inserted with;
    and an amount kept in the conversation data is a NaN (a number goes
    through the check of line 698 against a balance of 0 only if it is
    not above 0, and then it is below the minimum). *)
Definition only_nan (m : gmap Z UserData) : Prop :=
  ∀ uid d a, m !! uid = Some d → withdraw_amount d = Some a → is_nan a = true.

Record unpaid (st : State) : Prop := {
  no_withdrawals : withdrawals st = [];
  no_transactions : transactions st = [];
  no_approved : ∀ s, s ∈ submissions st → is_approved s = false;
  money_zero : ∀ uid u, users st !! uid = Some u →
    balance u = 0%float ∧ total_earned u = 0%float ∧
    total_withdrawn u = 0%float ∧ completed_tasks u = 0;
  held_nan : only_nan (user_data st)
}.

(** The three invariants together. *)
Definition sound (st : State) : Prop :=
  consistent st ∧ accounted st ∧ unpaid st.

(** ** How rows may change *)

(** Row [i] of [rows] is still row [i] of [rows'], related by [R]: no
    row is deleted or moved. *)
Definition rows_kept {A} (R : A → A → Prop) (rows rows' : list A) : Prop :=
  ∀ i r, rows !! i = Some r → ∃ r', rows' !! i = Some r' ∧ R r r'.

(** What stays of a submission: everything the user sent, and the whole
    row once it is reviewed. *)
Definition sub_settled (s s' : Submission) : Prop :=
  submission_id s' = submission_id s ∧ sub_user_id s' = sub_user_id s ∧
  sub_task_id s' = sub_task_id s ∧ screenshot s' = screenshot s ∧
  submitted_date s' = submitted_date s ∧ sub_ip_address s' = sub_ip_address s ∧
  (is_pending s = false → s' = s).

Definition wd_settled (w w' : Withdrawal) : Prop :=
  withdrawal_id w' = withdrawal_id w ∧ wd_user_id w' = wd_user_id w ∧
  wd_amount w' = wd_amount w ∧ wd_method w' = wd_method w ∧
  account_details w' = account_details w ∧ requested_date w' = requested_date w ∧
  (wd_is_pending w = false → w' = w).

Definition task_kept (t t' : Task) : Prop := t' = t ∨ t' = deactivate t.

Definition user_kept (u u' : User) : Prop :=
  username u' = username u ∧ first_name u' = first_name u ∧
  last_name u' = last_name u ∧ joined_date u' = joined_date u ∧
  is_blocked u' = is_blocked u ∧ (is_verified u = true → is_verified u' = true).

(** ** The arguments of the review commands, read from the message text *)

(** The digits of [int(text)]: decimal digits, single underscores allowed
    between two digits. *)
Fixpoint int_digits (acc : Z) (after_digit : bool) (s : string) : option Z :=
  match s with
  | EmptyString => if after_digit then Some acc else None
  | String c rest =>
      if Ascii.eqb c "_" then
        if after_digit then int_digits acc false rest else None
      else
        match digit_of c with
        | Some d => int_digits (10 * acc + d) true rest
        | None => None
        end
  end.

(** [int(text)] on ASCII text; [None] is the [ValueError]. *)
Definition python_int (text : string) : option Z :=
  match strip text with
  | String "-" rest => Z.opp <$> int_digits 0 false rest
  | String "+" rest => int_digits 0 false rest
  | rest => int_digits 0 false rest
  end.

Fixpoint take_word (s : string) : string :=
  match s with
  | EmptyString => EmptyString
  | String c rest => if is_space c then EmptyString else String c (take_word rest)
  end.

(** [text.split()[0]]; [None] is the [IndexError] of a blank text. *)
Definition first_word (text : string) : option string :=
  match lstrip text with
  | EmptyString => None
  | w => Some (take_word w)
  end.

(** [text.split(sep, 1)[1]]; [None] is the [IndexError] when [sep] is
    not in [text]. *)
Fixpoint after_first (sep : ascii) (text : string) : option string :=
  match text with
  | EmptyString => None
  | String c rest => if Ascii.eqb c sep then Some rest else after_first sep rest
  end.

(** Lines 971-976 of [admin_approve_submission] (and 434-439 of
    [submit_task]): [int(text.split('_')[1])]. *)
Definition approve_submission_id (text : string) : option Z :=
  match split_on "_" text !! 1%nat with
  | Some p => python_int p
  | None => None
  end.

(** Lines 1052-1058 of [admin_reject_submission]; [fallback] is the
    reason computed from [context.args] at line 1050. *)
Definition reject_submission_args (fallback text : string) : option (Z * string) :=
  let parts := split_on "_" text in
  match parts !! 1%nat with
  | None => None
  | Some p =>
      match first_word p with
      | None => None
      | Some w =>
          match python_int w with
          | None => None
          | Some submission_id =>
              if (2 <? length parts)%nat || contains_char " " text
              then
                if contains_char " " text
                then (λ reason, (submission_id, reason)) <$> after_first " " text
                else Some (submission_id, "No reason provided")
              else Some (submission_id, fallback)
          end
      end
  end.

(** Lines 1163-1171 of [admin_approve_withdrawal] and 1233-1241 of
    [admin_reject_withdrawal]: the id is the third part; [default] is
    the literal of the handler and [fallback] the value computed from
    [context.args]. *)
Definition withdrawal_command_args (default fallback text : string)
    : option (Z * string) :=
  let parts := split_on "_" text in
  match parts !! 2%nat with
  | None => None
  | Some p =>
      match first_word p with
      | None => None
      | Some w =>
          match python_int w with
          | None => None
          | Some withdrawal_id =>
              if (3 <? length parts)%nat || contains_char " " text
              then
                if contains_char " " text
                then (λ note, (withdrawal_id, note)) <$> after_first " " text
                else Some (withdrawal_id, default)
              else Some (withdrawal_id, fallback)
          end
      end
  end.

Definition approve_withdrawal_args : string → string → option (Z * string) :=
  withdrawal_command_args "MANUAL".

Definition reject_withdrawal_args : string → string → option (Z * string) :=
  withdrawal_command_args "No reason provided".

(** A text without blanks, underscores or signs inside: what [str(n)]
    gives for a key. *)
Fixpoint all_chars (p : ascii → bool) (s : string) : bool :=
  match s with
  | EmptyString => true
  | String c rest => p c && all_chars p rest
  end.

Definition is_digit (c : ascii) : bool := bool_decide (is_Some (digit_of c)).

(** ** [handle_callback] (lines 1835-1884): the dispatch on [query.data] *)

(** [text.startswith(p)] *)
Fixpoint starts_with (p text : string) : bool :=
  match p, text with
  | EmptyString, _ => true
  | String c p', String d text' => Ascii.eqb c d && starts_with p' text'
  | String _ _, EmptyString => false
  end.

Section Callbacks.
Variable ADMIN_IDS : list Z.

(** The buttons of the admin panel that only read the tables. *)
Definition reads_only (data : string) : bool :=
  bool_decide (data ∈ ["admin_list_users"; "admin_pending_withdrawals";
                       "admin_pending_submissions"; "admin_financial_stats";
                       "admin_remove_channel"; "admin_system_stats"]).

(** [query.data.split('_')[1]] is the argument of the first three
    branches; [int] of it raises in [submit_task] when it is no number.
    ["verify_channels"] only checks the membership; ["admin_back"] goes
    to [secret_admin_panel], which answers through [update.message],
    absent in a callback. *)
Definition handle_callback (update : Update) (data : string) (st : State)
    : State * Reply :=
  let arg := split_on "_" data !! 1%nat in
  if starts_with "delchan_" data then
    match arg with
    | Some channel_id => admin_handle_channel_remove update channel_id st
    | None => (st, Raised)
    end
  else if starts_with "withdraw_" data then
    match arg with
    | Some method => handle_withdraw_method update method st
    | None => (st, Raised)
    end
  else if starts_with "submit_" data then
    match arg with
    | Some p =>
        match python_int p with
        | Some task_id => submit_task update task_id st
        | None => (st, Raised)
        end
    | None => (st, Raised)
    end
  else if String.eqb data "verify_channels" then (st, Screen)
  else if String.eqb data "verify_ip" then handle_verification update st
  else if String.eqb data "admin_back" then (st, Raised)
  else if String.eqb data "admin_add_task" then admin_add_task update st
  else if String.eqb data "admin_remove_task" then admin_remove_task ADMIN_IDS update None st
  else if String.eqb data "admin_add_channel" then admin_add_channel update st
  else if reads_only data then (st, Screen)
  else if String.eqb data "main_menu" then (st, Screen)
  else (st, NoReply).
End Callbacks.

(** ** [check_channel_membership] (lines 153-178) *)

Section Membership.

(** [context.bot.get_chat_member(chat_id=..., user_id=...).status];
    [None] when the call or the attribute access raises.  As line 170
    is written the call is not awaited, and the access to [.status] of
    what it returns raises for every channel: that is the oracle that is
    [None] everywhere.  The definitions are for any oracle, so that they
    cover an awaited call as well. *)
Variable member_status : string → Z → option string.

Definition chat_id_of (channel_id : string) : string :=
  match channel_id with
  | String "@" _ => channel_id
  | _ => "@" +:+ channel_id
  end.

(** [channel_name or channel_id] *)
Definition shown_name (channel_id : string) (ch : Channel) : string :=
  if String.eqb (channel_name ch) "" then channel_id else channel_name ch.

Definition has_left (status : string) : bool :=
  String.eqb status "left" || String.eqb status "kicked".

(** One turn of the loop: the name appended to [not_joined], if any. *)
Definition missing (uid : Z) (row : string * Channel) : option string :=
  match member_status (chat_id_of row.1) uid with
  | Some status => if has_left status then Some (shown_name row.1 row.2) else None
  | None => Some (shown_name row.1 row.2)
  end.

(** The rows are taken in the order of [map_to_list], which need not be
    that of the [SELECT]: of [not_joined] only the elements are meant. *)
Definition check_channel_membership (uid : Z) (st : State) : bool * list string :=
  let rows := List.filter (λ row, is_required row.2) (map_to_list (channels st)) in
  let not_joined := omap (missing uid) rows in
  (bool_decide (length not_joined = 0%nat), not_joined).

(** A required channel counts as joined only on a status other than
    [left] and [kicked]. *)
Definition confirmed (uid : Z) (channel_id : string) : Prop :=
  ∃ status, member_status (chat_id_of channel_id) uid = Some status ∧
            has_left status = false.
End Membership.

(** ** More runs of the model *)

Module Walkthrough.
Definition alice_row_submitted : User := Scenario.alice_row 0 0 1.
End Walkthrough.

(** * Facts about tables *)

Section TableFacts.
Context {A : Type} (rowid : A → Z).
Implicit Types (rows : list A) (p q : A → bool) (f : A → A).

Lemma last_rowid_bound rows r : r ∈ rows → rowid r ≤ last_rowid rowid rows.
Proof.
  induction rows as [|x rows IH]; simpl; [by intros ?%elem_of_nil|].
  intros [->|Hin]%elem_of_cons; [lia|]. specialize (IH Hin). lia.
Qed.

Lemma next_rowid_fresh rows : next_rowid rowid rows ∉ fmap rowid rows.
Proof.
  intros (r & Heq & Hin)%list_elem_of_fmap.
  apply last_rowid_bound in Hin. unfold next_rowid in Heq. lia.
Qed.

Lemma rowid_insert_unique rows r :
  rowid r = next_rowid rowid rows →
  NoDup (fmap rowid rows) → NoDup (fmap rowid (rows ++ [r])).
Proof.
  intros Hr Hnd. rewrite fmap_app. simpl. apply NoDup_app. split; [done|]. split.
  - intros k Hk ->%list_elem_of_singleton. rewrite Hr in Hk.
    by apply next_rowid_fresh in Hk.
  - apply NoDup_singleton.
Qed.

Lemma rowid_update_where p f rows :
  (∀ r, rowid (f r) = rowid r) →
  fmap rowid (update_where p f rows) = fmap rowid rows.
Proof.
  intros Hf. unfold update_where. rewrite <- list_fmap_compose. apply list_fmap_ext.
  intros i r _. simpl. by destruct (p r).
Qed.

Lemma update_where_untouched p f rows :
  (∀ r, r ∈ rows → p r = false) → update_where p f rows = rows.
Proof.
  induction rows as [|x rows IH]; intros Hp; simpl; [done|].
  rewrite (Hp x) by left. f_equal. apply IH. intros r Hr. apply Hp. by right.
Qed.

Lemma update_where_app p f rows1 rows2 :
  update_where p f (rows1 ++ rows2) = update_where p f rows1 ++ update_where p f rows2.
Proof. apply fmap_app. Qed.

(** With unique keys, [UPDATE ... WHERE key = k] rewrites one row. *)
Lemma update_where_key f rows r :
  NoDup (fmap rowid rows) → r ∈ rows →
  ∃ rows1 rows2,
    rows = rows1 ++ r :: rows2 ∧
    update_where (λ x, rowid x =? rowid r) f rows = rows1 ++ f r :: rows2.
Proof.
  intros Hnd (rows1 & rows2 & ->)%list_elem_of_split.
  exists rows1, rows2. split; [done|].
  rewrite fmap_app in Hnd. simpl in Hnd.
  apply NoDup_app in Hnd as (_ & Hdisj & Hnd2).
  apply NoDup_cons in Hnd2 as [Hnot2 _].
  rewrite update_where_app. simpl. rewrite Z.eqb_refl.
  rewrite !update_where_untouched; [done| |].
  - intros x Hx. apply Z.eqb_neq. intros Heq. apply Hnot2.
    rewrite <- Heq. apply list_elem_of_fmap. eauto.
  - intros x Hx. apply Z.eqb_neq. intros Heq. apply (Hdisj (rowid r)).
    + rewrite <- Heq. apply list_elem_of_fmap. eauto.
    + left.
Qed.

Lemma rowid_inj rows r1 r2 :
  NoDup (fmap rowid rows) → r1 ∈ rows → r2 ∈ rows → rowid r1 = rowid r2 → r1 = r2.
Proof.
  intros Hnd H1 H2 Heq.
  apply list_elem_of_lookup in H1 as [i Hi]. apply list_elem_of_lookup in H2 as [j Hj].
  assert (i = j) as ->.
  { eapply NoDup_lookup; [exact Hnd| |].
    - rewrite list_lookup_fmap, Hi. reflexivity.
    - rewrite list_lookup_fmap, Hj. simpl. by rewrite Heq. }
  congruence.
Qed.

Lemma find_Some_elem p rows r : find p rows = Some r → r ∈ rows ∧ p r = true.
Proof. intros [Hin Hp]%find_some. split; [by apply list_elem_of_In|done]. Qed.

Lemma find_elem p rows r : r ∈ rows → p r = true → is_Some (find p rows).
Proof.
  intros Hin Hp. destruct (find p rows) eqn:E; [eauto|].
  apply list_elem_of_In in Hin. pose proof (find_none _ _ E _ Hin). congruence.
Qed.

(** The row selected by key and condition is the row with that key. *)
Lemma find_by_key q rows r :
  NoDup (fmap rowid rows) → r ∈ rows → q r = true →
  find (λ x, (rowid x =? rowid r) && q x) rows = Some r.
Proof.
  intros Hnd Hin Hq.
  destruct (find_elem (λ x, (rowid x =? rowid r) && q x) rows r Hin) as [r' Hr'].
  { by rewrite Z.eqb_refl, Hq. }
  rewrite Hr'. f_equal.
  apply find_Some_elem in Hr' as [Hin' [Hk _]%andb_prop].
  apply Z.eqb_eq in Hk. eapply rowid_inj; eauto.
Qed.

Lemma find_update_where_None p q f rows :
  (∀ r, q (f r) = false) →
  find (λ x, p x && q x) (update_where p f rows) = None.
Proof.
  intros Hf. induction rows as [|x rows IH]; simpl; [done|].
  destruct (p x) eqn:Hp.
  - by rewrite Hf, andb_false_r.
  - by rewrite Hp.
Qed.

Lemma count_where_app p rows1 rows2 :
  count_where p (rows1 ++ rows2) = (count_where p rows1 + count_where p rows2)%nat.
Proof. unfold count_where. by rewrite List.filter_app, length_app. Qed.

Lemma count_where_cons p r rows :
  count_where p (r :: rows) = ((if p r then 1 else 0) + count_where p rows)%nat.
Proof. unfold count_where. simpl. by destruct (p r). Qed.

Lemma count_where_zero p rows : existsb p rows = false ↔ count_where p rows = 0%nat.
Proof.
  unfold count_where. induction rows as [|x rows IH]; simpl; [done|].
  destruct (p x); simpl; [split; discriminate|done].
Qed.

Lemma existsb_elem p rows : existsb p rows = true ↔ ∃ r, r ∈ rows ∧ p r = true.
Proof.
  rewrite existsb_exists. split; intros (r & Hin & Hp); exists r;
    (split; [by apply list_elem_of_In|done]).
Qed.

(** A freshly inserted row is the one its key selects. *)
Lemma find_inserted q rows r :
  rowid r = next_rowid rowid rows → q r = true →
  find (λ x, (rowid x =? rowid r) && q x) (rows ++ [r]) = Some r.
Proof.
  intros Hr Hq.
  assert (∀ x, x ∈ rows → rowid x < rowid r) as Hlt.
  { intros x Hx%last_rowid_bound. unfold next_rowid in Hr. lia. }
  clear Hr. induction rows as [|x rows IH]; simpl.
  - by rewrite Z.eqb_refl, Hq.
  - assert ((rowid x =? rowid r) = false) as ->.
    { apply Z.eqb_neq. assert (x ∈ x :: rows) as Hx by left.
      specialize (Hlt x Hx). lia. }
    simpl. apply IH. intros y Hy. apply Hlt. by right.
Qed.
End TableFacts.

(** [UPDATE users ... WHERE user_id = k] on an existing row. *)
Lemma alter_existing {V} (f : V → V) (k : Z) (m : gmap Z V) x :
  m !! k = Some x → alter f k m = <[k := f x]> m.
Proof.
  intros Hk. apply map_eq. intros j. destruct (decide (k = j)) as [<-|Hne].
  - by rewrite lookup_alter_eq, lookup_insert_eq, Hk.
  - by rewrite lookup_alter_ne, lookup_insert_ne.
Qed.

(** * The log is locked whenever it is called *)

(** After a write through the caller's connection, [log_transaction]
    raises. *)
Lemma log_transaction_locked uid type amount before after descr ts admin write conn :
  log_transaction uid type amount before after descr ts admin (execute write conn) = None.
Proof. reflexivity. Qed.

Lemma seen_get_db st : seen (get_db st) = st.
Proof. reflexivity. Qed.

Ltac opened :=
  repeat match goal with
         | |- context [seen (get_db ?s)] => change (seen (get_db s)) with s
         end.

Ltac locked := unfold log_transaction, execute; cbn [uncommitted]; opened.

Section Locked.
Variable ADMIN_IDS : list Z.

Lemma process_withdrawal_raises upd m up acct d st :
  process_withdrawal upd m up acct d st = (set_user_data (user_id upd) d st, Raised).
Proof. unfold process_withdrawal. locked. by repeat case_match. Qed.

Lemma admin_approve_submission_state upd sid st :
  (admin_approve_submission ADMIN_IDS upd sid st).1 = st.
Proof. unfold admin_approve_submission. locked. by repeat case_match. Qed.

Lemma admin_reject_withdrawal_state upd wid reason st :
  (admin_reject_withdrawal ADMIN_IDS upd wid reason st).1 = st.
Proof. unfold admin_reject_withdrawal. locked. by repeat case_match. Qed.

Lemma admin_add_points_state upd target amount reason st :
  (admin_add_points ADMIN_IDS upd target amount reason st).1 = st.
Proof. unfold admin_add_points. locked. by repeat case_match. Qed.

Lemma admin_deduct_points_state upd target amount reason st :
  (admin_deduct_points ADMIN_IDS upd target amount reason st).1 = st.
Proof. unfold admin_deduct_points. locked. by repeat case_match. Qed.

(** The answers the five handlers can give. *)
Lemma admin_approve_submission_reply upd sid st :
  (admin_approve_submission ADMIN_IDS upd sid st).2
    ∈ [NoReply; SubmissionNotFoundOrProcessed; Raised].
Proof.
  unfold admin_approve_submission. locked. repeat case_match; simpl; set_solver.
Qed.

Lemma admin_reject_withdrawal_reply upd wid reason st :
  (admin_reject_withdrawal ADMIN_IDS upd wid reason st).2
    ∈ [NoReply; WithdrawalNotFoundOrProcessed; Raised].
Proof.
  unfold admin_reject_withdrawal. locked. repeat case_match; simpl; set_solver.
Qed.

End Locked.

(** * What one update does to the tables *)

Ltac unfold_handlers :=
  unfold handle_message, admin_handle_task_add, admin_handle_channel_add,
    handle_withdraw_amount, handle_withdraw_details,
    start, handle_verification, verify_user_ip, submit_task, handle_screenshot,
    handle_withdraw_method, admin_add_task, admin_add_channel,
    admin_handle_channel_remove, admin_remove_task,
    admin_reject_submission, admin_approve_withdrawal.

Section Effects.
Variable ADMIN_IDS : list Z.
Variable parse_float : string → option float.

Ltac untouched := by (apply Untouched; [|repeat split]).

Lemma handle_effect upd ev st :
  Effect upd st (handle ADMIN_IDS parse_float upd ev st).1.
Proof.
  destruct ev; simpl;
    rewrite ?admin_approve_submission_state, ?admin_reject_withdrawal_state,
      ?admin_add_points_state, ?admin_deduct_points_state;
    try untouched; unfold_handlers; rewrite ?process_withdrawal_raises.
  all: repeat case_match; simplify_eq; simpl; try untouched.
  all: try (by apply Registered; [| |repeat split]).
  all: try (by eapply Verified; [|repeat split]).
  all: try (by eapply Submitted; simpl; eauto).
  all: try (by eapply TaskCreated; simpl; try reflexivity; simpl).
  all: try (by eapply TaskRemoved).
  all: try (match goal with H : find _ (submissions _) = Some ?s |- _ =>
              pose proof (find_Some_elem _ _ _ H) as [_ [<-%Z.eqb_eq _]%andb_prop];
              by eapply (Rejected _ _ _ s); simpl; eauto end).
  all: try (match goal with H : find _ (withdrawals _) = Some ?w |- _ =>
              pose proof (find_Some_elem _ _ _ H) as [_ [<-%Z.eqb_eq _]%andb_prop];
              by eapply (Completed _ _ _ w); simpl; eauto end).
Qed.

Lemma run_snoc trace e st :
  run ADMIN_IDS parse_float (trace ++ [e]) st =
  step ADMIN_IDS parse_float (run ADMIN_IDS parse_float trace st) e.
Proof. unfold run. by rewrite foldl_snoc. Qed.

End Effects.

Ltac effect_cases HE :=
  destruct HE as [Hu (Ht&Hs&Hw&Hx)| Hnew Hu (Ht&Hs&Hw&Hx)| ip Hu (Ht&Hs&Hw&Hx)
                 | row Hid Hact Hu Ht Hs Hw Hx | tid0 Hu Ht Hs Hw Hx
                 | tid0 photo Hd Hap Hu Ht Hs Hw Hx
                 | s reason Hf Hlu Hu Ht Hs Hw Hx
                 | w txn_id Hf Hu Ht Hs Hw Hx ].

Ltac lookup_users H :=
  lazymatch type of H with
  | alter _ ?k _ !! ?uid = Some _ =>
      destruct (decide (uid = k)) as [->|?];
      [ rewrite lookup_alter_eq in H; apply fmap_Some in H as (? & H & ->)
      | rewrite lookup_alter_ne in H by done ]
  | <[?k := _]> _ !! ?uid = Some _ =>
      destruct (decide (uid = k)) as [->|?];
      [ rewrite lookup_insert_eq in H; injection H as <-
      | rewrite lookup_insert_ne in H by done ]
  end.

(** * The ledger: no balance and no log row ever changes *)

Lemma rows_related_refl R m : (∀ u, R u u) → rows_related R m m.
Proof. intros HR uid u Hu. eauto. Qed.

Lemma rows_related_alter R f k m :
  (∀ u, m !! k = Some u → R u (f u)) → (∀ u, R u u) → rows_related R m (alter f k m).
Proof.
  intros Hf HR uid u Hu. destruct (decide (k = uid)) as [->|Hne].
  - rewrite lookup_alter_eq, Hu. simpl. eauto.
  - rewrite lookup_alter_ne by done. eauto.
Qed.

Lemma rows_related_insert_new R k x m :
  m !! k = None → (∀ u, R u u) → rows_related R m (<[k := x]> m).
Proof.
  intros Hk HR uid u Hu. rewrite lookup_insert_ne by congruence. eauto.
Qed.

Lemma rows_related_trans R m1 m2 m3 :
  (∀ a b c, R a b → R b c → R a c) →
  rows_related R m1 m2 → rows_related R m2 m3 → rows_related R m1 m3.
Proof.
  intros HR H12 H23 uid u Hu.
  destruct (H12 _ _ Hu) as (u2 & Hu2 & R12).
  destruct (H23 _ _ Hu2) as (u3 & Hu3 & R23). eauto.
Qed.

Lemma money_same_refl u : money_same u u.
Proof. by repeat split. Qed.

Lemma money_same_trans a b c : money_same a b → money_same b c → money_same a c.
Proof. intros (?&?&?&?) (?&?&?&?). repeat split; congruence. Qed.

Section EffectLedger.
Context (upd : Update) (st st' : State).
Hypothesis HE : Effect upd st st'.

Lemma effect_transactions : transactions st' = transactions st.
Proof. by effect_cases HE. Qed.

Lemma effect_money_same : rows_related money_same (users st) (users st').
Proof.
  effect_cases HE; rewrite Hu;
    first [ apply rows_related_refl, money_same_refl
          | apply rows_related_alter; [by intros|apply money_same_refl]
          | by apply rows_related_insert_new; [|apply money_same_refl] ].
Qed.

Lemma effect_balance_of uid : balance_of st' uid = balance_of st uid.
Proof.
  unfold balance_of.
  destruct (users st !! uid) as [u|] eqn:Hk.
  - destruct (effect_money_same _ _ Hk) as (u' & -> & Hb & _). done.
  - effect_cases HE; rewrite Hu; rewrite ?Hk; try done;
      try (match goal with
           | |- from_option _ _ (alter ?f ?k ?m !! ?j) = _ =>
               replace (alter f k m !! j) with (@None User)
                 by (symmetry; by apply lookup_alter_None)
           end; done).
    destruct (decide (user_id upd = uid)) as [<-|Hne].
    + by rewrite lookup_insert_eq.
    + by rewrite lookup_insert_ne, Hk.
Qed.

Lemma effect_ledger_step : ledger_step st st'.
Proof. left. split; [apply effect_transactions|apply effect_balance_of]. Qed.

End EffectLedger.

(** * Consistency is kept by every handler *)

Lemma task_known_find st tid :
  task_known st tid ↔ is_Some (find (λ t, task_id t =? tid) (tasks st)).
Proof.
  unfold task_known. split.
  - intros (t & Hin & Ht)%existsb_elem. eapply find_elem; eauto.
  - intros [t [Hin Ht]%find_Some_elem]. apply existsb_elem. eauto.
Qed.

Lemma draft_ok_get st uid tid :
  consistent st → pending_submission (get_user_data st uid) = Some tid →
  draft_ok st uid tid.
Proof.
  intros Hc. unfold get_user_data.
  destruct (user_data st !! uid) as [d|] eqn:Hd; simpl; [|discriminate].
  intros Hp. destruct (draft_refs st Hc uid d tid Hd Hp).
  repeat split; auto. eapply draft_not_pending; eauto.
Qed.

Lemma no_rows_of_unknown_user st uid :
  consistent st → users st !! uid = None → pending_count st uid = 0%nat.
Proof.
  intros Hc Hu. apply count_where_zero.
  destruct (existsb _ _) eqn:E; [|done].
  apply existsb_elem in E as (s & Hin & [Hs _]%andb_prop).
  apply Z.eqb_eq in Hs. destruct (submission_refs st Hc s Hin) as [[u Hk] _].
  congruence.
Qed.

(** *** A step that leaves the submissions as they are *)
Lemma consistent_frame st st' :
  consistent st →
  (∀ uid, user_known st uid → user_known st' uid) →
  (∀ tid, task_known st tid → task_known st' tid) →
  submissions st' = submissions st →
  NoDup (withdrawal_id <$> withdrawals st') →
  (∀ w, w ∈ withdrawals st' → user_known st' (wd_user_id w)) →
  (∀ uid d tid, user_data st' !! uid = Some d → pending_submission d = Some tid →
                draft_ok st uid tid) →
  (∀ uid u', users st' !! uid = Some u' → pending_tasks u' = Z.of_nat (pending_count st uid)) →
  consistent st'.
Proof.
  intros Hc Hus Hts Hsub Hwn Hwd Hdr Hcnt. split.
  - rewrite Hsub. apply Hc.
  - rewrite Hsub. intros s Hs. destruct (submission_refs st Hc s Hs). auto.
  - exact Hwn.
  - exact Hwd.
  - intros uid d tid Hd Hp. destruct (Hdr uid d tid Hd Hp) as (?&?&?). auto.
  - intros uid d tid Hd Hp. rewrite Hsub. by destruct (Hdr uid d tid Hd Hp) as (?&?&?).
  - rewrite Hsub. apply Hc.
  - intros uid u' Hu. unfold pending_count. rewrite Hsub. by apply Hcnt.
Qed.

Lemma drafts_same st :
  consistent st →
  ∀ uid d tid, user_data st !! uid = Some d → pending_submission d = Some tid →
               draft_ok st uid tid.
Proof.
  intros Hc uid d tid Hd Hp. destruct (draft_refs st Hc uid d tid Hd Hp).
  repeat split; auto. eapply draft_not_pending; eauto.
Qed.

Lemma drafts_insert st k d' :
  consistent st →
  (∀ tid, pending_submission d' = Some tid → draft_ok st k tid) →
  ∀ uid d tid, <[k := d']> (user_data st) !! uid = Some d →
               pending_submission d = Some tid → draft_ok st uid tid.
Proof.
  intros Hc Hk uid d tid. destruct (decide (k = uid)) as [->|Hne].
  - rewrite lookup_insert_eq. intros [= <-]. apply Hk.
  - rewrite lookup_insert_ne by done. by apply drafts_same.
Qed.

Lemma counters_alter st k (g : User → User) :
  consistent st →
  (∀ u, pending_tasks (g u) = pending_tasks u) →
  ∀ uid u', alter g k (users st) !! uid = Some u' →
            pending_tasks u' = Z.of_nat (pending_count st uid).
Proof.
  intros Hc Hg uid u'. destruct (decide (k = uid)) as [->|Hne].
  - rewrite lookup_alter_eq. destruct (users st !! uid) as [u|] eqn:Hu; simpl; [|done].
    intros [= <-]. rewrite Hg. by apply Hc.
  - rewrite lookup_alter_ne by done. apply Hc.
Qed.

Lemma known_alter (g : User → User) k (m : gmap Z User) uid :
  is_Some (alter g k m !! uid) ↔ is_Some (m !! uid).
Proof. apply lookup_alter_is_Some. Qed.

Lemma withdrawals_update_known st (p : Withdrawal → bool) f :
  consistent st → (∀ w, wd_user_id (f w) = wd_user_id w) →
  ∀ w, w ∈ update_where p f (withdrawals st) → user_known st (wd_user_id w).
Proof.
  intros Hc Hf w (w0 & -> & Hin)%list_elem_of_fmap.
  destruct (p w0); [rewrite Hf|]; by apply Hc.
Qed.

Lemma task_known_app st rows tid :
  task_known st tid → existsb (λ t, task_id t =? tid) (tasks st ++ rows) = true.
Proof. unfold task_known. intros H. by rewrite existsb_app, H. Qed.

Lemma task_known_update st p f tid :
  (∀ t, task_id (f t) = task_id t) →
  task_known st tid →
  existsb (λ t, task_id t =? tid) (update_where p f (tasks st)) = true.
Proof.
  intros Hf (t & Hin & Ht)%existsb_elem. apply existsb_elem.
  exists (if p t then f t else t). split.
  - apply list_elem_of_fmap. eauto.
  - destruct (p t); [rewrite Hf|]; done.
Qed.

(** The common shape: one user row is rewritten in place, the drafts and
    the withdrawals are given, the submissions stay. *)
Lemma consistent_alter st st' k g :
  consistent st →
  users st' = alter g k (users st) →
  (∀ u, pending_tasks (g u) = pending_tasks u) →
  (∀ tid, task_known st tid → task_known st' tid) →
  submissions st' = submissions st →
  NoDup (withdrawal_id <$> withdrawals st') →
  (∀ w, w ∈ withdrawals st' → user_known st (wd_user_id w)) →
  (∀ uid d tid, user_data st' !! uid = Some d → pending_submission d = Some tid →
                draft_ok st uid tid) →
  consistent st'.
Proof.
  intros Hc Hus Hg Hts Hsub Hwn Hwd Hdr.
  assert (∀ uid, user_known st uid → user_known st' uid) as Hgrow.
  { intros uid. unfold user_known. by rewrite Hus, known_alter. }
  eapply consistent_frame; eauto.
  rewrite Hus. by apply counters_alter.
Qed.

(** The same without a change of the users. *)
Lemma consistent_same_users st st' :
  consistent st →
  users st' = users st →
  (∀ tid, task_known st tid → task_known st' tid) →
  submissions st' = submissions st →
  NoDup (withdrawal_id <$> withdrawals st') →
  (∀ w, w ∈ withdrawals st' → user_known st (wd_user_id w)) →
  (∀ uid d tid, user_data st' !! uid = Some d → pending_submission d = Some tid →
                draft_ok st uid tid) →
  consistent st'.
Proof.
  intros Hc Hus Hts Hsub Hwn Hwd Hdr.
  eapply consistent_frame; eauto.
  - intros uid. unfold user_known. by rewrite Hus.
  - intros w Hw. unfold user_known. rewrite Hus. by apply Hwd.
  - rewrite Hus. apply Hc.
Qed.

Lemma consistent_set_user_data st uid d' :
  consistent st →
  (∀ tid, pending_submission d' = Some tid → draft_ok st uid tid) →
  consistent (set_user_data uid d' st).
Proof.
  intros Hc Hd. eapply consistent_same_users; eauto; simpl.
  - apply Hc.
  - apply Hc.
  - by apply drafts_insert.
Qed.

(** *** A review: one pending row leaves the pending state and its user's
    counter goes down by one *)
Lemma consistent_review st st' s f g :
  consistent st → s ∈ submissions st → is_pending s = true →
  submissions st' =
    update_where (λ r, submission_id r =? submission_id s) f (submissions st) →
  submission_id (f s) = submission_id s →
  sub_user_id (f s) = sub_user_id s →
  sub_task_id (f s) = sub_task_id s →
  is_pending (f s) = false →
  users st' = alter g (sub_user_id s) (users st) →
  (∀ u, pending_tasks (g u) = pending_tasks u - 1) →
  tasks st' = tasks st → withdrawals st' = withdrawals st →
  user_data st' = user_data st →
  consistent st'.
Proof.
  intros Hc Hin Hpend Hsub Hid Huid Htid Hdone Hus Hg Hts Hwd Hud.
  destruct (update_where_key submission_id f _ s (submission_ids_unique st Hc) Hin)
    as (l1 & l2 & Hl & Hl').
  rewrite Hl' in Hsub. clear Hl'.
  assert (∀ uid, user_known st uid ↔ user_known st' uid) as Hknown.
  { intros uid. unfold user_known. by rewrite Hus, known_alter. }
  assert (∀ tid, task_known st tid ↔ task_known st' tid) as Htask.
  { intros tid. unfold task_known. by rewrite Hts. }
  assert (∀ uid tid, pending_for uid tid (f s) = false) as Hpf.
  { intros. unfold pending_for. by rewrite Hdone, andb_false_r. }
  split.
  - rewrite Hsub. pose proof (submission_ids_unique st Hc) as Hnd.
    rewrite Hl in Hnd. rewrite fmap_app, fmap_cons in *. by rewrite Hid.
  - intros x. rewrite Hsub, <- Hknown, <- Htask.
    intros [Hx|[->|Hx]%elem_of_cons]%elem_of_app.
    + apply Hc. rewrite Hl. apply elem_of_app. by left.
    + rewrite Huid, Htid. by apply Hc.
    + apply Hc. rewrite Hl. apply elem_of_app. right. by right.
  - rewrite Hwd. apply Hc.
  - intros w. rewrite Hwd, <- Hknown. apply Hc.
  - intros uid d tid. rewrite Hud, <- Hknown, <- Htask. apply Hc.
  - intros uid d tid. rewrite Hud, Hsub. intros Hd Hp.
    pose proof (draft_not_pending st Hc uid d tid Hd Hp) as Hnone.
    rewrite Hl in Hnone. rewrite existsb_app in *. simpl in *.
    apply orb_false_elim in Hnone as [-> [_ ->]%orb_false_elim].
    by rewrite Hpf.
  - intros uid tid. pose proof (pending_once st Hc uid tid) as Hle.
    rewrite Hsub. rewrite Hl in Hle.
    rewrite count_where_app, count_where_cons in *. rewrite Hpf. lia.
  - intros uid u'. rewrite Hus. unfold pending_count. rewrite Hsub.
    rewrite count_where_app, count_where_cons. rewrite Hdone, andb_false_r.
    destruct (decide (sub_user_id s = uid)) as [<-|Hne].
    + rewrite lookup_alter_eq.
      destruct (users st !! sub_user_id s) as [u|] eqn:Hu; simpl; [|done].
      intros [= <-]. rewrite Hg, (pending_counter st Hc _ u Hu).
      unfold pending_count. rewrite Hl, count_where_app, count_where_cons.
      rewrite Z.eqb_refl, Hpend. simpl. lia.
    + rewrite lookup_alter_ne by done. intros Hu.
      rewrite (pending_counter st Hc _ u' Hu).
      unfold pending_count. rewrite Hl, count_where_app, count_where_cons.
      apply Z.eqb_neq in Hne. rewrite Hne. simpl. lia.
Qed.

(** *** A new pending row for a started submission; the draft is closed *)
Lemma consistent_submitted st st' uid tid row g :
  consistent st → draft_ok st uid tid →
  submissions st' = submissions st ++ [row] →
  submission_id row = next_rowid submission_id (submissions st) →
  sub_user_id row = uid → sub_task_id row = tid → is_pending row = true →
  users st' = alter g uid (users st) →
  (∀ u, pending_tasks (g u) = pending_tasks u + 1) →
  tasks st' = tasks st → withdrawals st' = withdrawals st →
  (∃ d, user_data st' = <[uid := d]> (user_data st) ∧ pending_submission d = None) →
  consistent st'.
Proof.
  intros Hc (Hku & Hkt & Hnone) Hsub Hid Huid Htid Hpend Hus Hg Hts Hwd (d' & Hud & Hd').
  assert (∀ k, user_known st k ↔ user_known st' k) as Hknown.
  { intros k. unfold user_known. by rewrite Hus, known_alter. }
  assert (∀ k, task_known st k ↔ task_known st' k) as Htask.
  { intros k. unfold task_known. by rewrite Hts. }
  assert (∀ k t, pending_for k t row = bool_decide (k = uid ∧ t = tid)) as Hpf.
  { intros k t. unfold pending_for. rewrite Huid, Htid, Hpend, andb_true_r.
    case_bool_decide as Hb.
    - destruct Hb as [-> ->]. by rewrite !Z.eqb_refl.
    - apply andb_false_iff. rewrite !Z.eqb_neq. 
      destruct (decide (uid = k)), (decide (tid = t)); subst; tauto. }
  split.
  - rewrite Hsub. apply rowid_insert_unique; [done|apply Hc].
  - intros x. rewrite Hsub, <- Hknown, <- Htask.
    intros [Hx| ->%list_elem_of_singleton]%elem_of_app; [by apply Hc|].
    by rewrite Huid, Htid.
  - rewrite Hwd. apply Hc.
  - intros w. rewrite Hwd, <- Hknown. apply Hc.
  - intros k d t. rewrite Hud, <- Hknown, <- Htask.
    destruct (decide (uid = k)) as [->|Hne].
    + rewrite lookup_insert_eq. intros [= <-]. congruence.
    + rewrite lookup_insert_ne by done. apply Hc.
  - intros k d t. rewrite Hud, Hsub.
    destruct (decide (uid = k)) as [->|Hne].
    + rewrite lookup_insert_eq. intros [= <-]. congruence.
    + rewrite lookup_insert_ne by done. intros Hd Hp.
      rewrite existsb_app. simpl. rewrite (draft_not_pending st Hc k d t Hd Hp), Hpf.
      rewrite bool_decide_eq_false_2; [done|]. intros [-> _]. done.
  - intros k t. rewrite Hsub, count_where_app. unfold count_where at 2. simpl.
    rewrite Hpf. case_bool_decide as Hb; simpl.
    + destruct Hb as [-> ->]. apply count_where_zero in Hnone. rewrite Hnone. lia.
    + pose proof (pending_once st Hc k t). lia.
  - intros k u'. rewrite Hus. unfold pending_count. rewrite Hsub, count_where_app.
    unfold count_where at 2. simpl. rewrite Huid, Hpend, andb_true_r.
    destruct (decide (uid = k)) as [->|Hne].
    + rewrite lookup_alter_eq.
      destruct (users st !! k) as [u|] eqn:Hu; simpl; [|done].
      intros [= <-]. rewrite Hg, (pending_counter st Hc _ u Hu).
      rewrite Z.eqb_refl. unfold pending_count. simpl. lia.
    + rewrite lookup_alter_ne by done. intros Hu.
      rewrite (pending_counter st Hc _ u' Hu).
      apply Z.eqb_neq in Hne. rewrite Hne. unfold pending_count. simpl. lia.
Qed.

Section Consistency.
Variable ADMIN_IDS : list Z.
Variable parse_float : string → option float.

Ltac side Hc :=
  simpl; auto;
  try (by apply (withdrawal_ids_unique _ Hc));
  try (by rewrite rowid_update_where; [apply Hc|]);
  try (by apply (withdrawal_refs _ Hc));
  try (by apply drafts_same);
  try (by apply withdrawals_update_known).

Lemma start_consistent upd st : consistent st → consistent (start upd st).1.
Proof.
  intros Hc. unfold start. destruct (users st !! user_id upd) eqn:Hu; simpl; [done|].
  eapply consistent_frame; eauto; simpl.
  - intros uid Hk. unfold user_known in *. simpl. rewrite lookup_insert_is_Some.
    destruct (decide (user_id upd = uid)); auto.
  - apply Hc.
  - intros w Hw. unfold user_known. simpl. rewrite lookup_insert_is_Some.
    right. split; [|by apply Hc]. intros Heq.
    destruct (withdrawal_refs st Hc w Hw) as [? ?]. congruence.
  - by apply drafts_same.
  - intros uid u'. destruct (decide (user_id upd = uid)) as [<-|Hne].
    + rewrite lookup_insert_eq. intros [= <-]. simpl.
      by rewrite no_rows_of_unknown_user.
    + rewrite lookup_insert_ne by done. apply Hc.
Qed.

Lemma verify_user_ip_consistent uid ip ts st :
  consistent st → consistent (verify_user_ip uid ip ts st).1.
Proof.
  intros Hc. unfold verify_user_ip. case_match; simpl; [done|].
  eapply consistent_alter; eauto; side Hc.
Qed.

Lemma handle_verification_consistent upd st :
  consistent st → consistent (handle_verification upd st).1.
Proof.
  intros Hc. unfold handle_verification. case_match; [done|].
  pose proof (verify_user_ip_consistent (user_id upd) (get_user_ip upd) (now upd) st Hc) as Hv.
  destruct (verify_user_ip _ _ _ st) as [st1 ok]. by destruct ok.
Qed.

Lemma submit_task_consistent upd tid st :
  consistent st → consistent (submit_task upd tid st).1.
Proof.
  intros Hc. unfold submit_task.
  destruct (users st !! user_id upd) as [u|] eqn:Hu; [|done].
  destruct (negb (is_verified u) || is_blocked u); [done|].
  destruct (existsb (λ t, (task_id t =? tid) && is_active t) (tasks st)) eqn:Ht; [|done].
  destruct (existsb (pending_for (user_id upd) tid) (submissions st)) eqn:Hp; [done|].
  simpl. apply consistent_set_user_data; [done|].
  simpl. intros ? [= <-]. split; [by exists u|]. split; [|done].
  apply existsb_elem in Ht as (t & Hin & [Hid _]%andb_prop).
  apply existsb_elem. eauto.
Qed.

Lemma keep_draft st uid d' :
  consistent st →
  pending_submission d' = pending_submission (get_user_data st uid) →
  consistent (set_user_data uid d' st).
Proof.
  intros Hc Hd. apply consistent_set_user_data; [done|].
  intros tid Hp. rewrite Hd in Hp. by apply draft_ok_get.
Qed.

Lemma handle_withdraw_method_consistent upd m st :
  consistent st → consistent (handle_withdraw_method upd m st).1.
Proof.
  intros Hc. unfold handle_withdraw_method.
  case_match; simpl; by apply keep_draft.
Qed.

Lemma handle_withdraw_amount_consistent upd text st :
  consistent st → consistent (handle_withdraw_amount parse_float upd text st).1.
Proof.
  intros Hc. unfold handle_withdraw_amount.
  repeat case_match; simpl; try done; by apply keep_draft.
Qed.

Lemma process_withdrawal_consistent upd m up acct d st :
  consistent st →
  pending_submission d = pending_submission (get_user_data st (user_id upd)) →
  consistent (process_withdrawal upd m up acct d st).1.
Proof.
  intros Hc Hd. rewrite process_withdrawal_raises. by apply keep_draft.
Qed.

Lemma handle_withdraw_details_consistent upd text st :
  consistent st → consistent (handle_withdraw_details upd text st).1.
Proof.
  intros Hc. unfold handle_withdraw_details.
  repeat case_match; try done; by apply process_withdrawal_consistent.
Qed.

Lemma admin_add_task_consistent upd st :
  consistent st → consistent (admin_add_task upd st).1.
Proof. intros Hc. by apply keep_draft. Qed.

Lemma admin_add_channel_consistent upd st :
  consistent st → consistent (admin_add_channel upd st).1.
Proof. intros Hc. by apply keep_draft. Qed.

Lemma admin_handle_task_add_consistent upd text st :
  consistent st → consistent (admin_handle_task_add ADMIN_IDS parse_float upd text st).1.
Proof.
  intros Hc. unfold admin_handle_task_add.
  repeat case_match; try done. cbn [fst].
  eapply consistent_same_users; eauto; side Hc.
  - intros tid. apply task_known_app.
  - apply drafts_insert; [done|]. simpl. intros tid. by apply draft_ok_get.
Qed.

Lemma admin_handle_channel_add_consistent upd text st :
  consistent st → consistent (admin_handle_channel_add ADMIN_IDS upd text st).1.
Proof.
  intros Hc. unfold admin_handle_channel_add.
  repeat case_match; try done. cbn [fst].
  eapply consistent_same_users; eauto; side Hc.
  apply drafts_insert; [done|]. simpl. intros tid. by apply draft_ok_get.
Qed.

Lemma admin_handle_channel_remove_consistent upd c st :
  consistent st → consistent (admin_handle_channel_remove upd c st).1.
Proof. intros Hc. eapply consistent_same_users; eauto; side Hc. Qed.

Lemma admin_remove_task_consistent upd arg st :
  consistent st → consistent (admin_remove_task ADMIN_IDS upd arg st).1.
Proof.
  intros Hc. unfold admin_remove_task.
  repeat case_match; try done; cbn [fst].
  - eapply consistent_same_users; eauto; side Hc.
    intros tid. by apply task_known_update.
  - by apply keep_draft.
Qed.

Lemma admin_approve_withdrawal_consistent upd wid txn st :
  consistent st → consistent (admin_approve_withdrawal ADMIN_IDS upd wid txn st).1.
Proof.
  intros Hc. unfold admin_approve_withdrawal.
  repeat case_match; try done; cbn [fst].
  eapply consistent_same_users; eauto; side Hc.
Qed.

Lemma admin_reject_withdrawal_consistent upd wid reason st :
  consistent st → consistent (admin_reject_withdrawal ADMIN_IDS upd wid reason st).1.
Proof. by rewrite admin_reject_withdrawal_state. Qed.

Lemma admin_add_points_consistent upd target amount reason st :
  consistent st → consistent (admin_add_points ADMIN_IDS upd target amount reason st).1.
Proof. by rewrite admin_add_points_state. Qed.

Lemma admin_deduct_points_consistent upd target amount reason st :
  consistent st → consistent (admin_deduct_points ADMIN_IDS upd target amount reason st).1.
Proof. by rewrite admin_deduct_points_state. Qed.


Lemma handle_screenshot_consistent upd photo st :
  consistent st → consistent (handle_screenshot upd photo st).1.
Proof.
  intros Hc. unfold handle_screenshot.
  destruct (pending_submission (get_user_data st (user_id upd))) as [tid|] eqn:Hd; [|done].
  pose proof (draft_ok_get st _ _ Hc Hd) as Hok.
  case_match; cbn [fst].
  { apply consistent_set_user_data; [done|]. simpl. discriminate. }
  destruct Hok as (Hku & Hkt & Hnone).
  pose proof Hkt as [t Ht]%task_known_find. rewrite Ht. cbn [fst].
  eapply consistent_submitted with (uid := user_id upd) (tid := tid);
    [exact Hc|done|simpl; reflexivity| | | | |simpl; reflexivity| | | |]; simpl; eauto.
Qed.

Lemma admin_approve_submission_consistent upd sid st :
  consistent st → consistent (admin_approve_submission ADMIN_IDS upd sid st).1.
Proof. by rewrite admin_approve_submission_state. Qed.

Lemma admin_reject_submission_consistent upd sid reason st :
  consistent st → consistent (admin_reject_submission ADMIN_IDS upd sid reason st).1.
Proof.
  intros Hc. unfold admin_reject_submission.
  destruct (negb (is_admin ADMIN_IDS upd)); [done|].
  destruct (find _ (submissions st)) as [s|] eqn:Hs; [|done].
  apply find_Some_elem in Hs as [Hin [<-%Z.eqb_eq Hp]%andb_prop].
  repeat case_match; try done; cbn [fst].
  eapply consistent_review with (s := s); eauto; simpl; eauto.
Qed.

Lemma handle_message_consistent upd text st :
  consistent st → consistent (handle_message ADMIN_IDS parse_float upd text st).1.
Proof.
  intros Hc. unfold handle_message.
  repeat case_match;
    auto using admin_handle_task_add_consistent, admin_handle_channel_add_consistent,
      handle_withdraw_amount_consistent, handle_withdraw_details_consistent.
Qed.

Lemma handle_consistent upd ev st :
  consistent st → consistent (handle ADMIN_IDS parse_float upd ev st).1.
Proof.
  intros Hc. destruct ev; simpl.
  - by apply start_consistent.
  - by apply handle_verification_consistent.
  - by apply submit_task_consistent.
  - by apply handle_screenshot_consistent.
  - by apply handle_withdraw_method_consistent.
  - by apply handle_message_consistent.
  - by apply admin_add_task_consistent.
  - by apply admin_add_channel_consistent.
  - by apply (admin_handle_channel_remove_consistent upd).
  - by apply admin_remove_task_consistent.
  - by apply admin_approve_submission_consistent.
  - by apply admin_reject_submission_consistent.
  - by apply admin_approve_withdrawal_consistent.
  - by apply admin_reject_withdrawal_consistent.
  - by apply admin_add_points_consistent.
  - by apply admin_deduct_points_consistent.
Qed.

Lemma init_consistent : consistent init.
Proof.
  split; simpl; try done.
  - apply NoDup_nil_2.
  - intros s Hs. by apply elem_of_nil in Hs.
  - apply NoDup_nil_2.
  - intros w Hw. by apply elem_of_nil in Hw.
  - unfold count_where. simpl. lia.
Qed.

Lemma run_consistent trace st :
  consistent st → consistent (run ADMIN_IDS parse_float trace st).
Proof.
  revert st. induction trace as [|[upd ev] trace IH]; intros st Hc; simpl; [done|].
  apply IH. by apply handle_consistent.
Qed.

Lemma reachable_consistent st :
  reachable ADMIN_IDS parse_float st → consistent st.
Proof. intros [trace ->]. apply run_consistent, init_consistent. Qed.

End Consistency.

(** * Guards and addresses *)

Section Guards.
Variable ADMIN_IDS : list Z.
Variable parse_float : string → option float.

(** The two guards against overdrawing, where they are made. *)
Lemma handle_withdraw_amount_insufficient upd text st u amount :
  awaiting_withdraw_amount (get_user_data st (user_id upd)) = true →
  parse_float text = Some amount →
  users st !! user_id upd = Some u →
  (balance u <? amount)%float = true →
  ∃ r, handle_withdraw_amount parse_float upd text st = (st, r) ∧
       (r = InsufficientBalance (balance u) ∨ ∃ m, r = BelowMinimum m).
Proof.
  intros Haw Hp Hu Hlt. unfold handle_withdraw_amount. rewrite Haw, Hp, Hu. simpl.
  rewrite Hlt. destruct (amount <? _)%float; eauto.
Qed.

Lemma admin_deduct_points_insufficient upd target amount reason st u :
  is_admin ADMIN_IDS upd = true →
  users st !! target = Some u →
  (balance u <? amount)%float = true →
  admin_deduct_points ADMIN_IDS upd target amount reason st
    = (st, InsufficientUserBalance (balance u)).
Proof.
  intros Ha Hu Hlt. unfold admin_deduct_points. locked. rewrite Ha. simpl.
  by rewrite Hu, Hlt.
Qed.

(** No handler but [verify_user_ip] writes to [ip_addresses]. *)
Lemma handle_ip_addresses upd ev st :
  ip_addresses (handle ADMIN_IDS parse_float upd ev st).1 = ip_addresses st ∨
  (handle ADMIN_IDS parse_float upd ev st).1
    = (verify_user_ip (user_id upd) (get_user_ip upd) (now upd) st).1.
Proof.
  destruct ev; simpl;
    rewrite ?admin_approve_submission_state, ?admin_reject_withdrawal_state,
      ?admin_add_points_state, ?admin_deduct_points_state; auto.
  all: unfold handle_message, admin_handle_task_add, admin_handle_channel_add,
         handle_withdraw_amount, handle_withdraw_details,
         start, handle_verification, submit_task, handle_screenshot,
         handle_withdraw_method, admin_add_task, admin_add_channel,
         admin_handle_channel_remove, admin_remove_task,
         admin_reject_submission, admin_approve_withdrawal;
       rewrite ?process_withdrawal_raises.
  all: repeat case_match; simplify_eq; simpl; auto.
  all: right; match goal with H : verify_user_ip _ _ _ _ = _ |- _ => by rewrite H end.
Qed.

End Guards.

(** *** Addresses keep their owner *)

Lemma keeps_owners_refl m : keeps_owners m m.
Proof. intros ip row Hrow. eauto. Qed.

Lemma keeps_owners_trans m1 m2 m3 :
  keeps_owners m1 m2 → keeps_owners m2 m3 → keeps_owners m1 m3.
Proof.
  intros H12 H23 ip row Hrow.
  destruct (H12 ip row Hrow) as (row2 & Hrow2 & Hu2 & Hf2).
  destruct (H23 ip row2 Hrow2) as (row3 & Hrow3 & Hu3 & Hf3).
  exists row3. split; [done|]. split; congruence.
Qed.

Lemma verify_user_ip_keeps_owners uid ip ts st :
  keeps_owners (ip_addresses st) (ip_addresses (verify_user_ip uid ip ts st).1).
Proof.
  intros other row Hother. unfold verify_user_ip.
  destruct (ip_addresses st !! ip) as [row0|] eqn:Hrow.
  - destruct (ip_user_id row0 =? uid) eqn:E; simpl; [|eauto].
    destruct (decide (ip = other)) as [->|Hne].
    + rewrite lookup_insert_eq. eexists. split; [done|]. simpl.
      apply Z.eqb_eq in E. split; congruence.
    + rewrite lookup_insert_ne by done. eauto.
  - simpl. rewrite lookup_insert_ne by congruence. eauto.
Qed.

Section Owners.
Variable ADMIN_IDS : list Z.
Variable parse_float : string → option float.

Lemma handle_keeps_owners upd ev st :
  keeps_owners (ip_addresses st)
    (ip_addresses (handle ADMIN_IDS parse_float upd ev st).1).
Proof.
  destruct (handle_ip_addresses ADMIN_IDS parse_float upd ev st) as [-> | ->].
  - apply keeps_owners_refl.
  - apply verify_user_ip_keeps_owners.
Qed.

Lemma run_keeps_owners trace st :
  keeps_owners (ip_addresses st)
    (ip_addresses (run ADMIN_IDS parse_float trace st)).
Proof.
  revert st. induction trace as [|[upd ev] trace IH]; intros st; simpl.
  - apply keeps_owners_refl.
  - eapply keeps_owners_trans; [|apply IH]. apply handle_keeps_owners.
Qed.

End Owners.

(** * The bookkeeping kept in step with the tables *)

(** *** Counts under insertion and update *)

Section Counts.
Context {A : Type}.
Implicit Types (rows : list A) (p q : A → bool) (f g : A → A).

Lemma count_where_snoc p rows r :
  count_where p (rows ++ [r]) = (count_where p rows + (if p r then 1 else 0))%nat.
Proof. rewrite count_where_app. unfold count_where at 2. simpl. by destruct (p r). Qed.

Lemma count_where_none p rows :
  (∀ r, r ∈ rows → p r = false) → count_where p rows = 0%nat.
Proof.
  intros Hp. apply count_where_zero. destruct (existsb p rows) eqn:E; [|done].
  apply existsb_elem in E as (r & Hr & Hpr). rewrite (Hp r Hr) in Hpr. done.
Qed.

Lemma count_where_update p q g rows :
  (∀ r, p (g r) = p r) →
  count_where p (update_where q g rows) = count_where p rows.
Proof.
  intros Hp. induction rows as [|x rows IH]; simpl; [done|].
  rewrite !count_where_cons, IH. destruct (q x); [rewrite Hp|]; done.
Qed.

Lemma count_where_le p q rows :
  (∀ r, r ∈ rows → p r = true → q r = true) →
  (count_where p rows ≤ count_where q rows)%nat.
Proof.
  induction rows as [|x rows IH]; intros Hpq; [done|].
  rewrite !count_where_cons.
  assert (count_where p rows ≤ count_where q rows)%nat as Hle
    by (apply IH; intros r Hr; apply Hpq; by right).
  pose proof (Hpq x (list_elem_of_here _ _)) as Hx.
  destruct (p x), (q x); first [lia | discriminate (Hx eq_refl)].
Qed.

Lemma numbered_last_rowid (rowid : A → Z) rows :
  numbered rowid rows → last_rowid rowid rows = Z.of_nat (length rows).
Proof.
  induction rows as [|x rows IH] using rev_ind; intros Hn; [done|].
  assert (numbered rowid rows) as Hn'.
  { intros i r Hi. apply Hn. by apply lookup_app_l_Some. }
  specialize (IH Hn').
  assert (rowid x = Z.of_nat (length rows) + 1) as Hx.
  { apply Hn. rewrite lookup_app_r by lia. by rewrite Nat.sub_diag. }
  rewrite length_app. simpl.
  assert (∀ l a, last_rowid rowid (l ++ [a]) = Z.max (last_rowid rowid l) (rowid a)) as Hmax.
  { clear. induction l as [|y l IHl]; intros a; simpl; [lia|]. rewrite IHl. lia. }
  rewrite Hmax, IH, Hx. lia.
Qed.

Lemma numbered_snoc (rowid : A → Z) rows r :
  numbered rowid rows → rowid r = next_rowid rowid rows → numbered rowid (rows ++ [r]).
Proof.
  intros Hn Hr i x Hi. apply lookup_app_Some in Hi as [Hi|[Hlen Hi]].
  - by apply Hn.
  - apply list_lookup_singleton_Some in Hi as [Hi <-].
    rewrite Hr. unfold next_rowid. rewrite numbered_last_rowid by done. lia.
Qed.

Lemma numbered_update (rowid : A → Z) q g rows :
  (∀ r, rowid (g r) = rowid r) → numbered rowid rows →
  numbered rowid (update_where q g rows).
Proof.
  intros Hg Hn i x. unfold update_where. rewrite list_lookup_fmap.
  destruct (rows !! i) as [r|] eqn:Hi; simpl; [|done].
  intros [= <-]. destruct (q r); [rewrite Hg|]; by apply Hn.
Qed.

Lemma numbered_nil (rowid : A → Z) : numbered rowid [].
Proof. by intros i r Hi. Qed.
End Counts.

Section KeyUpdate.
Context {A : Type} (rowid : A → Z).
Implicit Types (rows : list A) (p : A → bool) (g : A → A).

(** [UPDATE ... WHERE key = k] changes a count by what it does to the one
    row with that key. *)
Lemma count_where_update_key p g rows r :
  NoDup (rowid <$> rows) → r ∈ rows →
  (count_where p (update_where (λ x, (rowid x =? rowid r)%Z) g rows)
     + (if p r then 1 else 0) =
   count_where p rows + (if p (g r) then 1 else 0))%nat.
Proof.
  intros Hnd Hin.
  destruct (update_where_key rowid g rows r Hnd Hin) as (rows1 & rows2 & Hrows & ->).
  rewrite Hrows, !count_where_app, !count_where_cons. lia.
Qed.
End KeyUpdate.

Lemma get_pending_submission st uid tid :
  pending_submission (get_user_data st uid) = Some tid →
  ∃ d, user_data st !! uid = Some d ∧ pending_submission d = Some tid.
Proof.
  unfold get_user_data. destruct (user_data st !! uid) as [d|]; simpl; [eauto|done].
Qed.

(** *** Sums over the users table *)

Lemma sum_users_empty f : sum_users f ∅ = 0.
Proof. apply map_fold_empty. Qed.

Lemma sum_users_insert f k x m :
  m !! k = None → sum_users f (<[k := x]> m) = f x + sum_users f m.
Proof.
  intros Hk. unfold sum_users. rewrite map_fold_insert_L; [done| |done].
  intros. lia.
Qed.

Lemma sum_users_delete f k x m :
  m !! k = Some x → sum_users f m = f x + sum_users f (delete k m).
Proof.
  intros Hk. unfold sum_users. rewrite (map_fold_delete_L _ _ k x m); [done| |done].
  intros. lia.
Qed.

(** [UPDATE users SET ... WHERE user_id = k] moves a sum by the change
    of the one row. *)
Lemma sum_users_alter f g k x m :
  m !! k = Some x → sum_users f (alter g k m) = sum_users f m - f x + f (g x).
Proof.
  intros Hk. rewrite (sum_users_delete f k x m Hk).
  rewrite (alter_existing g k m x Hk), <- insert_delete_eq.
  rewrite sum_users_insert by apply lookup_delete_eq. lia.
Qed.

Lemma sum_users_zero f m :
  (∀ k u, m !! k = Some u → f u = 0) → sum_users f m = 0.
Proof.
  unfold sum_users. revert m.
  apply (map_fold_weak_ind (λ r m, (∀ k u, m !! k = Some u → f u = 0) → r = 0)).
  - done.
  - intros k x m r Hk IH Hall.
    rewrite (Hall k x) by apply lookup_insert_eq.
    rewrite IH; [done|]. intros j u Hj. apply (Hall j).
    rewrite lookup_insert_ne; [done|]. intros ->. congruence.
Qed.

Lemma sum_users_alter_same f g k m :
  (∀ u, f (g u) = f u) → sum_users f (alter g k m) = sum_users f m.
Proof.
  intros Hg. destruct (m !! k) as [x|] eqn:Hk.
  - rewrite (sum_users_alter f g k x m Hk), Hg. lia.
  - f_equal. apply map_eq. intros j. destruct (decide (j = k)) as [->|Hne].
    + by rewrite lookup_alter_eq, Hk.
    + by rewrite lookup_alter_ne.
Qed.

Section Accounting.
Context (upd : Update) (st st' : State).
Hypothesis HE : Effect upd st st'.
Hypothesis Hc : consistent st.
Hypothesis Ha : accounted st.

Lemma effect_never_blocked uid u' : users st' !! uid = Some u' → is_blocked u' = false.
Proof.
  pose proof (never_blocked st Ha) as IH.
  effect_cases HE; rewrite Hu; intros Hu'; try lookup_users Hu'; simpl; by eauto.
Qed.

Lemma effect_numbered :
  numbered task_id (tasks st') ∧ numbered submission_id (submissions st').
Proof.
  pose proof (tasks_numbered st Ha). pose proof (submissions_numbered st Ha).
  effect_cases HE; rewrite Ht, Hs; repeat split;
    first [ done | by apply numbered_snoc | by apply numbered_update ].
Qed.

Lemma effect_pending_total :
  sum_users pending_tasks (users st') = Z.of_nat (pending_subs st').
Proof.
  pose proof (pending_total st Ha) as IH. unfold pending_subs in *.
  effect_cases HE; rewrite Hu, Hs; try done;
    try (by rewrite sum_users_alter_same);
    try (by rewrite sum_users_insert by done).
  - apply get_pending_submission in Hd as (d & Hd & Hp).
    destruct (draft_refs st Hc _ _ _ Hd Hp) as [[x Hx'] _].
    rewrite (sum_users_alter _ _ _ x) by done. rewrite count_where_snoc. simpl. lia.
  - apply find_Some_elem in Hf as [Hin [_ Hp]%andb_prop].
    pose proof (count_where_update_key submission_id is_pending
      (set_reviewed SubRejected (now upd) (user_id upd) (Some reason))
      (submissions st) s (submission_ids_unique st Hc) Hin) as Hk.
    rewrite Hp in Hk.
    change (is_pending (set_reviewed SubRejected (now upd) (user_id upd) (Some reason) s))
      with false in Hk; cbn iota in Hk.
    destruct Hlu as [x Hx'].
    rewrite (sum_users_alter _ _ _ x) by done. simpl. lia.
Qed.

Lemma effect_accounted : accounted st'.
Proof.
  destruct effect_numbered as (? & ?).
  split; try done.
  - apply effect_never_blocked.
  - apply effect_pending_total.
Qed.
End Accounting.

Lemma init_accounted : accounted init.
Proof. split; simpl; try done; apply numbered_nil. Qed.

(** * Nothing is ever paid *)

(** A float that is neither below a minimum nor above 0 is no number. *)
Lemma not_below_not_above (a m : float) :
  m = MIN_WITHDRAWAL_GATEWAY ∨ m = MIN_WITHDRAWAL_UPI →
  (a <? m)%float = false → (0 <? a)%float = false → is_nan a = true.
Proof.
  unfold is_nan. rewrite !ltb_spec, eqb_spec.
  change (Prim2SF 0) with (S754_zero false).
  intros [-> | ->].
  - change (Prim2SF MIN_WITHDRAWAL_GATEWAY)
      with (S754_finite false 4503599627370496 (-52)).
    destruct (Prim2SF a) as [s|s| |s m e]; simpl; try destruct s; simpl;
      try discriminate; reflexivity.
  - change (Prim2SF MIN_WITHDRAWAL_UPI)
      with (S754_finite false 5629499534213120 (-49)).
    destruct (Prim2SF a) as [s|s| |s m e]; simpl; try destruct s; simpl;
      try discriminate; reflexivity.
Qed.

Lemma only_nan_insert m k d' :
  only_nan m → (∀ a, withdraw_amount d' = Some a → is_nan a = true) →
  only_nan (<[k := d']> m).
Proof.
  intros Hm Hd uid d a. destruct (decide (k = uid)) as [->|Hne].
  - rewrite lookup_insert_eq. intros [= <-]. apply Hd.
  - rewrite lookup_insert_ne by done. apply Hm.
Qed.

Lemma only_nan_get st uid a :
  only_nan (user_data st) → withdraw_amount (get_user_data st uid) = Some a →
  is_nan a = true.
Proof.
  intros Hm. unfold get_user_data.
  destruct (user_data st !! uid) as [d|] eqn:Hd; simpl; [|discriminate].
  intros Ha. by apply (Hm uid d a).
Qed.

Section Unpaid.
Variable ADMIN_IDS : list Z.
Variable parse_float : string → option float.

Ltac held Hz :=
  simplify_eq; simpl; try done;
  try (apply only_nan_insert; [done|]; simpl; intros a Ha;
       first [ discriminate
             | by eapply only_nan_get
             | injection Ha as <-;
               match goal with
               | Hu : users _ !! _ = Some ?u,
                 Hmin : (_ <? ?m)%float = false,
                 Hb : (balance ?u <? _)%float = false |- _ =>
                   destruct (Hz _ _ Hu) as (Hzero & _); rewrite Hzero in Hb;
                   by apply (not_below_not_above _ m); auto
               end ]).

Lemma handle_message_only_nan upd text st :
  (∀ uid u, users st !! uid = Some u →
     balance u = 0%float ∧ total_earned u = 0%float ∧
     total_withdrawn u = 0%float ∧ completed_tasks u = 0) →
  only_nan (user_data st) →
  only_nan (user_data (handle_message ADMIN_IDS parse_float upd text st).1).
Proof.
  intros Hz Hv.
  unfold handle_message, admin_handle_task_add, admin_handle_channel_add,
    handle_withdraw_amount, handle_withdraw_details.
  rewrite ?process_withdrawal_raises.
  repeat case_match; held Hz.
Qed.

Lemma handle_only_nan upd ev st :
  unpaid st → only_nan (user_data (handle ADMIN_IDS parse_float upd ev st).1).
Proof.
  intros [_ _ _ Hz Hv]. destruct ev; simpl;
    rewrite ?admin_approve_submission_state, ?admin_reject_withdrawal_state,
      ?admin_add_points_state, ?admin_deduct_points_state;
    try done; try (by apply handle_message_only_nan).
  all: unfold start, handle_verification, verify_user_ip, submit_task, handle_screenshot,
         handle_withdraw_method, admin_add_task, admin_add_channel,
         admin_handle_channel_remove, admin_remove_task,
         admin_reject_submission, admin_approve_withdrawal.
  all: repeat case_match; held Hz.
Qed.

Lemma effect_unpaid_tables upd st st' :
  Effect upd st st' → unpaid st →
  withdrawals st' = [] ∧ transactions st' = [] ∧
  (∀ s, s ∈ submissions st' → is_approved s = false) ∧
  (∀ uid u, users st' !! uid = Some u →
     balance u = 0%float ∧ total_earned u = 0%float ∧
     total_withdrawn u = 0%float ∧ completed_tasks u = 0).
Proof.
  intros HE [Hw0 Hx0 Hap0 Hz _].
  split; [|split; [|split]].
  - effect_cases HE; rewrite Hw; try done. by rewrite Hw0.
  - by rewrite (effect_transactions _ _ _ HE).
  - effect_cases HE; rewrite Hs; try done.
    + intros s0 [Hin| ->%list_elem_of_singleton]%elem_of_app; [by apply Hap0|done].
    + intros s0 (r & -> & Hr)%list_elem_of_fmap.
      destruct (submission_id r =? submission_id s); [done|by apply Hap0].
  - intros uid u' Hlk.
    effect_cases HE; rewrite Hu in Hlk; try lookup_users Hlk; simpl; by eauto.
Qed.

Lemma handle_unpaid upd ev st :
  unpaid st → unpaid (handle ADMIN_IDS parse_float upd ev st).1.
Proof.
  intros Hp.
  destruct (effect_unpaid_tables upd st _ (handle_effect ADMIN_IDS parse_float upd ev st) Hp)
    as (? & ? & ? & ?).
  split; try done. by apply handle_only_nan.
Qed.

Lemma init_unpaid : unpaid init.
Proof.
  split; simpl; try done. by intros s Hs%elem_of_nil.
Qed.

Lemma handle_sound upd ev st :
  sound st → sound (handle ADMIN_IDS parse_float upd ev st).1.
Proof.
  intros (Hc & Ha & Hp). split; [by apply handle_consistent|].
  split; [|by apply handle_unpaid].
  eapply effect_accounted; eauto using handle_effect.
Qed.

Lemma run_sound trace st : sound st → sound (run ADMIN_IDS parse_float trace st).
Proof.
  revert st. induction trace as [|[upd ev] trace IH]; intros st Hs; simpl; [done|].
  apply IH. by apply handle_sound.
Qed.

Lemma reachable_sound st : reachable ADMIN_IDS parse_float st → sound st.
Proof.
  intros [trace ->]. apply run_sound. split; [apply init_consistent|].
  split; [apply init_accounted|apply init_unpaid].
Qed.

Lemma reachable_run trace st :
  reachable ADMIN_IDS parse_float st →
  reachable ADMIN_IDS parse_float (run ADMIN_IDS parse_float trace st).
Proof.
  intros [t0 ->]. exists (t0 ++ trace). unfold run. by rewrite foldl_app.
Qed.

End Unpaid.

(** * What the five handlers answer *)

Section Answers.
Variable ADMIN_IDS : list Z.
Variable parse_float : string → option float.

(** No update is answered with the report of a payment. *)
Lemma handle_never_reports_payment upd ev st :
  reports_payment (handle ADMIN_IDS parse_float upd ev st).2 = false.
Proof.
  destruct ev; simpl;
    unfold handle_message, admin_handle_task_add, admin_handle_channel_add,
      handle_withdraw_amount, handle_withdraw_details,
      start, handle_verification, submit_task, handle_screenshot,
      handle_withdraw_method, admin_add_task, admin_add_channel,
      admin_handle_channel_remove, admin_remove_task,
      admin_reject_submission, admin_approve_withdrawal,
      admin_approve_submission, admin_reject_withdrawal, admin_add_points,
      admin_deduct_points;
    rewrite ?process_withdrawal_raises; locked;
    repeat case_match; reflexivity.
Qed.

Lemma handle_money_same upd ev st :
  rows_related money_same (users st) (users (handle ADMIN_IDS parse_float upd ev st).1).
Proof. eapply effect_money_same, handle_effect. Qed.

Lemma run_money_same trace st :
  rows_related money_same (users st) (users (run ADMIN_IDS parse_float trace st)).
Proof.
  revert st. induction trace as [|[upd ev] trace IH]; intros st; simpl.
  - apply rows_related_refl, money_same_refl.
  - eapply rows_related_trans; [apply money_same_trans|apply handle_money_same|apply IH].
Qed.

Lemma handle_transactions upd ev st :
  transactions (handle ADMIN_IDS parse_float upd ev st).1 = transactions st.
Proof. eapply effect_transactions, handle_effect. Qed.

Lemma run_transactions trace st :
  transactions (run ADMIN_IDS parse_float trace st) = transactions st.
Proof.
  revert st. induction trace as [|[upd ev] trace IH]; intros st; simpl; [done|].
  unfold step. simpl. by rewrite IH, handle_transactions.
Qed.

(** A pending row is found by its key. *)
Lemma pending_submission_found st s :
  consistent st → s ∈ submissions st → sub_status s = SubPending →
  find (λ r, (submission_id r =? submission_id s) && is_pending r) (submissions st)
    = Some s.
Proof.
  intros Hc Hin Hst.
  apply (find_by_key submission_id is_pending); [apply Hc|done|].
  unfold is_pending. by rewrite Hst.
Qed.

Lemma pending_withdrawal_found st w :
  NoDup (withdrawal_id <$> withdrawals st) → w ∈ withdrawals st →
  wd_status w = WdPending →
  find (λ r, (withdrawal_id r =? withdrawal_id w) && wd_is_pending r) (withdrawals st)
    = Some w.
Proof.
  intros Hnd Hin Hst.
  apply (find_by_key withdrawal_id wd_is_pending); [done|done|].
  unfold wd_is_pending. by rewrite Hst.
Qed.

(** Once no pending row has the key, both reviews answer "not found". *)
Lemma reviewed_submission_is_closed upd sid reason st :
  is_admin ADMIN_IDS upd = true →
  find (λ r, (submission_id r =? sid) && is_pending r) (submissions st) = None →
  admin_approve_submission ADMIN_IDS upd sid st = (st, SubmissionNotFoundOrProcessed) ∧
  admin_reject_submission ADMIN_IDS upd sid reason st = (st, SubmissionNotFoundOrProcessed).
Proof.
  intros Ha Hf. unfold admin_approve_submission, admin_reject_submission. opened.
  by rewrite Ha, Hf.
Qed.

End Answers.

(** * The properties *)

(** C1, as the code has it.  In a state the handlers can reach, an
    operator's approval of a pending submission raises at line 1018,
    where [log_transaction] finds the file locked by the two [UPDATE]s
    of the handler itself: the answer is no message at all, the row is
    still [pending] and nothing is credited, the state being the very
    same; the same approval sent again meets the same end.  From any
    state, whoever sends it and whatever the key,
    [admin_approve_submission] returns the state it was given.  What the
    claim says of a submission that is reviewed holds of the rejected
    ones: after a rejection, approve and reject answer "Submission not
    found or already processed" and return the same state. *)
Theorem approval_raises_and_credits_nothing ADMIN_IDS parse_float st upd upd2 s
    reason reason2 :
  reachable ADMIN_IDS parse_float st →
  is_admin ADMIN_IDS upd = true → is_admin ADMIN_IDS upd2 = true →
  s ∈ submissions st → sub_status s = SubPending →
  let sid := submission_id s in
  admin_approve_submission ADMIN_IDS upd sid st = (st, Raised) ∧
  admin_approve_submission ADMIN_IDS upd2 sid
    (admin_approve_submission ADMIN_IDS upd sid st).1 = (st, Raised) ∧
  (∀ upd' sid' st', (admin_approve_submission ADMIN_IDS upd' sid' st').1 = st') ∧
  let st1 := (admin_reject_submission ADMIN_IDS upd sid reason st).1 in
  (admin_reject_submission ADMIN_IDS upd sid reason st).2 = SubmissionRejected sid ∧
  admin_approve_submission ADMIN_IDS upd2 sid st1 = (st1, SubmissionNotFoundOrProcessed) ∧
  admin_reject_submission ADMIN_IDS upd2 sid reason2 st1
    = (st1, SubmissionNotFoundOrProcessed).
Proof.
  intros Hr Ha Ha2 Hin Hst.
  pose proof (reachable_consistent _ _ _ Hr) as Hc.
  destruct (submission_refs st Hc s Hin) as [[u Hu] [t Ht]%task_known_find].
  pose proof (pending_submission_found st s Hc Hin Hst) as Hfind.
  assert (∀ adm, is_admin ADMIN_IDS adm = true →
            admin_approve_submission ADMIN_IDS adm (submission_id s) st = (st, Raised))
    as Hraise.
  { intros adm Hadm. unfold admin_approve_submission. locked.
    by rewrite Hadm, Hfind, Ht, Hu. }
  cbn zeta. rewrite (Hraise upd Ha). cbn [fst].
  split; [done|]. split; [by apply Hraise|].
  split; [intros; apply admin_approve_submission_state|].
  destruct (admin_reject_submission ADMIN_IDS upd (submission_id s) reason st)
    as [st1 r1] eqn:E.
  unfold admin_reject_submission in E. rewrite Ha, Hfind, Hu in E.
  cbn [negb] in E. injection E as <- <-. cbn [fst snd].
  split; [done|].
  apply reviewed_submission_is_closed; [done|]. simpl.
  by rewrite (find_update_where_None (λ x, submission_id x =? submission_id s) is_pending).
Qed.

(** C2.  After any run of the handlers from the empty database, the
    balance of every user is the sum of the signed amounts of that user's
    transaction rows; and every single handler call, from any state,
    either leaves all balances and the log as they were or appends
    exactly one row whose [balance_before] and [balance_after] are the
    balance of its user before and after the call, with no other balance
    changed.  Both hold in the plainest way: every handler that changes
    a balance calls [log_transaction] before it commits, and the call
    raises; so every call leaves all balances and the log as they were,
    and after any run the log is empty and every balance is the 0 it was
    inserted with. *)
Theorem ledger_reconciles ADMIN_IDS parse_float :
  (∀ trace uid u,
     users (run ADMIN_IDS parse_float trace init) !! uid = Some u →
     balance u = ledger_sum uid (transactions (run ADMIN_IDS parse_float trace init))) ∧
  (∀ upd ev st, ledger_step st (handle ADMIN_IDS parse_float upd ev st).1) ∧
  (∀ upd ev st,
     transactions (handle ADMIN_IDS parse_float upd ev st).1 = transactions st ∧
     ∀ uid, balance_of (handle ADMIN_IDS parse_float upd ev st).1 uid = balance_of st uid) ∧
  (∀ trace,
     transactions (run ADMIN_IDS parse_float trace init) = [] ∧
     ∀ uid u, users (run ADMIN_IDS parse_float trace init) !! uid = Some u →
              balance u = 0%float).
Proof.
  assert (∀ trace, unpaid (run ADMIN_IDS parse_float trace init)) as Hun.
  { intros trace. eapply reachable_sound. by exists trace. }
  split; [|split; [|split]].
  - intros trace uid u Hu. destruct (Hun trace) as [_ Hx _ Hz _].
    rewrite Hx. simpl. by destruct (Hz uid u Hu).
  - intros upd ev st. eapply effect_ledger_step, handle_effect.
  - intros upd ev st. split.
    + apply handle_transactions.
    + intros uid. eapply effect_balance_of, handle_effect.
  - intros trace. destruct (Hun trace) as [_ Hx _ Hz _]. split; [done|].
    intros uid u Hu. by destruct (Hz uid u Hu).
Qed.

(** C3, as the code has it.  When the account details of a withdrawal
    are awaited and arrive (with an [@] for UPI), the request raises at
    line 766, where [log_transaction] finds the file locked by the
    [INSERT] and the [UPDATE] of the handler itself: the user gets no
    answer, no withdrawal row is created, balance and [total_withdrawn]
    stay, nothing is logged; all that changes is the conversation data,
    where the "awaiting details" key is deleted while the amount and the
    method stay.  No update at all is ever answered "Withdrawal Request
    Submitted". *)
Theorem request_raises_and_holds_nothing ADMIN_IDS parse_float upd text st :
  let d := get_user_data st (user_id upd) in
  awaiting_upi_details d = true ∨ awaiting_gateway_details d = true →
  (awaiting_upi_details d = true → contains_char "@" text = true) →
  let st' := (handle_withdraw_details upd text st).1 in
  let d' := get_user_data st' (user_id upd) in
  (handle_withdraw_details upd text st).2 = Raised ∧
  users st' = users st ∧ withdrawals st' = withdrawals st ∧
  transactions st' = transactions st ∧ tasks st' = tasks st ∧
  submissions st' = submissions st ∧
  withdraw_amount d' = withdraw_amount d ∧ withdraw_method d' = withdraw_method d ∧
  (awaiting_upi_details d' && awaiting_gateway_details d' = false) ∧
  ∀ upd' ev st0 wid amount,
    (handle ADMIN_IDS parse_float upd' ev st0).2 ≠ WithdrawalRequested wid amount.
Proof.
  intros d Haw Hat. unfold handle_withdraw_details. fold d.
  rewrite !process_withdrawal_raises.
  assert (∀ d0, get_user_data (set_user_data (user_id upd) d0 st) (user_id upd) = d0)
    as Hget.
  { intros d0. unfold get_user_data, set_user_data. simpl.
    by rewrite lookup_insert_eq. }
  assert (∀ upd' ev st0 wid amount,
            (handle ADMIN_IDS parse_float upd' ev st0).2 ≠ WithdrawalRequested wid amount)
    as Hnever.
  { intros upd' ev st0 wid amount Heq.
    pose proof (handle_never_reports_payment ADMIN_IDS parse_float upd' ev st0) as Hn.
    by rewrite Heq in Hn. }
  destruct (awaiting_upi_details d) eqn:Hupi.
  - rewrite (Hat eq_refl). simpl. rewrite Hget. simpl. by repeat split.
  - destruct Haw as [Haw|Haw]; [done|]. rewrite Haw. simpl. rewrite Hget. simpl.
    repeat split; try done. by rewrite Hupi.
Qed.

(** C4.  No run takes a balance below 0: after any run from the empty
    database every balance is 0, and a single handler call, from any
    state, leaves every balance as it was.  An amount above the balance
    is refused where it is typed, with the very same state:
    [handle_withdraw_amount] answers "Insufficient balance" (or "Minimum
    withdrawal amount" when the amount is below the minimum as well),
    [admin_deduct_points] answers "Insufficient balance". *)
Theorem balance_never_negative ADMIN_IDS parse_float :
  (∀ trace uid u,
     users (run ADMIN_IDS parse_float trace init) !! uid = Some u →
     balance u = 0%float ∧ (0 <=? balance u)%float = true) ∧
  (∀ upd ev st uid u,
     users st !! uid = Some u →
     ∃ u', users (handle ADMIN_IDS parse_float upd ev st).1 !! uid = Some u' ∧
           balance u' = balance u) ∧
  (∀ upd text st u amount,
     awaiting_withdraw_amount (get_user_data st (user_id upd)) = true →
     parse_float text = Some amount →
     users st !! user_id upd = Some u →
     (balance u <? amount)%float = true →
     ∃ r, handle_withdraw_amount parse_float upd text st = (st, r) ∧
          (r = InsufficientBalance (balance u) ∨ ∃ m, r = BelowMinimum m)) ∧
  (∀ upd target amount reason st u,
     is_admin ADMIN_IDS upd = true →
     users st !! target = Some u →
     (balance u <? amount)%float = true →
     admin_deduct_points ADMIN_IDS upd target amount reason st
       = (st, InsufficientUserBalance (balance u))).
Proof.
  split; [|split; [|split]].
  - intros trace uid u Hu.
    assert (unpaid (run ADMIN_IDS parse_float trace init)) as [_ _ _ Hz _].
    { eapply reachable_sound. by exists trace. }
    destruct (Hz uid u Hu) as (-> & _). by split.
  - intros upd ev st uid u Hu.
    destruct (handle_money_same ADMIN_IDS parse_float upd ev st uid u Hu)
      as (u' & Hu' & Hb & _).
    eauto.
  - apply handle_withdraw_amount_insufficient.
  - apply admin_deduct_points_insufficient.
Qed.

(** C5, as the code has it.  An operator's rejection of a pending
    withdrawal of an existing user raises at line 1283, where
    [log_transaction] finds the file locked by the two [UPDATE]s of the
    handler itself: the answer is no message at all, the row stays
    [pending], nothing is refunded and nothing is logged, the state
    being the very same, and the same command sent again meets the same
    end.  From any state, whoever sends it and whatever the key,
    [admin_reject_withdrawal] returns the state it was given.  In the
    states the handlers reach from the empty database there is no
    withdrawal to reject (the request raises in the same way), and every
    rejection by an operator is answered "Withdrawal not found or
    already processed". *)
Theorem rejection_raises_and_refunds_nothing ADMIN_IDS parse_float st upd upd2 w
    reason reason2 :
  NoDup (withdrawal_id <$> withdrawals st) →
  is_admin ADMIN_IDS upd = true → is_admin ADMIN_IDS upd2 = true →
  w ∈ withdrawals st → wd_status w = WdPending →
  is_Some (users st !! wd_user_id w) →
  let wid := withdrawal_id w in
  admin_reject_withdrawal ADMIN_IDS upd wid reason st = (st, Raised) ∧
  admin_reject_withdrawal ADMIN_IDS upd2 wid reason2
    (admin_reject_withdrawal ADMIN_IDS upd wid reason st).1 = (st, Raised) ∧
  (∀ upd' wid' reason' st',
     (admin_reject_withdrawal ADMIN_IDS upd' wid' reason' st').1 = st') ∧
  (∀ st0 upd' wid' reason',
     reachable ADMIN_IDS parse_float st0 → is_admin ADMIN_IDS upd' = true →
     withdrawals st0 = [] ∧
     admin_reject_withdrawal ADMIN_IDS upd' wid' reason' st0
       = (st0, WithdrawalNotFoundOrProcessed)).
Proof.
  intros Hnd Ha Ha2 Hin Hst [u Hu].
  pose proof (pending_withdrawal_found st w Hnd Hin Hst) as Hfind.
  assert (∀ adm r, is_admin ADMIN_IDS adm = true →
            admin_reject_withdrawal ADMIN_IDS adm (withdrawal_id w) r st = (st, Raised))
    as Hraise.
  { intros adm r Hadm. unfold admin_reject_withdrawal. locked.
    by rewrite Hadm, Hfind, Hu. }
  cbn zeta. rewrite (Hraise upd reason Ha). cbn [fst].
  split; [done|]. split; [by apply Hraise|].
  split; [intros; apply admin_reject_withdrawal_state|].
  intros st0 upd' wid' reason' Hr Hadm.
  destruct (reachable_sound _ _ _ Hr) as (_ & _ & [Hw0 _ _ _ _]).
  split; [done|]. unfold admin_reject_withdrawal. opened. by rewrite Hadm, Hw0.
Qed.

(** C10, as the code has it.  A request followed by its rejection
    changes nothing in the tables: the request raises (line 766) before
    a withdrawal row is committed, so whatever key the operator rejects
    next, the rejection either finds no pending row with it or raises
    in its turn (line 1283).  Every user row, the withdrawals and the
    log are as before the request: the balance is its value before the
    request, and [total_withdrawn] is that value as well, not the
    amount higher. *)
Theorem request_and_rejection_move_nothing ADMIN_IDS upd adm text wid reason st :
  let d := get_user_data st (user_id upd) in
  awaiting_upi_details d = true ∨ awaiting_gateway_details d = true →
  (awaiting_upi_details d = true → contains_char "@" text = true) →
  let st1 := (handle_withdraw_details upd text st).1 in
  let st2 := (admin_reject_withdrawal ADMIN_IDS adm wid reason st1).1 in
  (handle_withdraw_details upd text st).2 = Raised ∧
  (admin_reject_withdrawal ADMIN_IDS adm wid reason st1).2
    ∈ [NoReply; WithdrawalNotFoundOrProcessed; Raised] ∧
  users st2 = users st ∧ withdrawals st2 = withdrawals st ∧
  transactions st2 = transactions st ∧
  ∀ uid u, users st !! uid = Some u →
    ∃ u', users st2 !! uid = Some u' ∧
          balance u' = balance u ∧ total_withdrawn u' = total_withdrawn u.
Proof.
  intros d Haw Hat. cbn zeta. rewrite admin_reject_withdrawal_state.
  split.
  { unfold handle_withdraw_details. fold d. rewrite !process_withdrawal_raises.
    destruct (awaiting_upi_details d) eqn:Hupi.
    - by rewrite (Hat eq_refl).
    - destruct Haw as [Haw|Haw]; [done|]. by rewrite Haw. }
  split; [apply admin_reject_withdrawal_reply|].
  assert (users (handle_withdraw_details upd text st).1 = users st ∧
          withdrawals (handle_withdraw_details upd text st).1 = withdrawals st ∧
          transactions (handle_withdraw_details upd text st).1 = transactions st)
    as (Hus & Hws & Hxs).
  { unfold handle_withdraw_details. rewrite !process_withdrawal_raises.
    repeat case_match; done. }
  rewrite Hus, Hws, Hxs. repeat split; try done.
  intros uid u Hu. eauto.
Qed.

(** C6.  [verify_user_ip]: an address recorded for another user makes
    the claim fail and the state stay; otherwise the claim succeeds, the
    address row is (re)written for the claimant with [first_seen] kept
    when there was a row and [last_seen] set to now, the claimant's user
    row, when there is one, is marked verified with that address, and
    nothing else changes.  Whatever the outcome, and along any run of the
    handlers, every recorded address keeps its owner and its
    [first_seen]; the table has one row per address. *)
Theorem address_first_writer_wins ADMIN_IDS parse_float uid ip ts st :
  (∀ row, ip_addresses st !! ip = Some row → ip_user_id row ≠ uid →
     verify_user_ip uid ip ts st = (st, false)) ∧
  ((∀ row, ip_addresses st !! ip = Some row → ip_user_id row = uid) →
     ∃ st', verify_user_ip uid ip ts st = (st', true) ∧
       ip_addresses st' =
         <[ip := mkIpRow uid (from_option first_seen ts (ip_addresses st !! ip)) ts]>
           (ip_addresses st) ∧
       users st' = alter (set_verified ip) uid (users st) ∧
       (∀ u, users st !! uid = Some u →
             ∃ u', users st' !! uid = Some u' ∧
                   is_verified u' = true ∧ verified_ip u' = Some ip) ∧
       tasks st' = tasks st ∧ submissions st' = submissions st ∧
       withdrawals st' = withdrawals st ∧ channels st' = channels st ∧
       transactions st' = transactions st ∧ user_data st' = user_data st) ∧
  keeps_owners (ip_addresses st) (ip_addresses (verify_user_ip uid ip ts st).1) ∧
  (∀ trace, keeps_owners (ip_addresses st)
              (ip_addresses (run ADMIN_IDS parse_float trace st))).
Proof.
  split; [|split; [|split]].
  - intros row Hrow Hne. unfold verify_user_ip. rewrite Hrow.
    apply Z.eqb_neq in Hne. by rewrite Hne.
  - intros Hown. unfold verify_user_ip.
    assert (match ip_addresses st !! ip with
            | Some row => negb (ip_user_id row =? uid)
            | None => false
            end = false) as ->.
    { destruct (ip_addresses st !! ip) as [row|] eqn:Hrow; [|reflexivity].
      by rewrite (Hown row eq_refl), Z.eqb_refl. }
    eexists. split; [reflexivity|].
    simpl. repeat split; try reflexivity.
    intros u Hu. rewrite lookup_alter_eq, Hu. simpl. eauto.
  - apply verify_user_ip_keeps_owners.
  - intros trace. apply run_keeps_owners.
Qed.

Lemma count_where_elem {A} (p : A → bool) rows r :
  r ∈ rows → p r = true → (1 ≤ count_where p rows)%nat.
Proof.
  intros (l1 & l2 & ->)%list_elem_of_split Hp.
  rewrite count_where_app, count_where_cons, Hp. lia.
Qed.

(** C7.  In a state the handlers can reach, a user has at most one
    pending submission per task; when there is one, [submit_task] for
    that task answers with a refusal ("pending submission exists" once
    the user and task checks pass) and returns the very same state, and a
    screenshot sent then adds no pending row for that task. *)
Theorem one_pending_per_user_and_task ADMIN_IDS parse_float st :
  reachable ADMIN_IDS parse_float st →
  (∀ uid tid, (count_where (pending_for uid tid) (submissions st) ≤ 1)%nat) ∧
  (∀ upd tid,
     existsb (pending_for (user_id upd) tid) (submissions st) = true →
     (submit_task upd tid st).1 = st ∧
     (submit_task upd tid st).2 ∈ [NotVerified; TaskNotFoundOrInactive; PendingSubmissionExists] ∧
     (∀ u, users st !! user_id upd = Some u →
           is_verified u = true → is_blocked u = false →
           existsb (λ t, (task_id t =? tid) && is_active t) (tasks st) = true →
           (submit_task upd tid st).2 = PendingSubmissionExists) ∧
     (∀ photo,
        count_where (pending_for (user_id upd) tid)
          (submissions (handle_screenshot upd photo st).1) =
        count_where (pending_for (user_id upd) tid) (submissions st))).
Proof.
  intros Hr. pose proof (reachable_consistent _ _ _ Hr) as Hc.
  split; [apply Hc|].
  intros upd tid Hpend. unfold submit_task. rewrite Hpend.
  repeat split.
  - repeat case_match; reflexivity.
  - repeat case_match; simpl; set_solver.
  - intros u Hu Hv Hb Ht. by rewrite Hu, Hv, Hb, Ht.
  - intros photo. unfold handle_screenshot.
    destruct (pending_submission (get_user_data st (user_id upd))) as [tid'|] eqn:Hd;
      [|done].
    destruct (draft_ok_get st _ _ Hc Hd) as (_ & _ & Hnone).
    assert (tid' ≠ tid) as Hne by (intros ->; congruence).
    repeat case_match; simpl; try done;
      rewrite count_where_app; unfold count_where at 2; simpl;
      unfold pending_for; simpl;
      apply Z.eqb_neq in Hne; rewrite Hne, andb_false_r; simpl; lia.
Qed.


(** C9.  [total_earned] and [total_withdrawn] never decrease, because
    they never change: a single handler call, from any state and
    [/addpoints] included, leaves both as they were for every user (the
    [UPDATE]s that would change them are followed by [log_transaction],
    which raises before the commit); and along any run from a state the
    handlers can reach both are 0 before and after. *)
Theorem cumulative_counters_never_decrease ADMIN_IDS parse_float :
  (∀ upd ev st uid u,
     users st !! uid = Some u →
     ∃ u', users (handle ADMIN_IDS parse_float upd ev st).1 !! uid = Some u' ∧
           total_earned u' = total_earned u ∧ total_withdrawn u' = total_withdrawn u) ∧
  (∀ trace st uid u,
     reachable ADMIN_IDS parse_float st → users st !! uid = Some u →
     ∃ u', users (run ADMIN_IDS parse_float trace st) !! uid = Some u' ∧
           (total_earned u <=? total_earned u')%float = true ∧
           (total_withdrawn u <=? total_withdrawn u')%float = true).
Proof.
  split.
  - intros upd ev st uid u Hu.
    destruct (handle_money_same ADMIN_IDS parse_float upd ev st uid u Hu)
      as (u' & Hu' & _ & He & Hw & _).
    eauto.
  - intros trace st uid u Hr Hu.
    destruct (run_money_same ADMIN_IDS parse_float trace st uid u Hu)
      as (u' & Hu' & _ & He & Hw & _).
    destruct (reachable_sound _ _ _ Hr) as (_ & _ & [_ _ _ Hz _]).
    destruct (Hz uid u Hu) as (_ & He0 & Hw0 & _).
    exists u'. rewrite He, Hw, He0, Hw0. by repeat split.
Qed.

(** * Rows are kept *)

Section RowsKept.
Context {A : Type} (R : A → A → Prop).
Implicit Types (rows : list A).

Lemma rows_kept_refl rows : (∀ r, R r r) → rows_kept R rows rows.
Proof. intros HR i r Hi. eauto. Qed.

Lemma rows_kept_trans rows1 rows2 rows3 :
  (∀ a b c, R a b → R b c → R a c) →
  rows_kept R rows1 rows2 → rows_kept R rows2 rows3 → rows_kept R rows1 rows3.
Proof.
  intros HR H12 H23 i r Hi.
  destruct (H12 i r Hi) as (r2 & Hi2 & Hr2). destruct (H23 i r2 Hi2) as (r3 & Hi3 & Hr3).
  eauto.
Qed.

Lemma rows_kept_app rows extra : (∀ r, R r r) → rows_kept R rows (rows ++ extra).
Proof. intros HR i r Hi. exists r. split; [by apply lookup_app_l_Some|done]. Qed.

Lemma rows_kept_update q g rows :
  (∀ r, R r r) → (∀ r, r ∈ rows → q r = true → R r (g r)) →
  rows_kept R rows (update_where q g rows).
Proof.
  intros HR Hg i r Hi. unfold update_where. rewrite list_lookup_fmap, Hi. simpl.
  eexists. split; [done|]. destruct (q r) eqn:E; [|done].
  apply Hg; [|done]. by eapply list_elem_of_lookup_2.
Qed.
End RowsKept.

Lemma sub_settled_refl s : sub_settled s s.
Proof. by repeat split. Qed.

Lemma sub_settled_trans a b c : sub_settled a b → sub_settled b c → sub_settled a c.
Proof.
  intros (?&?&?&?&?&?&Hab) (?&?&?&?&?&?&Hbc). repeat split; try congruence.
  intros Hp. specialize (Hab Hp). subst b. by apply Hbc.
Qed.

Lemma wd_settled_refl w : wd_settled w w.
Proof. by repeat split. Qed.

Lemma wd_settled_trans a b c : wd_settled a b → wd_settled b c → wd_settled a c.
Proof.
  intros (?&?&?&?&?&?&Hab) (?&?&?&?&?&?&Hbc). repeat split; try congruence.
  intros Hp. specialize (Hab Hp). subst b. by apply Hbc.
Qed.

Lemma task_kept_trans a b c : task_kept a b → task_kept b c → task_kept a c.
Proof. intros [->| ->] [->| ->]; [by left|by right|by right|by right]. Qed.

Lemma user_kept_refl u : user_kept u u.
Proof. by repeat split. Qed.

Lemma user_kept_trans a b c : user_kept a b → user_kept b c → user_kept a c.
Proof.
  intros (?&?&?&?&?&Hab) (?&?&?&?&?&Hbc). repeat split; try congruence. auto.
Qed.

Section Kept.
Context (upd : Update) (st st' : State).
Hypothesis HE : Effect upd st st'.

Lemma effect_tasks_kept : rows_kept task_kept (tasks st) (tasks st').
Proof.
  effect_cases HE; rewrite Ht; try (apply rows_kept_refl; by left).
  - apply rows_kept_app. by left.
  - apply rows_kept_update; [by left|]. intros r _ _. by right.
Qed.

Lemma effect_users_kept : rows_related user_kept (users st) (users st').
Proof.
  effect_cases HE; rewrite Hu; try (apply rows_related_refl, user_kept_refl);
    try (by apply rows_related_insert_new; [|apply user_kept_refl]);
    (apply rows_related_alter; [|apply user_kept_refl]); intros r _; by repeat split.
Qed.

Lemma effect_submissions_kept :
  consistent st → rows_kept sub_settled (submissions st) (submissions st').
Proof.
  intros Hc.
  effect_cases HE; rewrite Hs; try (apply rows_kept_refl, sub_settled_refl).
  - apply rows_kept_app, sub_settled_refl.
  - apply find_Some_elem in Hf as [Hin [_ Hp]%andb_prop].
    apply rows_kept_update; [apply sub_settled_refl|].
    intros r Hr Heq%Z.eqb_eq.
    assert (r = s) as -> by (eapply rowid_inj; eauto using submission_ids_unique).
    repeat split. simpl. congruence.
Qed.

Lemma effect_withdrawal_ids :
  withdrawal_id <$> withdrawals st' = withdrawal_id <$> withdrawals st.
Proof.
  effect_cases HE; rewrite Hw; try done. by apply rowid_update_where.
Qed.

Lemma effect_withdrawals_kept :
  NoDup (withdrawal_id <$> withdrawals st) →
  rows_kept wd_settled (withdrawals st) (withdrawals st').
Proof.
  intros Hnd.
  effect_cases HE; rewrite Hw; try (apply rows_kept_refl, wd_settled_refl).
  apply find_Some_elem in Hf as [Hin [_ Hp]%andb_prop].
  apply rows_kept_update; [apply wd_settled_refl|].
  intros r Hr Heq%Z.eqb_eq.
  assert (r = w) as -> by (eapply rowid_inj; eauto).
  repeat split. simpl. congruence.
Qed.
End Kept.

Section KeptRuns.
Variable ADMIN_IDS : list Z.
Variable parse_float : string → option float.

Lemma run_submissions_kept trace st :
  consistent st →
  rows_kept sub_settled (submissions st) (submissions (run ADMIN_IDS parse_float trace st)).
Proof.
  revert st. induction trace as [|[upd ev] trace IH]; intros st Hc; simpl.
  - apply rows_kept_refl, sub_settled_refl.
  - pose proof (handle_effect ADMIN_IDS parse_float upd ev st) as HE.
    eapply rows_kept_trans; [apply sub_settled_trans| |].
    + by eapply effect_submissions_kept.
    + apply IH. by apply handle_consistent.
Qed.

Lemma run_withdrawals_kept trace st :
  NoDup (withdrawal_id <$> withdrawals st) →
  rows_kept wd_settled (withdrawals st) (withdrawals (run ADMIN_IDS parse_float trace st)).
Proof.
  revert st. induction trace as [|[upd ev] trace IH]; intros st Hnd; simpl.
  - apply rows_kept_refl, wd_settled_refl.
  - pose proof (handle_effect ADMIN_IDS parse_float upd ev st) as HE.
    eapply rows_kept_trans; [apply wd_settled_trans| |].
    + by eapply effect_withdrawals_kept.
    + apply IH. unfold step. simpl. by rewrite (effect_withdrawal_ids _ _ _ HE).
Qed.

(** X10.  The log only grows at its end: from any state, after any
    updates, the old [transactions] are a prefix of the new ones. *)
Theorem log_is_append_only trace st :
  transactions st `prefix_of` transactions (run ADMIN_IDS parse_float trace st).
Proof. by rewrite run_transactions. Qed.

(** X11.  From any state, after any updates, each task is still at its
    place in the table and is either unchanged or differs by [is_active]
    being false: tasks are never deleted, and description, reward, link
    and creator never change. *)
Theorem tasks_are_only_deactivated trace st :
  rows_kept task_kept (tasks st) (tasks (run ADMIN_IDS parse_float trace st)).
Proof.
  revert st. induction trace as [|[upd ev] trace IH]; intros st; simpl.
  - apply rows_kept_refl. by left.
  - eapply rows_kept_trans; [apply task_kept_trans| |apply IH].
    eapply effect_tasks_kept, handle_effect.
Qed.

(** X12.  From any state, after any updates, each user row is still
    there with the same names, [joined_date] and [is_blocked], and a
    verified user stays verified. *)
Theorem user_rows_are_kept trace st :
  rows_related user_kept (users st) (users (run ADMIN_IDS parse_float trace st)).
Proof.
  revert st. induction trace as [|[upd ev] trace IH]; intros st; simpl.
  - apply rows_related_refl, user_kept_refl.
  - eapply rows_related_trans; [apply user_kept_trans| |apply IH].
    eapply effect_users_kept, handle_effect.
Qed.

(** X13.  From a reachable state on, each submission stays at its place
    with the same key, user, task, screenshot, date and address, and a
    submission that is approved or rejected never changes again. *)
Theorem reviewed_submissions_are_final trace st :
  reachable ADMIN_IDS parse_float st →
  rows_kept sub_settled (submissions st) (submissions (run ADMIN_IDS parse_float trace st)).
Proof. intros Hc%reachable_consistent. by apply run_submissions_kept. Qed.

(** X14.  From a state whose withdrawals have distinct keys on, each
    withdrawal stays at its place with the same key, user, amount,
    method, account and date, and a withdrawal that is completed or
    rejected never changes again. *)
Theorem settled_withdrawals_are_final trace st :
  NoDup (withdrawal_id <$> withdrawals st) →
  rows_kept wd_settled (withdrawals st) (withdrawals (run ADMIN_IDS parse_float trace st)).
Proof. apply run_withdrawals_kept. Qed.

End KeptRuns.

(** * The runs from the empty database *)

Section Bookkeeping.
Variable ADMIN_IDS : list Z.
Variable parse_float : string → option float.

(** X1.  In a state the handlers can reach, a user has at most one
    submission per task that is pending or approved, hence at most one
    approved one: the reward of a task is credited to a user at most
    once. *)
Theorem task_counted_once st uid tid :
  reachable ADMIN_IDS parse_float st →
  (count_where (live_for uid tid) (submissions st) ≤ 1)%nat ∧
  (count_where (approved_for uid tid) (submissions st) ≤ 1)%nat.
Proof.
  intros (Hc & _ & Hp)%reachable_sound.
  pose proof (pending_once st Hc uid tid) as Hone.
  pose proof (no_approved st Hp) as Hna.
  split.
  - etrans; [|exact Hone]. apply count_where_le. intros r Hr.
    unfold live_for, pending_for. rewrite (Hna r Hr), orb_false_r. done.
  - rewrite count_where_none; [lia|]. intros r Hr.
    unfold approved_for. by rewrite (Hna r Hr), andb_false_r.
Qed.

(** X2.  Nothing is ever paid.  In a state the handlers can reach from
    the empty database there is no withdrawal and no log row, no
    submission is approved, and every user has a balance, a
    [total_earned] and a [total_withdrawn] of 0 and no completed task:
    the figures of [admin_financial_stats] are sums over these.  And no
    update, then or in any other state, is answered with the report of
    a payment ("approved ... credited", "Withdrawal Request Submitted",
    "... refunded", "Added ...", "Deducted ..."). *)
Theorem nothing_is_ever_paid st :
  reachable ADMIN_IDS parse_float st →
  withdrawals st = [] ∧ transactions st = [] ∧
  (∀ s, s ∈ submissions st → sub_status s ≠ SubApproved) ∧
  (∀ uid u, users st !! uid = Some u →
     balance u = 0%float ∧ total_earned u = 0%float ∧
     total_withdrawn u = 0%float ∧ completed_tasks u = 0) ∧
  ∀ st0 upd ev, reports_payment (handle ADMIN_IDS parse_float upd ev st0).2 = false.
Proof.
  intros (_ & _ & [Hw Hx Hna Hz _])%reachable_sound.
  repeat split; try done; try (by eapply Hz).
  - intros s Hs Hst. specialize (Hna s Hs). unfold is_approved in Hna.
    by rewrite Hst in Hna.
  - intros. apply handle_never_reports_payment.
Qed.

(** X3.  In a state the handlers can reach, the only amounts that pass
    the two checks of [handle_withdraw_amount] are NaNs: when the handler
    goes on to ask for the account details, [float] read the text as a
    NaN, and that is what it keeps as [withdraw_amount]; every amount
    kept in the conversation data of any user is a NaN.  (The balance is
    0: a number not above it is below either minimum.) *)
Theorem only_nan_passes_the_amount_check st upd text :
  reachable ADMIN_IDS parse_float st →
  let result := handle_withdraw_amount parse_float upd text st in
  (result.2 = AskUpiId ∨ result.2 = AskGatewayDetails →
   ∃ a, parse_float text = Some a ∧ is_nan a = true ∧
        withdraw_amount (get_user_data result.1 (user_id upd)) = Some a) ∧
  (∀ uid d a, user_data st !! uid = Some d → withdraw_amount d = Some a →
              is_nan a = true).
Proof.
  intros (_ & _ & [_ _ _ Hz Hn])%reachable_sound. cbn zeta. split; [|exact Hn].
  unfold handle_withdraw_amount.
  destruct (negb _); [by intros [|]|].
  destruct (parse_float text) as [a|]; [|by intros [|]].
  destruct (a <? _)%float eqn:Hmin; [by intros [|]|].
  destruct (users st !! user_id upd) as [u|] eqn:Hu; [|by intros [|]].
  destruct (balance u <? a)%float eqn:Hb; [by intros [|]|].
  destruct (Hz _ _ Hu) as (Hzero & _). rewrite Hzero in Hb.
  assert (is_nan a = true) as Hnan.
  { eapply not_below_not_above; [|exact Hmin|exact Hb].
    destruct (is_gateway _); auto. }
  intros _. exists a. split; [done|]. split; [done|].
  destruct (is_gateway _); simpl; unfold get_user_data, set_user_data; simpl;
    by rewrite lookup_insert_eq.
Qed.

(** X4.  [/addpoints] and [/deductpoints] change nothing, whoever sends
    them and from any state: for an operator and an existing user,
    [/addpoints] raises at line 1601 and [/deductpoints], when the
    balance covers the amount, at line 1666, each after its [UPDATE] and
    before its commit. *)
Theorem points_commands_change_nothing upd target amount reason st :
  (admin_add_points ADMIN_IDS upd target amount reason st).1 = st ∧
  (admin_deduct_points ADMIN_IDS upd target amount reason st).1 = st ∧
  (∀ u, is_admin ADMIN_IDS upd = true → users st !! target = Some u →
        admin_add_points ADMIN_IDS upd target amount reason st = (st, Raised) ∧
        ((balance u <? amount)%float = false →
         admin_deduct_points ADMIN_IDS upd target amount reason st = (st, Raised))).
Proof.
  split; [apply admin_add_points_state|]. split; [apply admin_deduct_points_state|].
  intros u Ha Hu. unfold admin_add_points, admin_deduct_points. locked.
  rewrite Ha, Hu. simpl. split; [done|]. by intros ->.
Qed.

(** X9.  From any state, after any updates, each user row is still
    there with the very same balance, [total_earned], [total_withdrawn]
    and [completed_tasks]: no run moves money or completes a task. *)
Theorem money_columns_never_change trace st :
  rows_related money_same (users st) (users (run ADMIN_IDS parse_float trace st)).
Proof. apply run_money_same. Qed.

(** X6.  In a reachable state the keys of tasks, submissions,
    withdrawals and log rows are 1, 2, 3, ... in the order of insertion
    (no row is ever deleted), so the next key is the number of rows
    plus one. *)
Theorem keys_count_from_one st :
  reachable ADMIN_IDS parse_float st →
  numbered task_id (tasks st) ∧ numbered submission_id (submissions st) ∧
  numbered withdrawal_id (withdrawals st) ∧ numbered transaction_id (transactions st) ∧
  next_rowid task_id (tasks st) = Z.of_nat (length (tasks st)) + 1 ∧
  next_rowid submission_id (submissions st) = Z.of_nat (length (submissions st)) + 1 ∧
  next_rowid withdrawal_id (withdrawals st) = Z.of_nat (length (withdrawals st)) + 1 ∧
  next_rowid transaction_id (transactions st) = Z.of_nat (length (transactions st)) + 1.
Proof.
  intros (_ & [_ Ht Hs _] & [Hw Hx _ _ _])%reachable_sound.
  rewrite Hw, Hx. unfold next_rowid.
  rewrite !numbered_last_rowid by (done || apply numbered_nil).
  repeat split; try done; apply numbered_nil.
Qed.

(** X7.  No handler sets [is_blocked]: it is false for every user of a
    reachable state, so the [is_blocked] test of [submit_task] never
    fires. *)
Theorem users_never_blocked st uid u :
  reachable ADMIN_IDS parse_float st → users st !! uid = Some u → is_blocked u = false.
Proof. intros (_ & Ha & _)%reachable_sound. by apply never_blocked. Qed.

(** X8.  In a reachable state every submission refers to an existing
    user and task, every withdrawal and every log row to an existing
    user. *)
Theorem rows_refer_to_known_rows st :
  reachable ADMIN_IDS parse_float st →
  (∀ s, s ∈ submissions st → user_known st (sub_user_id s) ∧ task_known st (sub_task_id s)) ∧
  (∀ w, w ∈ withdrawals st → user_known st (wd_user_id w)) ∧
  (∀ t, t ∈ transactions st → user_known st (tx_user_id t)).
Proof.
  intros (Hc & _ & [_ Hx _ _ _])%reachable_sound.
  split; [apply Hc|]. split; [apply Hc|].
  rewrite Hx. by intros t Ht%elem_of_nil.
Qed.

End Bookkeeping.

(** * Senders, reviews and conversations *)

Section Senders.
Variable ADMIN_IDS : list Z.
Variable parse_float : string → option float.

(** X15.  An update whose sender is not in [ADMIN_IDS], whatever it is
    and from any state: leaves the tasks and the withdrawals as they
    are, leaves every other user's row and conversation data as they
    are, only appends to submissions, can only remove channels (the
    removal button has no check of the sender), and leaves the sender's
    balance, [total_earned] and [completed_tasks] as they are. *)
Theorem sender_outside_admin_ids upd ev st :
  is_admin ADMIN_IDS upd = false →
  let st' := (handle ADMIN_IDS parse_float upd ev st).1 in
  tasks st' = tasks st ∧
  (∀ uid, uid ≠ user_id upd →
     users st' !! uid = users st !! uid ∧ user_data st' !! uid = user_data st !! uid) ∧
  submissions st `prefix_of` submissions st' ∧
  withdrawals st' = withdrawals st ∧
  channels st' ⊆ channels st ∧
  (∀ u u', users st !! user_id upd = Some u → users st' !! user_id upd = Some u' →
     total_earned u' = total_earned u ∧ completed_tasks u' = completed_tasks u ∧
     balance u' = balance u).
Proof.
  intros Hna. cbn zeta.
  destruct ev; simpl;
    rewrite ?admin_approve_submission_state, ?admin_reject_withdrawal_state,
      ?admin_add_points_state, ?admin_deduct_points_state;
    unfold_handlers; rewrite ?process_withdrawal_raises; rewrite ?Hna; simpl.
  all: repeat case_match; simplify_eq; simpl.
  all: split; [done|].
  all: split; [intros uid Hne;
               rewrite ?lookup_alter_ne, ?lookup_insert_ne by done; done|].
  all: split; [first [done|by apply prefix_app_r]|].
  all: split; [done|].
  all: split; [first [done|apply delete_subseteq]|].
  all: intros x x' Hx Hx'.
  all: rewrite ?lookup_alter_eq, ?lookup_insert_eq in Hx'; rewrite ?Hx in Hx'; simpl in Hx'.
  all: by simplify_eq.
Qed.
End Senders.

Lemma find_update_where_same {A} (p : A → bool) (g : A → A) rows :
  (∀ r, p (g r) = p r) → find p (update_where p g rows) = g <$> find p rows.
Proof.
  intros Hg. induction rows as [|x rows IH]; simpl; [done|].
  destruct (p x) eqn:E.
  - by rewrite Hg, E.
  - by rewrite E.
Qed.

Lemma existsb_update_where_none {A} (p q : A → bool) (g : A → A) rows :
  (∀ r, q (g r) = false) → existsb (λ r, p r && q r) (update_where p g rows) = false.
Proof.
  intros Hg. induction rows as [|x rows IH]; simpl; [done|].
  rewrite IH, orb_false_r. destruct (p x) eqn:E.
  - by rewrite Hg, andb_false_r.
  - by rewrite E.
Qed.

(** A pending submission is the only pending one of its user for its
    task, and none is approved. *)
Lemma pending_is_alone st s :
  consistent st → unpaid st → s ∈ submissions st → is_pending s = true →
  count_where (pending_for (sub_user_id s) (sub_task_id s)) (submissions st) = 1%nat ∧
  count_where (approved_for (sub_user_id s) (sub_task_id s)) (submissions st) = 0%nat.
Proof.
  intros Hc Hp Hin Hpend.
  pose proof (pending_once st Hc (sub_user_id s) (sub_task_id s)) as Hone.
  assert (1 ≤ count_where (pending_for (sub_user_id s) (sub_task_id s)) (submissions st))%nat.
  { apply (count_where_elem _ _ s Hin). unfold pending_for. by rewrite !Z.eqb_refl. }
  split; [lia|].
  apply count_where_none. intros r Hr.
  unfold approved_for. by rewrite (no_approved st Hp r Hr), andb_false_r.
Qed.

Lemma get_set_user_data uid d st :
  get_user_data (set_user_data uid d st) uid = d.
Proof. unfold get_user_data, set_user_data. simpl. by rewrite lookup_insert_eq. Qed.

Lemma submit_task_accepts upd tid st u :
  users st !! user_id upd = Some u → is_verified u = true → is_blocked u = false →
  existsb (λ t, (task_id t =? tid) && is_active t) (tasks st) = true →
  existsb (pending_for (user_id upd) tid) (submissions st) = false →
  submit_task upd tid st =
    (set_user_data (user_id upd)
       (set_pending_submission (Some tid) (get_user_data st (user_id upd))) st,
     AskScreenshot tid).
Proof.
  intros Hu Hv Hb Hact Hnp. unfold submit_task. by rewrite Hu, Hv, Hb, Hact, Hnp.
Qed.

Lemma handle_screenshot_inserts upd photo st tid :
  pending_submission (get_user_data st (user_id upd)) = Some tid →
  existsb (approved_for (user_id upd) tid) (submissions st) = false →
  is_Some (find (λ t, task_id t =? tid) (tasks st)) →
  (handle_screenshot upd photo st).2
    = TaskSubmitted (next_rowid submission_id (submissions st)) ∧
  submissions (handle_screenshot upd photo st).1 =
    submissions st ++
      [mkSubmission (next_rowid submission_id (submissions st)) (user_id upd) tid photo
                    SubPending (now upd) None None None (get_user_ip upd)].
Proof.
  intros Hd Hna [t Ht]. unfold handle_screenshot. by rewrite Hd, Hna, Ht.
Qed.

Lemma handle_screenshot_completed upd photo st tid :
  pending_submission (get_user_data st (user_id upd)) = Some tid →
  existsb (approved_for (user_id upd) tid) (submissions st) = true →
  (handle_screenshot upd photo st).2 = AlreadyCompleted ∧
  submissions (handle_screenshot upd photo st).1 = submissions st ∧
  users (handle_screenshot upd photo st).1 = users st ∧
  transactions (handle_screenshot upd photo st).1 = transactions st.
Proof. intros Hd Hap. unfold handle_screenshot. by rewrite Hd, Hap. Qed.

Lemma next_rowid_update_where {A} (rowid : A → Z) q g rows :
  (∀ r, rowid (g r) = rowid r) →
  next_rowid rowid (update_where q g rows) = next_rowid rowid rows.
Proof.
  intros Hg. unfold next_rowid. f_equal.
  induction rows as [|x l IH]; simpl; [done|].
  rewrite IH. destruct (q x); [by rewrite Hg|done].
Qed.

Section Reviews.
Variable ADMIN_IDS : list Z.
Variable parse_float : string → option float.

(** X16.  In a state whose withdrawals have distinct keys, approving a
    pending withdrawal as an operator answers "approved", marks the row
    [completed] and touches neither a user row nor the log; a later
    reject or approve of it answers "Withdrawal not found or already
    processed" and returns the same state: nothing is refunded. *)
Theorem approved_withdrawal_is_final st upd upd2 w txn_id txn_id2 reason :
  NoDup (withdrawal_id <$> withdrawals st) →
  is_admin ADMIN_IDS upd = true → is_admin ADMIN_IDS upd2 = true →
  w ∈ withdrawals st → wd_status w = WdPending →
  let wid := withdrawal_id w in
  let st1 := (admin_approve_withdrawal ADMIN_IDS upd wid txn_id st).1 in
  (admin_approve_withdrawal ADMIN_IDS upd wid txn_id st).2 = WithdrawalApproved wid ∧
  set_completed (now upd) txn_id w ∈ withdrawals st1 ∧
  (∀ r, r ∈ withdrawals st1 → withdrawal_id r = wid → wd_status r = WdCompleted) ∧
  users st1 = users st ∧ transactions st1 = transactions st ∧
  admin_reject_withdrawal ADMIN_IDS upd2 wid reason st1
    = (st1, WithdrawalNotFoundOrProcessed) ∧
  admin_approve_withdrawal ADMIN_IDS upd2 wid txn_id2 st1
    = (st1, WithdrawalNotFoundOrProcessed).
Proof.
  intros Hnd Ha Ha2 Hin Hst.
  pose proof (pending_withdrawal_found st w Hnd Hin Hst) as Hfind.
  destruct (update_where_key withdrawal_id (set_completed (now upd) txn_id)
              _ w Hnd Hin) as (l1 & l2 & Hl & Hl').
  cbn zeta.
  destruct (admin_approve_withdrawal ADMIN_IDS upd (withdrawal_id w) txn_id st)
    as [st1 r1] eqn:E.
  unfold admin_approve_withdrawal in E. rewrite Ha, Hfind in E.
  cbn [negb] in E. injection E as <- <-. cbn [fst snd].
  split; [done|]. simpl. split.
  { rewrite Hl'. apply elem_of_app. right. left. }
  split.
  { intros r (r0 & -> & Hr0)%list_elem_of_fmap.
    destruct (withdrawal_id r0 =? withdrawal_id w) eqn:E; simpl; [done|].
    intros Heq. apply Z.eqb_neq in E. done. }
  split; [done|]. split; [done|].
  unfold admin_reject_withdrawal, admin_approve_withdrawal. opened. rewrite Ha2. simpl.
  rewrite (find_update_where_None (λ x, withdrawal_id x =? withdrawal_id w) wd_is_pending);
    done.
Qed.

(** X17.  In a reachable state, rejecting a pending submission as an
    operator answers "rejected", marks the row, takes one off the
    submitter's [pending_tasks] and nothing else, and logs nothing; a
    later approve or reject of it answers "Submission not found or
    already processed" and returns the same state. *)
Theorem rejected_submission_pays_nothing st upd upd2 s reason reason2 :
  reachable ADMIN_IDS parse_float st →
  is_admin ADMIN_IDS upd = true → is_admin ADMIN_IDS upd2 = true →
  s ∈ submissions st → sub_status s = SubPending →
  ∃ u,
    users st !! sub_user_id s = Some u ∧
    let sid := submission_id s in
    let st1 := (admin_reject_submission ADMIN_IDS upd sid reason st).1 in
    (admin_reject_submission ADMIN_IDS upd sid reason st).2 = SubmissionRejected sid ∧
    set_reviewed SubRejected (now upd) (user_id upd) (Some reason) s ∈ submissions st1 ∧
    (∀ r, r ∈ submissions st1 → submission_id r = sid → sub_status r = SubRejected) ∧
    users st1 = <[sub_user_id s := set_pending_tasks (pending_tasks u - 1) u]> (users st) ∧
    transactions st1 = transactions st ∧
    admin_approve_submission ADMIN_IDS upd2 sid st1 = (st1, SubmissionNotFoundOrProcessed) ∧
    admin_reject_submission ADMIN_IDS upd2 sid reason2 st1
      = (st1, SubmissionNotFoundOrProcessed).
Proof.
  intros Hr Ha Ha2 Hin Hst.
  pose proof (reachable_consistent _ _ _ Hr) as Hc.
  assert (is_pending s = true) as Hp by (unfold is_pending; by rewrite Hst).
  destruct (submission_refs st Hc s Hin) as [[u Hu] _].
  exists u. split; [done|].
  pose proof (find_by_key submission_id is_pending _ s (submission_ids_unique st Hc) Hin Hp)
    as Hfind.
  destruct (update_where_key submission_id
              (set_reviewed SubRejected (now upd) (user_id upd) (Some reason))
              _ s (submission_ids_unique st Hc) Hin) as (l1 & l2 & Hl & Hl').
  cbn zeta.
  destruct (admin_reject_submission ADMIN_IDS upd (submission_id s) reason st)
    as [st1 r1] eqn:E.
  unfold admin_reject_submission in E. rewrite Ha, Hfind, Hu in E.
  cbn [negb] in E. injection E as <- <-. cbn [fst snd].
  split; [done|]. simpl. split.
  { rewrite Hl'. apply elem_of_app. right. left. }
  split.
  { intros r (r0 & -> & Hr0)%list_elem_of_fmap.
    destruct (submission_id r0 =? submission_id s) eqn:E; simpl; [done|].
    intros Heq. apply Z.eqb_neq in E. done. }
  split.
  { by rewrite (alter_existing _ _ _ u Hu). }
  split; [done|].
  unfold admin_approve_submission, admin_reject_submission. rewrite Ha2. simpl.
  rewrite (find_update_where_None (λ x, submission_id x =? submission_id s) is_pending); done.
Qed.

(** X18.  Removing a task deactivates it and nothing else: in a reachable
    state with a pending submission for the task, after [/removetask]
    [submit_task] for that task is refused by everyone with the state
    unchanged, while the pending submission is as it was: an operator
    can still reject it, and its approval raises as it does for an
    active task. *)
Theorem removed_task_keeps_pending_rows st adm adm2 s reason :
  reachable ADMIN_IDS parse_float st →
  is_admin ADMIN_IDS adm = true → is_admin ADMIN_IDS adm2 = true →
  s ∈ submissions st → sub_status s = SubPending →
  let tid := sub_task_id s in
  let st1 := (admin_remove_task ADMIN_IDS adm (Some tid) st).1 in
  (admin_remove_task ADMIN_IDS adm (Some tid) st).2 = TaskDeactivated tid ∧
  existsb (λ t, (task_id t =? tid) && is_active t) (tasks st1) = false ∧
  (∀ upd, ∃ r, submit_task upd tid st1 = (st1, r) ∧
               (r = NotVerified ∨ r = TaskNotFoundOrInactive)) ∧
  submissions st1 = submissions st ∧ users st1 = users st ∧
  admin_approve_submission ADMIN_IDS adm2 (submission_id s) st1 = (st1, Raised) ∧
  (admin_reject_submission ADMIN_IDS adm2 (submission_id s) reason st1).2
    = SubmissionRejected (submission_id s).
Proof.
  intros Hr Ha Ha2 Hin Hst.
  pose proof (reachable_consistent _ _ _ Hr) as Hc.
  destruct (submission_refs st Hc s Hin) as [[u Hu] Hk].
  pose proof Hk as [t Ht]%task_known_find.
  pose proof (pending_submission_found st s Hc Hin Hst) as Hfind.
  cbn zeta. unfold admin_remove_task. rewrite Ha. unfold task_known in Hk. rewrite Hk.
  cbn [negb fst snd].
  assert (existsb (λ t0, (task_id t0 =? sub_task_id s) && is_active t0)
            (update_where (λ t0, task_id t0 =? sub_task_id s) deactivate (tasks st))
          = false) as Hoff by (by apply existsb_update_where_none).
  split; [done|]. split; [exact Hoff|]. split.
  { intros upd. unfold submit_task. cbn [users tasks set_tasks].
    destruct (users st !! user_id upd) as [x|]; [|eauto].
    destruct (negb (is_verified x) || is_blocked x); [eauto|].
    rewrite Hoff. simpl. eauto. }
  split; [done|]. split; [done|]. split.
  - unfold admin_approve_submission. locked.
    rewrite Ha2. cbn [negb submissions users tasks set_tasks].
    rewrite Hfind, (find_update_where_same (λ t0, task_id t0 =? sub_task_id s)) by done.
    by rewrite Ht, Hu.
  - unfold admin_reject_submission.
    rewrite Ha2. cbn [negb submissions users tasks set_tasks].
    by rewrite Hfind, Hu.
Qed.

(** X19.  In a reachable state, for a verified user with a pending
    submission for an active task: after its rejection the user can
    submit again ([submit_task] asks for the screenshot and the
    screenshot adds a pending row with the next key); after an approval,
    which raises and leaves the row pending, [submit_task] answers "You
    already have a pending submission for this task" and the state is
    still the same. *)
Theorem resubmission_after_review st adm upd s u reason photo :
  reachable ADMIN_IDS parse_float st → is_admin ADMIN_IDS adm = true →
  s ∈ submissions st → sub_status s = SubPending →
  user_id upd = sub_user_id s →
  users st !! user_id upd = Some u → is_verified u = true →
  existsb (λ t, (task_id t =? sub_task_id s) && is_active t) (tasks st) = true →
  let tid := sub_task_id s in
  let sid := submission_id s in
  (let st1 := (admin_reject_submission ADMIN_IDS adm sid reason st).1 in
   let st2 := (submit_task upd tid st1).1 in
   let st3 := (handle_screenshot upd photo st2).1 in
   (submit_task upd tid st1).2 = AskScreenshot tid ∧
   (handle_screenshot upd photo st2).2
     = TaskSubmitted (next_rowid submission_id (submissions st)) ∧
   submissions st3 =
     submissions st1 ++
       [mkSubmission (next_rowid submission_id (submissions st)) (user_id upd) tid photo
                     SubPending (now upd) None None None (get_user_ip upd)]) ∧
  (let st1 := (admin_approve_submission ADMIN_IDS adm sid st).1 in
   admin_approve_submission ADMIN_IDS adm sid st = (st, Raised) ∧
   submit_task upd tid st1 = (st, PendingSubmissionExists)).
Proof.
  intros Hr Ha Hin Hst Huid Hu Hv Hact.
  pose proof (reachable_sound _ _ _ Hr) as (Hc & Hacc & Hp).
  assert (is_pending s = true) as Hpend by (unfold is_pending; by rewrite Hst).
  destruct (submission_refs st Hc s Hin) as [_ Hk].
  pose proof Hk as [t Ht]%task_known_find.
  pose proof (never_blocked st Hacc _ _ Hu) as Hnb.
  pose proof (pending_submission_found st s Hc Hin Hst) as Hfind.
  destruct (pending_is_alone st s Hc Hp Hin Hpend) as [Hone Hzero].
  rewrite <- Huid in Hone, Hzero.
  assert (pending_for (user_id upd) (sub_task_id s) s = true) as Hps.
  { unfold pending_for. by rewrite Huid, !Z.eqb_refl, Hpend. }
  assert (approved_for (user_id upd) (sub_task_id s) s = false) as Has.
  { unfold approved_for, is_approved. rewrite Hst. by rewrite andb_false_r. }
  cbn zeta. split.
  - pose proof (count_where_update_key submission_id
      (pending_for (user_id upd) (sub_task_id s))
      (set_reviewed SubRejected (now adm) (user_id adm) (Some reason))
      (submissions st) s (submission_ids_unique st Hc) Hin) as Hk1.
    pose proof (count_where_update_key submission_id
      (approved_for (user_id upd) (sub_task_id s))
      (set_reviewed SubRejected (now adm) (user_id adm) (Some reason))
      (submissions st) s (submission_ids_unique st Hc) Hin) as Hk2.
    assert (pending_for (user_id upd) (sub_task_id s)
              (set_reviewed SubRejected (now adm) (user_id adm) (Some reason) s) = false)
      as Hps'.
    { unfold pending_for. simpl. apply andb_false_r. }
    assert (approved_for (user_id upd) (sub_task_id s)
              (set_reviewed SubRejected (now adm) (user_id adm) (Some reason) s) = false)
      as Has'.
    { unfold approved_for. simpl. apply andb_false_r. }
    rewrite Hps, Hps' in Hk1. rewrite Has, Has' in Hk2.
    destruct (admin_reject_submission ADMIN_IDS adm (submission_id s) reason st)
      as [st1 r1] eqn:E.
    unfold admin_reject_submission in E. rewrite Ha, Hfind in E. cbn [negb] in E.
    rewrite <- Huid, Hu in E. injection E as <- _. cbn [fst].
    erewrite submit_task_accepts; cycle 1.
    { simpl. rewrite lookup_alter_eq, Hu. reflexivity. }
    { done. } { done. } { done. }
    { simpl. apply count_where_zero. lia. }
    cbn [fst snd]. split; [done|].
    edestruct (handle_screenshot_inserts upd photo) as [-> ->].
    { rewrite get_set_user_data. reflexivity. }
    { simpl. apply count_where_zero. lia. }
    { simpl. rewrite Ht. eauto. }
    simpl. by rewrite next_rowid_update_where.
  - rewrite admin_approve_submission_state. split.
    + unfold admin_approve_submission. locked. rewrite Ha, Hfind, Ht.
      by rewrite <- Huid, Hu.
    + unfold submit_task. rewrite Hu, Hv, Hnb, Hact. simpl.
      assert (existsb (pending_for (user_id upd) (sub_task_id s)) (submissions st) = true)
        as -> by (apply existsb_elem; eauto).
      done.
Qed.
End Reviews.

Section Conversation.
Variable ADMIN_IDS : list Z.
Variable parse_float : string → option float.

(** X20.  [/start] inserts a user row once: a second [/start] of the same
    user returns the same state (names sent later are not stored), a
    known user is left as is, and no other user's row is touched. *)
Theorem start_registers_once upd upd2 st :
  user_id upd2 = user_id upd →
  start upd2 (start upd st).1 = ((start upd st).1, Welcome) ∧
  (is_Some (users st !! user_id upd) → start upd st = (st, Welcome)) ∧
  ∀ uid, uid ≠ user_id upd → users (start upd st).1 !! uid = users st !! uid.
Proof.
  intros Huid. unfold start. rewrite Huid.
  destruct (users st !! user_id upd) as [u|] eqn:Hu; simpl.
  - rewrite Hu. split; [done|]. split; done.
  - rewrite lookup_insert_eq. split; [done|]. split; [by intros [? ?]|].
    intros uid Hne. by rewrite lookup_insert_ne.
Qed.

(** X21.  The buttons "Add Task" and "Add Channel" set [admin_action]
    without a check of the sender, and [handle_message] looks at that key
    first: after a sender outside [ADMIN_IDS] pressed one, every text
    message of that sender is dropped without an answer and without a
    change of state, a withdrawal in progress included. *)
Theorem outsider_admin_action_swallows_messages upd ev text st :
  is_admin ADMIN_IDS upd = false →
  ev = AddTaskButton ∨ ev = AddChannelButton →
  let st1 := (handle ADMIN_IDS parse_float upd ev st).1 in
  handle ADMIN_IDS parse_float upd (Message text) st1 = (st1, NoReply) ∧
  ∀ texts, run ADMIN_IDS parse_float ((λ t, (upd, Message t)) <$> texts) st1 = st1.
Proof.
  intros Hna Hev. cbn zeta.
  assert (∀ t, handle ADMIN_IDS parse_float upd (Message t)
                 (handle ADMIN_IDS parse_float upd ev st).1
               = ((handle ADMIN_IDS parse_float upd ev st).1, NoReply)) as Hmsg.
  { intros t. destruct Hev as [-> | ->]; simpl;
      unfold handle_message, admin_add_task, admin_add_channel; simpl;
      rewrite get_set_user_data; simpl;
      unfold admin_handle_task_add, admin_handle_channel_add;
      rewrite get_set_user_data; simpl; by rewrite Hna. }
  split; [apply Hmsg|].
  induction texts as [|t texts IH]; simpl; [done|].
  unfold step. cbn [fst snd]. rewrite Hmsg. exact IH.
Qed.
End Conversation.

(** * The statistics screens *)

Section Statistics.
Variable ADMIN_IDS : list Z.
Variable parse_float : string → option float.

(** X24.  The figures of [admin_system_stats] in a reachable state:
    "Blocked" is 0, "Pending Submissions" is the sum of the users'
    [pending_tasks] and "Approved Submissions" the sum of their
    [completed_tasks]. *)
Theorem system_stats_agree_with_counters st :
  reachable ADMIN_IDS parse_float st →
  blocked_users st = 0 ∧
  sum_users pending_tasks (users st) = Z.of_nat (pending_subs st) ∧
  sum_users completed_tasks (users st) = Z.of_nat (approved_subs st).
Proof.
  intros Hr. pose proof (reachable_sound _ _ _ Hr) as (_ & Ha & Hp).
  split; [|split; [by apply pending_total|]].
  - apply sum_users_zero. intros k u Hu. by rewrite (never_blocked st Ha k u Hu).
  - unfold approved_subs. rewrite count_where_none by apply Hp.
    apply sum_users_zero. intros k u Hu. by destruct (money_zero st Hp k u Hu) as (_&_&_&?).
Qed.
End Statistics.

(** * Command texts *)

(** *** Texts *)

Lemma split_on_cons sep s : ∃ w ws, split_on sep s = w :: ws.
Proof.
  induction s as [|c s (w & ws & IH)]; simpl; [eauto|].
  destruct (Ascii.eqb c sep); [eauto|]. rewrite IH. eauto.
Qed.

Lemma split_on_app sep a b :
  contains_char sep a = false →
  ∃ w ws, split_on sep b = w :: ws ∧ split_on sep (a +:+ b) = (a +:+ w) :: ws.
Proof.
  induction a as [|c a IH]; simpl.
  - intros _. destruct (split_on_cons sep b) as (w & ws & Hb). by exists w, ws.
  - rewrite Ascii.eqb_sym. destruct (Ascii.eqb c sep) eqn:E; simpl; [done|].
    intros Ha. destruct (IH Ha) as (w & ws & Hb & ->). by exists w, ws.
Qed.

Lemma contains_char_app c a b :
  contains_char c (a +:+ b) = contains_char c a || contains_char c b.
Proof. induction a as [|d a IH]; simpl; [done|]. by rewrite IH, orb_assoc. Qed.

Lemma all_chars_contains p c s :
  all_chars p s = true → p c = false → contains_char c s = false.
Proof.
  intros Hs Hc. induction s as [|d s IH]; simpl in *; [done|].
  apply andb_prop in Hs as [Hd Hs]. rewrite (IH Hs), orb_false_r.
  apply Ascii.eqb_neq. intros ->. congruence.
Qed.

Lemma after_first_app sep a b :
  contains_char sep a = false → after_first sep (a +:+ String sep b) = Some b.
Proof.
  induction a as [|c a IH]; simpl.
  - by rewrite Ascii.eqb_refl.
  - rewrite Ascii.eqb_sym. destruct (Ascii.eqb c sep); simpl; [done|]. apply IH.
Qed.

Lemma take_word_app a c b :
  all_chars (λ x, negb (is_space x)) a = true → is_space c = true →
  take_word (a +:+ String c b) = a.
Proof.
  intros Ha Hc. induction a as [|d a IH]; simpl in *.
  - by rewrite Hc.
  - apply andb_prop in Ha as [Hd Ha]. apply negb_true_iff in Hd. rewrite Hd.
    by rewrite IH.
Qed.

Lemma take_word_all a :
  all_chars (λ x, negb (is_space x)) a = true → take_word a = a.
Proof.
  induction a as [|d a IH]; simpl; [done|].
  intros [Hd Ha]%andb_prop. apply negb_true_iff in Hd. by rewrite Hd, IH.
Qed.

Lemma rstrip_all a :
  all_chars (λ x, negb (is_space x)) a = true → rstrip a = a.
Proof.
  induction a as [|d a IH]; simpl; [done|].
  intros [Hd Ha]%andb_prop. apply negb_true_iff in Hd. rewrite Hd, (IH Ha).
  by destruct a.
Qed.

Lemma lstrip_all a :
  all_chars (λ x, negb (is_space x)) a = true → lstrip a = a.
Proof.
  destruct a as [|d a]; simpl; [done|].
  intros [Hd Ha]%andb_prop. apply negb_true_iff in Hd. by rewrite Hd.
Qed.

Lemma all_chars_impl (p q : ascii → bool) s :
  (∀ c, p c = true → q c = true) → all_chars p s = true → all_chars q s = true.
Proof.
  intros Hpq. induction s as [|c s IH]; simpl; [done|].
  intros [Hc Hs]%andb_prop. by rewrite (Hpq c Hc), IH.
Qed.

Lemma all_chars_app p a b :
  all_chars p (a +:+ b) = all_chars p a && all_chars p b.
Proof. induction a as [|c a IH]; simpl; [done|]. by rewrite IH, andb_assoc. Qed.

Lemma string_app_assoc (a b c : string) : (a +:+ b) +:+ c = a +:+ (b +:+ c).
Proof.
  induction a as [|x a IH]; [done|].
  change (String x ((a +:+ b) +:+ c) = String x (a +:+ (b +:+ c))). by f_equal.
Qed.

(** *** The decimal text of a key *)

Lemma digit_of_pretty_N_char x :
  (x < 10)%N → digit_of (pretty_N_char x) = Some (Z.of_N x).
Proof.
  intros Hx.
  assert (x = 0 ∨ x = 1 ∨ x = 2 ∨ x = 3 ∨ x = 4 ∨ x = 5 ∨ x = 6 ∨ x = 7 ∨ x = 8 ∨ x = 9)%N
    as Hc by lia.
  repeat (destruct Hc as [->|Hc]; [reflexivity|]). by subst.
Qed.

Lemma pretty_N_go_digits x s :
  all_chars is_digit (pretty_N_go x s) = all_chars is_digit s.
Proof.
  revert s. induction (N.lt_wf_0 x) as [x _ IH]; intros s.
  assert (x = 0 ∨ 0 < x)%N as [->|Hx] by lia; [by rewrite pretty_N_go_0|].
  rewrite pretty_N_go_step by done. rewrite IH by (by apply N.div_lt). simpl.
  unfold is_digit at 1.
  rewrite (digit_of_pretty_N_char (x `mod` 10)) by (by apply N.mod_lt).
  by rewrite bool_decide_eq_true_2.
Qed.


Lemma int_digits_pretty_N_go x s acc flag :
  (0 < x)%N →
  ∃ k, int_digits acc flag (pretty_N_go x s)
       = int_digits (acc * 10 ^ k + Z.of_N x) true s ∧ 0 ≤ k.
Proof.
  revert s acc flag. induction (N.lt_wf_0 x) as [x _ IH]; intros s acc flag Hx.
  rewrite pretty_N_go_step by done.
  pose proof (N.mod_lt x 10) as Hm.
  pose proof (N.div_mod x 10) as Hdm.
  assert (x `div` 10 = 0 ∨ 0 < x `div` 10)%N as [H0|Hpos] by lia.
  - rewrite H0, pretty_N_go_0. simpl.
    assert (Ascii.eqb (pretty_N_char (x `mod` 10)) "_" = false) as ->.
    { apply Ascii.eqb_neq. unfold pretty_N_char. by repeat case_match. }
    rewrite digit_of_pretty_N_char by lia. exists 1. split; [|lia]. f_equal. lia.
  - destruct (IH (x `div` 10)%N (N.div_lt x 10 Hx eq_refl)
                (String (pretty_N_char (x `mod` 10)) s) acc flag Hpos)
      as (k & -> & Hk).
    simpl.
    assert (Ascii.eqb (pretty_N_char (x `mod` 10)) "_" = false) as ->.
    { apply Ascii.eqb_neq. unfold pretty_N_char. by repeat case_match. }
    rewrite digit_of_pretty_N_char by lia. exists (k + 1). split; [|lia]. f_equal.
    rewrite Z.pow_add_r by lia. lia.
Qed.

Lemma is_digit_range c :
  is_digit c = true → (48 ≤ nat_of_ascii c ≤ 57)%nat.
Proof.
  unfold is_digit, digit_of. generalize (nat_of_ascii c). intros n.
  intros [d Hd]%bool_decide_eq_true.
  destruct ((48 <=? n)%nat && (n <=? 57)%nat) eqn:E; [|done].
  apply andb_prop in E as [?%Nat.leb_le ?%Nat.leb_le]. lia.
Qed.

Lemma is_digit_not_space c : is_digit c = true → negb (is_space c) = true.
Proof.
  intros Hc%is_digit_range. unfold is_space. revert Hc.
  generalize (nat_of_ascii c). intros n Hn.
  assert ((n <=? 13)%nat = false) as -> by (apply Nat.leb_gt; lia).
  assert ((n =? 32)%nat = false) as -> by (apply Nat.eqb_neq; lia).
  assert ((n <=? 31)%nat = false) as -> by (apply Nat.leb_gt; lia).
  by rewrite !andb_false_r.
Qed.

Lemma python_int_digits s :
  s ≠ "" → all_chars is_digit s = true → python_int s = int_digits 0 false s.
Proof.
  intros Hne Hs. unfold python_int, strip.
  pose proof (all_chars_impl _ _ s is_digit_not_space Hs) as Hsp.
  rewrite (lstrip_all s Hsp), (rstrip_all s Hsp).
  destruct s as [|c s]; [done|]. simpl in Hs. apply andb_prop in Hs as [Hc%is_digit_range _].
  destruct c as [[] [] [] [] [] [] [] []]; try reflexivity; vm_compute in Hc; lia.
Qed.

(** The decimal text of a key is read back by [int]. *)
Lemma pretty_key z :
  0 ≤ z →
  pretty z ≠ "" ∧ all_chars is_digit (pretty z) = true ∧ python_int (pretty z) = Some z.
Proof.
  intros Hz. destruct z as [|p|p]; [by repeat split| |lia].
  unfold pretty, pretty_Z, pretty, pretty_positive, pretty, pretty_N.
  rewrite decide_False by done.
  assert (all_chars is_digit (pretty_N_go (N.pos p) "") = true) as Hd
    by (by rewrite pretty_N_go_digits).
  destruct (int_digits_pretty_N_go (N.pos p) "" 0 false) as (k & Hk & _); [lia|].
  assert (pretty_N_go (N.pos p) "" ≠ "") as Hne.
  { intros Heq. rewrite Heq in Hk. simpl in Hk. done. }
  split; [done|]. split; [done|].
  rewrite python_int_digits by done. rewrite Hk. simpl; f_equal; lia.
Qed.

Lemma first_word_key w rest :
  w ≠ "" → all_chars is_digit w = true →
  first_word w = Some w ∧ first_word (w +:+ String " " rest) = Some w.
Proof.
  intros Hne Hw. pose proof (all_chars_impl _ _ w is_digit_not_space Hw) as Hsp.
  unfold first_word. split.
  - rewrite (lstrip_all w Hsp). destruct w; [done|]. by rewrite take_word_all.
  - destruct w as [|c w]; [done|].
    change (String c w +:+ String " " rest) with (String c (w +:+ String " " rest)).
    simpl in Hsp. apply andb_prop in Hsp as [Hc Hsp]. apply negb_true_iff in Hc.
    assert (lstrip (String c (w +:+ String " " rest)) = String c (w +:+ String " " rest))
      as -> by (simpl; by rewrite Hc).
    f_equal. change (take_word (String c (w +:+ String " " rest)))
      with (if is_space c then EmptyString else String c (take_word (w +:+ String " " rest))).
    rewrite Hc. f_equal. by apply take_word_app.
Qed.

(** X25.  The commands the bot suggests in its notices are read back:
    for a key [sid], the texts ["/approve_sid"] and ["/submit_sid"] give
    [sid], ["/reject_sid"] gives [sid] with the reason computed from
    [context.args], and ["/reject_sid reason"] gives [sid] and the reason
    as typed, underscores included. *)
Theorem review_commands_round_trip fallback sid reason :
  0 ≤ sid →
  approve_submission_id ("/approve_" +:+ pretty sid) = Some sid ∧
  approve_submission_id ("/submit_" +:+ pretty sid) = Some sid ∧
  reject_submission_args fallback ("/reject_" +:+ pretty sid) = Some (sid, fallback) ∧
  reject_submission_args fallback ("/reject_" +:+ pretty sid +:+ " " +:+ reason)
    = Some (sid, reason).
Proof.
  intros Hz. destruct (pretty_key sid Hz) as (Hne & Hd & Hint).
  destruct (first_word_key (pretty sid) reason Hne Hd) as [Hw1 Hw2].
  assert (contains_char "_" (pretty sid) = false) as Hus.
  { eapply all_chars_contains; [exact Hd|].
    destruct (is_digit "_") eqn:E; [|done]. apply is_digit_range in E. vm_compute in E. lia. }
  assert (contains_char " " (pretty sid) = false) as Hsp.
  { eapply all_chars_contains; [exact Hd|].
    destruct (is_digit " ") eqn:E; [|done]. apply is_digit_range in E. vm_compute in E. lia. }
  assert (split_on "_" (pretty sid) = [pretty sid]) as Hsplit.
  { destruct (split_on_app "_" (pretty sid) "" Hus) as (w & ws & Hb & Hs).
    simpl in Hb. injection Hb as <- <-.
    assert (pretty sid +:+ "" = pretty sid) as Hnil.
    { clear. induction (pretty sid) as [|c s IH]; [done|].
      change (String c (s +:+ "") = String c s). by f_equal. }
    by rewrite Hnil in Hs. }
  split; [|split; [|split]].
  - unfold approve_submission_id.
    change ("/approve_" +:+ pretty sid) with ("/approve" +:+ String "_" (pretty sid)).
    destruct (split_on_app "_" "/approve" (String "_" (pretty sid)) eq_refl)
      as (w & ws & Hb & ->).
    simpl in Hb. rewrite Hsplit in Hb. injection Hb as <- <-. simpl. exact Hint.
  - unfold approve_submission_id.
    change ("/submit_" +:+ pretty sid) with ("/submit" +:+ String "_" (pretty sid)).
    destruct (split_on_app "_" "/submit" (String "_" (pretty sid)) eq_refl)
      as (w & ws & Hb & ->).
    simpl in Hb. rewrite Hsplit in Hb. injection Hb as <- <-. simpl. exact Hint.
  - change ("/reject_" +:+ pretty sid) with ("/reject" +:+ String "_" (pretty sid)).
    assert (split_on "_" ("/reject" +:+ String "_" (pretty sid)) = ["/reject"; pretty sid])
      as Hparts.
    { destruct (split_on_app "_" "/reject" (String "_" (pretty sid)) eq_refl)
        as (w & ws & Hb & ->).
      simpl in Hb. rewrite Hsplit in Hb. by injection Hb as <- <-. }
    assert (contains_char " " ("/reject" +:+ String "_" (pretty sid)) = false) as Hno.
    { rewrite contains_char_app. simpl. by rewrite Hsp. }
    unfold reject_submission_args. rewrite Hparts, Hno. simpl.
    by rewrite Hw1, Hint.
  - change ("/reject_" +:+ pretty sid +:+ " " +:+ reason)
      with ("/reject" +:+ String "_" (pretty sid +:+ String " " reason)).
    assert (∃ w ws, split_on "_" ("/reject" +:+ String "_" (pretty sid +:+ String " " reason))
                    = "/reject" :: (pretty sid +:+ String " " w) :: ws)
      as (w & ws & Hparts).
    { destruct (split_on_app "_" "/reject"
                  (String "_" (pretty sid +:+ String " " reason)) eq_refl)
        as (w & ws & Hb & ->).
      simpl in Hb.
      destruct (split_on_app "_" (pretty sid) (String " " reason) Hus)
        as (w' & ws' & Hb' & Hs').
      rewrite Hs' in Hb. injection Hb as <- <-.
      simpl in Hb'. destruct (split_on "_" reason) as [|r rs] eqn:Er;
        injection Hb' as <- <-; eauto. }
    assert (contains_char " " ("/reject" +:+ String "_" (pretty sid +:+ String " " reason))
            = true) as Hhas.
    { rewrite contains_char_app. simpl. rewrite contains_char_app. simpl.
      by rewrite orb_true_r. }
    assert (after_first " " ("/reject" +:+ String "_" (pretty sid +:+ String " " reason))
            = Some reason) as Hafter.
    { change ("/reject" +:+ String "_" (pretty sid +:+ String " " reason))
        with ("/reject_" +:+ (pretty sid +:+ String " " reason)).
      rewrite <- string_app_assoc. apply after_first_app.
      rewrite contains_char_app, Hsp. done. }
    destruct (first_word_key (pretty sid) w Hne Hd) as [_ Hw3].
    unfold reject_submission_args. rewrite Hparts, Hhas, Hafter, orb_true_r. simpl.
    by rewrite Hw3, Hint.
Qed.





(** X27.  ["/approve_withdraw_wid"] and ["/reject_withdraw_wid"] give
    [wid] with the value computed from [context.args], and with a blank
    and a text after them [wid] and that text (transaction id or
    reason). *)
Theorem withdrawal_commands_round_trip fallback wid note :
  0 ≤ wid →
  approve_withdrawal_args fallback ("/approve_withdraw_" +:+ pretty wid)
    = Some (wid, fallback) ∧
  approve_withdrawal_args fallback ("/approve_withdraw_" +:+ pretty wid +:+ " " +:+ note)
    = Some (wid, note) ∧
  reject_withdrawal_args fallback ("/reject_withdraw_" +:+ pretty wid)
    = Some (wid, fallback) ∧
  reject_withdrawal_args fallback ("/reject_withdraw_" +:+ pretty wid +:+ " " +:+ note)
    = Some (wid, note).
Proof.
  intros Hz. destruct (pretty_key wid Hz) as (Hne & Hd & Hint).
  destruct (first_word_key (pretty wid) note Hne Hd) as [Hw1 Hw2].
  assert (contains_char "_" (pretty wid) = false) as Hus.
  { eapply all_chars_contains; [exact Hd|].
    destruct (is_digit "_") eqn:E; [|done]. apply is_digit_range in E. vm_compute in E. lia. }
  assert (contains_char " " (pretty wid) = false) as Hsp.
  { eapply all_chars_contains; [exact Hd|].
    destruct (is_digit " ") eqn:E; [|done]. apply is_digit_range in E. vm_compute in E. lia. }
  assert (split_on "_" (pretty wid) = [pretty wid]) as Hsplit.
  { destruct (split_on_app "_" (pretty wid) "" Hus) as (w & ws & Hb & Hs).
    simpl in Hb. injection Hb as <- <-.
    assert (pretty wid +:+ "" = pretty wid) as Hnil.
    { clear. induction (pretty wid) as [|c s IH]; [done|].
      change (String c (s +:+ "") = String c s). by f_equal. }
    by rewrite Hnil in Hs. }
  assert (∀ default verb, contains_char "_" verb = false → contains_char " " verb = false →
            withdrawal_command_args default fallback
              (verb +:+ String "_" ("withdraw" +:+ String "_" (pretty wid)))
              = Some (wid, fallback) ∧
            withdrawal_command_args default fallback
              (verb +:+ String "_" ("withdraw" +:+ String "_"
                 (pretty wid +:+ String " " note)))
              = Some (wid, note)) as Hgen.
  { intros default verb Hv1 Hv2. split.
    - assert (split_on "_" (verb +:+ String "_" ("withdraw" +:+ String "_" (pretty wid)))
              = [verb; "withdraw"; pretty wid]) as Hparts.
      { destruct (split_on_app "_" verb
                    (String "_" ("withdraw" +:+ String "_" (pretty wid))) Hv1)
          as (w & ws & Hb & ->).
        change ("withdraw" +:+ String "_" (pretty wid))
          with (String "w" (String "i" (String "t" (String "h" (String "d" (String "r"
                (String "a" (String "w" (String "_" (pretty wid)))))))))) in Hb.
        simpl in Hb. rewrite Hsplit in Hb. injection Hb as <- <-.
        f_equal. clear. induction verb as [|c v IH]; [done|].
        change (String c (v +:+ "") = String c v). by f_equal. }
      assert (contains_char " "
                (verb +:+ String "_" ("withdraw" +:+ String "_" (pretty wid))) = false)
        as Hno.
      { rewrite contains_char_app, Hv2. simpl. by rewrite Hsp. }
      unfold withdrawal_command_args. rewrite Hparts, Hno. simpl.
      by rewrite Hw1, Hint.
    - assert (∃ w ws,
                split_on "_" (verb +:+ String "_" ("withdraw" +:+ String "_"
                                (pretty wid +:+ String " " note)))
                = verb :: "withdraw" :: (pretty wid +:+ String " " w) :: ws)
        as (w & ws & Hparts).
      { destruct (split_on_app "_" verb
                    (String "_" ("withdraw" +:+ String "_"
                       (pretty wid +:+ String " " note))) Hv1)
          as (w & ws & Hb & ->).
        change ("withdraw" +:+ String "_" (pretty wid +:+ String " " note))
          with (String "w" (String "i" (String "t" (String "h" (String "d" (String "r"
                (String "a" (String "w" (String "_"
                  (pretty wid +:+ String " " note)))))))))) in Hb.
        simpl in Hb.
        destruct (split_on_app "_" (pretty wid) (String " " note) Hus)
          as (w' & ws' & Hb' & Hs').
        rewrite Hs' in Hb. injection Hb as <- <-.
        assert (verb +:+ "" = verb) as ->.
        { clear. induction verb as [|c v IH]; [done|].
          change (String c (v +:+ "") = String c v). by f_equal. }
        simpl in Hb'. destruct (split_on "_" note) as [|r rs] eqn:Er;
          injection Hb' as <- <-; eauto. }
      assert (contains_char " "
                (verb +:+ String "_" ("withdraw" +:+ String "_"
                   (pretty wid +:+ String " " note))) = true) as Hhas.
      { rewrite contains_char_app. simpl. rewrite contains_char_app. simpl.
        by rewrite !orb_true_r. }
      assert (after_first " "
                (verb +:+ String "_" ("withdraw" +:+ String "_"
                   (pretty wid +:+ String " " note))) = Some note) as Hafter.
      { change (verb +:+ String "_" ("withdraw" +:+ String "_"
                  (pretty wid +:+ String " " note)))
          with (verb +:+ ("_withdraw_" +:+ (pretty wid +:+ String " " note))).
        rewrite <- !string_app_assoc. apply after_first_app.
        rewrite !contains_char_app, Hv2, Hsp. done. }
      destruct (first_word_key (pretty wid) w Hne Hd) as [_ Hw3].
      unfold withdrawal_command_args. rewrite Hparts, Hhas, Hafter, orb_true_r. simpl.
      by rewrite Hw3, Hint. }
  destruct (Hgen "MANUAL" "/approve" eq_refl eq_refl) as [H1 H2].
  destruct (Hgen "No reason provided" "/reject" eq_refl eq_refl) as [H3 H4].
  split; [exact H1|]. split; [exact H2|]. split; [exact H3|exact H4].
Qed.

(** * Buttons *)

Section CallbackFacts.
Variable ADMIN_IDS : list Z.
Variable parse_float : string → option float.

(** A callback is one of seven updates of the model, or changes nothing. *)
Lemma handle_callback_routes upd data st :
  (handle_callback ADMIN_IDS upd data st).1 = st ∨
  ∃ ev, handle_callback ADMIN_IDS upd data st = handle ADMIN_IDS parse_float upd ev st ∧
        match ev with
        | RemoveChannel _ | WithdrawMethod _ | SubmitTask _ | VerifyIp
        | AddTaskButton | AddChannelButton | RemoveTask None => True
        | _ => False
        end.
Proof.
  unfold handle_callback.
  repeat case_match; try (by left).
  - right. by exists (RemoveChannel s).
  - right. by exists (WithdrawMethod s).
  - right. by exists (SubmitTask z).
  - right. by exists VerifyIp.
  - right. by exists AddTaskButton.
  - right. by exists (RemoveTask None).
  - right. by exists AddChannelButton.
Qed.

(** X28.  No button moves money: whatever [query.data] and whoever the
    sender, [handle_callback] leaves tasks, submissions, withdrawals and
    the log as they are and changes no balance. *)
Theorem callbacks_move_no_money upd data st :
  let st' := (handle_callback ADMIN_IDS upd data st).1 in
  tasks st' = tasks st ∧ submissions st' = submissions st ∧
  withdrawals st' = withdrawals st ∧ transactions st' = transactions st ∧
  ∀ uid, balance_of st' uid = balance_of st uid.
Proof.
  cbn zeta.
  destruct (handle_callback_routes upd data st) as [-> | (ev & -> & Hev)]; [done|].
  destruct ev as [| | | | | | | | |[]| | | | | |]; try done; simpl;
    unfold start, handle_verification, verify_user_ip, submit_task,
      handle_withdraw_method, admin_add_task, admin_add_channel,
      admin_handle_channel_remove, admin_remove_task;
    repeat case_match; simplify_eq; simpl; repeat split; try done.
  all: intros uid; unfold balance_of; simpl.
  all: destruct (decide (uid = user_id upd)) as [->|Hne];
       [rewrite lookup_alter_eq; by destruct (users st !! user_id upd)
       |by rewrite lookup_alter_ne].
Qed.

(** X29.  The removal button carries ["delchan_" + channel_id] and the
    handler takes [split('_')[1]]: for an id without underscore the
    channel is deleted (whoever presses), for an id with an underscore
    the part before it is deleted instead and the channel stays. *)
Theorem removal_button_cuts_at_underscore upd a b st :
  contains_char "_" a = false →
  (handle_callback ADMIN_IDS upd ("delchan_" +:+ a) st).1
    = set_channels (delete a (channels st)) st ∧
  (handle_callback ADMIN_IDS upd ("delchan_" +:+ a +:+ "_" +:+ b) st).1
    = set_channels (delete a (channels st)) st ∧
  channels (handle_callback ADMIN_IDS upd ("delchan_" +:+ a +:+ "_" +:+ b) st).1
    !! (a +:+ "_" +:+ b) = channels st !! (a +:+ "_" +:+ b).
Proof.
  intros Ha.
  assert (∀ rest, ∃ w ws,
            split_on "_" ("delchan_" +:+ a +:+ rest) = "delchan" :: (a +:+ w) :: ws ∧
            split_on "_" rest = w :: ws) as Hsplit.
  { intros rest.
    destruct (split_on_app "_" "delchan" (String "_" (a +:+ rest)) eq_refl)
      as (w & ws & Hb & Hs).
    simpl in Hb. destruct (split_on_app "_" a rest Ha) as (w' & ws' & Hb' & Hs').
    rewrite Hs' in Hb. injection Hb as <- <-. eauto. }
  assert (∀ rest, starts_with "delchan_" ("delchan_" +:+ rest) = true) as Hpre.
  { intros rest. by cbv. }
  assert (a +:+ "" = a) as Hnil.
  { clear. induction a as [|c s IH]; [done|].
    change (String c (s +:+ "") = String c s). by f_equal. }
  assert ((handle_callback ADMIN_IDS upd ("delchan_" +:+ a +:+ "_" +:+ b) st).1
          = set_channels (delete a (channels st)) st) as Hcut.
  { unfold handle_callback. rewrite Hpre.
    destruct (Hsplit ("_" +:+ b)) as (w & ws & -> & Hw). simpl in Hw.
    injection Hw as <- _. simpl. by rewrite Hnil. }
  split; [|split; [exact Hcut|]].
  - assert (split_on "_" ("delchan_" +:+ a) = ["delchan"; a]) as Hone.
    { destruct (split_on_app "_" "delchan" (String "_" a) eq_refl) as (w & ws & Hb & Hs).
      simpl in Hb. destruct (split_on_app "_" a "" Ha) as (w' & ws' & Hb' & Hs').
      simpl in Hb'. injection Hb' as <- <-. rewrite Hnil in Hs'.
      rewrite Hs' in Hb. by injection Hb as <- <-. }
    unfold handle_callback. by rewrite Hpre, Hone.
  - rewrite Hcut. simpl. apply lookup_delete_ne. intros Heq.
    assert (contains_char "_" (a +:+ "_" +:+ b) = true) as Hc.
    { rewrite contains_char_app. simpl. by rewrite orb_true_r. }
    rewrite <- Heq in Hc. congruence.
Qed.
End CallbackFacts.

(** * Channel membership *)

Section MembershipFacts.
Variable member_status : string → Z → option string.

Lemma missing_None uid row : missing member_status uid row = None ↔ confirmed member_status uid row.1.
Proof.
  unfold missing, confirmed. destruct (member_status _ _) as [status|]; split.
  - destruct (has_left status) eqn:E; [done|]. eauto.
  - intros (s & [= <-] & ->). done.
  - done.
  - intros (s & [=] & _).
Qed.

(** X30.  [check_channel_membership] answers [True] exactly when every
    required channel was confirmed by a status other than [left] and
    [kicked]; a channel whose check raises counts as not joined, and
    [not_joined] holds the names (or ids, when the name is empty) of
    exactly the channels not confirmed. *)
Theorem membership_needs_every_required_channel uid st :
  ((check_channel_membership member_status uid st).1 = true ↔
   ∀ channel_id ch, channels st !! channel_id = Some ch → is_required ch = true →
                    confirmed member_status uid channel_id) ∧
  ∀ name, name ∈ (check_channel_membership member_status uid st).2 ↔
          ∃ channel_id ch, channels st !! channel_id = Some ch ∧ is_required ch = true ∧
                           ¬ confirmed member_status uid channel_id ∧ name = shown_name channel_id ch.
Proof.
  unfold check_channel_membership. cbn [fst snd].
  set (rows := List.filter (λ row, is_required row.2) (map_to_list (channels st))).
  assert (∀ cid ch, (cid, ch) ∈ rows ↔ channels st !! cid = Some ch ∧ is_required ch = true)
    as Hrows.
  { intros cid ch. unfold rows. rewrite list_elem_of_In, filter_In, <- list_elem_of_In.
    by rewrite elem_of_map_to_list. }
  assert (∀ name, name ∈ omap (missing member_status uid) rows ↔
            ∃ cid ch, channels st !! cid = Some ch ∧ is_required ch = true ∧
                      ¬ confirmed member_status uid cid ∧ name = shown_name cid ch) as Hnames.
  { intros name. rewrite list_elem_of_omap. split.
    - intros ([cid ch] & [Hl Hr]%Hrows & Hm). exists cid, ch.
      split; [done|]. split; [done|]. split.
      + intros Hc. apply (missing_None uid (cid, ch)) in Hc. congruence.
      + unfold missing in Hm. simpl in Hm.
        destruct (member_status _ _) as [s|]; [destruct (has_left s)|]; congruence.
    - intros (cid & ch & Hl & Hr & Hn & ->). exists (cid, ch).
      split; [by apply Hrows|].
      destruct (missing member_status uid (cid, ch)) as [x|] eqn:Hm.
      + unfold missing in Hm. simpl in Hm.
        destruct (member_status _ _) as [s|]; [destruct (has_left s)|]; congruence.
      + by apply missing_None in Hm. }
  split; [|exact Hnames].
  rewrite bool_decide_eq_true, length_zero_iff_nil. split.
  - intros Hnil cid ch Hl Hr.
    destruct (missing member_status uid (cid, ch)) as [x|] eqn:Hm; [|by apply missing_None in Hm].
    assert (x ∈ omap (missing member_status uid) rows) as Hx.
    { apply list_elem_of_omap. exists (cid, ch). split; [by apply Hrows|done]. }
    rewrite Hnil in Hx. by apply elem_of_nil in Hx.
  - intros Hall. destruct (omap (missing member_status uid) rows) as [|x l] eqn:E; [done|].
    assert (x ∈ x :: l) as Hx by left.
    apply Hnames in Hx as (cid & ch & Hl & Hr & Hn & _). destruct Hn. by eapply Hall.
Qed.
End MembershipFacts.

(** X5.  As line 170 is written ([get_chat_member] is not awaited, so
    that reading [.status] raises for every channel),
    [check_channel_membership] answers [True] exactly when no channel is
    required, and [not_joined] holds the name (or the id, when the name
    is empty) of every required channel, whatever the user has joined. *)
Theorem unawaited_membership_check uid st :
  let result := check_channel_membership (λ _ _, None) uid st in
  (result.1 = true ↔
   ∀ channel_id ch, channels st !! channel_id = Some ch → is_required ch = false) ∧
  ∀ name, name ∈ result.2 ↔
          ∃ channel_id ch, channels st !! channel_id = Some ch ∧ is_required ch = true ∧
                           name = shown_name channel_id ch.
Proof.
  cbn zeta. unfold check_channel_membership. cbn [fst snd].
  set (rows := List.filter (λ row, is_required row.2) (map_to_list (channels st))).
  assert (∀ cid ch, (cid, ch) ∈ rows ↔ channels st !! cid = Some ch ∧ is_required ch = true)
    as Hrows.
  { intros cid ch. unfold rows. rewrite list_elem_of_In, filter_In, <- list_elem_of_In.
    by rewrite elem_of_map_to_list. }
  assert (∀ name, name ∈ omap (missing (λ _ _, None) uid) rows ↔
            ∃ cid ch, channels st !! cid = Some ch ∧ is_required ch = true ∧
                      name = shown_name cid ch) as Hnames.
  { intros name. rewrite list_elem_of_omap. split.
    - intros ([cid ch] & [Hl Hr]%Hrows & [= <-]). by exists cid, ch.
    - intros (cid & ch & Hl & Hr & ->). exists (cid, ch). split; [by apply Hrows|done]. }
  split; [|exact Hnames].
  rewrite bool_decide_eq_true, length_zero_iff_nil. split.
  - intros Hnil cid ch Hl. destruct (is_required ch) eqn:Hr; [|done].
    assert (shown_name cid ch ∈ omap (missing (λ _ _, None) uid) rows) as Hx
      by (apply Hnames; eauto).
    rewrite Hnil in Hx. by apply elem_of_nil in Hx.
  - intros Hall. destruct (omap (missing (λ _ _, None) uid) rows) as [|x l] eqn:E; [done|].
    assert (x ∈ x :: l) as Hx by left.
    apply Hnames in Hx as (cid & ch & Hl & Hr & _). rewrite (Hall _ _ Hl) in Hr. done.
Qed.

(** * The scenarios, evaluated *)

(** The operator's approval of Alice's submission: no answer, and the
    state as it was. *)
Example scenario_approve :
  let st := Scenario.go Scenario.submitted init in
  Scenario.call Scenario.operator (ApproveSubmission 1) st = (st, Raised) ∧
  Scenario.go Scenario.approval init = st ∧
  users st !! 1 = Some Walkthrough.alice_row_submitted ∧
  submissions st = [Scenario.alice_submission] ∧ transactions st = [].
Proof. vm_compute. repeat split; reflexivity. Qed.

(** [/addpoints 1 10 bonus] raises as well, so that the 10 Alice types
    next are refused. *)
Example scenario_funding :
  let st := Scenario.go Scenario.setup init in
  Scenario.call Scenario.operator (AddPoints 1 10 "bonus") st = (st, Raised) ∧
  (Scenario.call Scenario.alice (Message "10")
     (Scenario.go (Scenario.funding ++ [(Scenario.alice, WithdrawMethod "upi")]) init)).2
    = InsufficientBalance 0 ∧
  withdraw_amount (get_user_data (Scenario.go Scenario.ten_typed init) 1) = None.
Proof. vm_compute. repeat split; reflexivity. Qed.

(** [nan] passes both checks; the request raises, and the rejection
    finds no withdrawal. *)
Example scenario_nan :
  let st := Scenario.go Scenario.nan_typed init in
  float_of_text "nan" = Some nan ∧
  (nan <? MIN_WITHDRAWAL_UPI)%float = false ∧ (0 <? nan)%float = false ∧
  withdraw_amount (get_user_data st 1) = Some nan ∧
  awaiting_upi_details (get_user_data st 1) = true ∧
  (Scenario.call Scenario.alice (Message "alice@okhdfcbank") st).2 = Raised ∧
  withdrawals (Scenario.go Scenario.nan_requested init) = [] ∧
  (Scenario.call Scenario.operator (RejectWithdrawal 1 "wrong id")
     (Scenario.go Scenario.nan_requested init)).2 = WithdrawalNotFoundOrProcessed.
Proof. vm_compute. repeat split; reflexivity. Qed.

Example scenario_submit_twice :
  let st := Scenario.go Scenario.submitted init in
  Scenario.call Scenario.alice (SubmitTask 1) st = (st, PendingSubmissionExists).
Proof. vm_compute. reflexivity. Qed.


(** * The theorems at work on the scenarios *)

Lemma approval_raises_and_credits_nothing_witness :
  let st := run Scenario.admins float_of_text Scenario.submitted init in
  reachable Scenario.admins float_of_text st ∧
  is_admin Scenario.admins Scenario.operator = true ∧
  Scenario.alice_submission ∈ submissions st ∧
  sub_status Scenario.alice_submission = SubPending ∧
  admin_approve_submission Scenario.admins Scenario.operator 1 st = (st, Raised).
Proof.
  cbn zeta.
  assert (reachable Scenario.admins float_of_text
            (run Scenario.admins float_of_text Scenario.submitted init)) as Hr
    by (by exists Scenario.submitted).
  assert (is_admin Scenario.admins Scenario.operator = true) as Ha
    by (vm_compute; reflexivity).
  assert (Scenario.alice_submission
            ∈ submissions (run Scenario.admins float_of_text Scenario.submitted init))
    as Hin by (vm_compute; constructor).
  assert (sub_status Scenario.alice_submission = SubPending) as Hs by reflexivity.
  split; [exact Hr|]. split; [exact Ha|]. split; [exact Hin|]. split; [exact Hs|].
  exact (proj1 (approval_raises_and_credits_nothing Scenario.admins float_of_text _
                  Scenario.operator Scenario.operator Scenario.alice_submission
                  "late" "again" Hr Ha Ha Hin Hs)).
Defined.

Lemma request_raises_and_holds_nothing_witness :
  let st := run Scenario.admins float_of_text Scenario.nan_typed init in
  (awaiting_upi_details (get_user_data st 1) = true ∧
   contains_char "@" "alice@okhdfcbank" = true ∧
   (handle_withdraw_details Scenario.alice "alice@okhdfcbank" st).2 = Raised ∧
   withdrawals (handle_withdraw_details Scenario.alice "alice@okhdfcbank" st).1
     = withdrawals st) ∧
  (awaiting_upi_details (get_user_data Scenario.with_balance 1) = true ∧
   (handle_withdraw_details Scenario.alice "alice@okhdfcbank" Scenario.with_balance).2
     = Raised ∧
   users (handle_withdraw_details Scenario.alice "alice@okhdfcbank"
            Scenario.with_balance).1
     = users Scenario.with_balance).
Proof.
  cbn zeta.
  assert (awaiting_upi_details
            (get_user_data (run Scenario.admins float_of_text Scenario.nan_typed init)
               (user_id Scenario.alice)) = true) as Haw
    by (vm_compute; reflexivity).
  assert (awaiting_upi_details
            (get_user_data Scenario.with_balance (user_id Scenario.alice)) = true) as Haw2
    by (vm_compute; reflexivity).
  assert (contains_char "@" "alice@okhdfcbank" = true) as Hat by reflexivity.
  destruct (request_raises_and_holds_nothing Scenario.admins float_of_text
              Scenario.alice "alice@okhdfcbank" _ (or_introl Haw) (λ _, Hat))
    as (Hr & _ & Hw & _).
  destruct (request_raises_and_holds_nothing Scenario.admins float_of_text
              Scenario.alice "alice@okhdfcbank" _ (or_introl Haw2) (λ _, Hat))
    as (Hr2 & Hu2 & _).
  split.
  - split; [exact Haw|]. split; [exact Hat|]. split; [exact Hr|exact Hw].
  - split; [exact Haw2|]. split; [exact Hr2|exact Hu2].
Defined.

Lemma rejection_raises_and_refunds_nothing_witness :
  let st := Scenario.with_request in
  NoDup (withdrawal_id <$> withdrawals st) ∧
  is_admin Scenario.admins Scenario.operator = true ∧
  Scenario.alice_withdrawal ∈ withdrawals st ∧
  wd_status Scenario.alice_withdrawal = WdPending ∧
  is_Some (users st !! wd_user_id Scenario.alice_withdrawal) ∧
  admin_reject_withdrawal Scenario.admins Scenario.operator 1 "wrong id" st = (st, Raised).
Proof.
  cbn zeta.
  assert (NoDup (withdrawal_id <$> withdrawals Scenario.with_request)) as Hnd.
  { apply NoDup_singleton. }
  assert (is_admin Scenario.admins Scenario.operator = true) as Ha
    by (vm_compute; reflexivity).
  assert (Scenario.alice_withdrawal ∈ withdrawals Scenario.with_request) as Hin
    by (vm_compute; constructor).
  assert (wd_status Scenario.alice_withdrawal = WdPending) as Hs by reflexivity.
  assert (is_Some (users Scenario.with_request !! wd_user_id Scenario.alice_withdrawal))
    as Hu by (vm_compute; eauto).
  split; [exact Hnd|]. split; [exact Ha|]. split; [exact Hin|]. split; [exact Hs|].
  split; [exact Hu|].
  exact (proj1 (rejection_raises_and_refunds_nothing Scenario.admins float_of_text _
                  Scenario.operator Scenario.operator Scenario.alice_withdrawal
                  "wrong id" "again" Hnd Ha Ha Hin Hs Hu)).
Defined.

Lemma request_and_rejection_move_nothing_witness :
  let st := Scenario.with_balance in
  let st1 := (handle_withdraw_details Scenario.alice "alice@okhdfcbank" st).1 in
  let st2 := (admin_reject_withdrawal Scenario.admins Scenario.operator 1 "wrong id" st1).1 in
  awaiting_upi_details (get_user_data st 1) = true ∧
  contains_char "@" "alice@okhdfcbank" = true ∧
  users st !! 1 = Some (Scenario.alice_row 50 0 0) ∧
  users st2 = users st ∧ withdrawals st2 = withdrawals st.
Proof.
  cbn zeta.
  assert (awaiting_upi_details
            (get_user_data Scenario.with_balance (user_id Scenario.alice)) = true) as Haw
    by (vm_compute; reflexivity).
  assert (contains_char "@" "alice@okhdfcbank" = true) as Hat by reflexivity.
  assert (users Scenario.with_balance !! 1 = Some (Scenario.alice_row 50 0 0)) as Hu
    by (vm_compute; reflexivity).
  destruct (request_and_rejection_move_nothing Scenario.admins Scenario.alice
              Scenario.operator "alice@okhdfcbank" 1 "wrong id" _
              (or_introl Haw) (λ _, Hat))
    as (_ & _ & Hus & Hws & _).
  split; [exact Haw|]. split; [exact Hat|]. split; [exact Hu|].
  split; [exact Hus|exact Hws].
Defined.

Lemma address_first_writer_wins_witness :
  let st := Scenario.go Scenario.setup init in
  ip_addresses st !! "203.0.113.7"
    = Some (mkIpRow 1 "2024-05-01T10:00:00" "2024-05-01T10:00:00") ∧
  verify_user_ip (user_id Scenario.bob) (get_user_ip Scenario.bob) (now Scenario.bob) st
    = (st, false).
Proof.
  cbn zeta.
  assert (ip_addresses (Scenario.go Scenario.setup init) !! "203.0.113.7"
          = Some (mkIpRow 1 "2024-05-01T10:00:00" "2024-05-01T10:00:00")) as Hrow.
  { vm_compute. reflexivity. }
  split; [exact Hrow|].
  destruct (address_first_writer_wins Scenario.admins float_of_text
              (user_id Scenario.bob) (get_user_ip Scenario.bob) (now Scenario.bob)
              (Scenario.go Scenario.setup init)) as (Hconflict & _).
  apply (Hconflict _ Hrow). simpl. lia.
Defined.

Lemma one_pending_per_user_and_task_witness :
  let st := Scenario.go Scenario.submitted init in
  reachable Scenario.admins float_of_text st ∧
  existsb (pending_for 1 1) (submissions st) = true ∧
  (submit_task Scenario.alice 1 st).1 = st ∧
  (count_where (pending_for 1 1) (submissions st) ≤ 1)%nat.
Proof.
  cbn zeta.
  assert (reachable Scenario.admins float_of_text
            (Scenario.go Scenario.submitted init)) as Hr.
  { exists Scenario.submitted. reflexivity. }
  assert (existsb (pending_for (user_id Scenario.alice) 1)
            (submissions (Scenario.go Scenario.submitted init)) = true) as Hp.
  { vm_compute. reflexivity. }
  destruct (one_pending_per_user_and_task _ _ _ Hr) as (Honce & Hsubmit).
  destruct (Hsubmit Scenario.alice 1 Hp) as (Hsame & _).
  split; [exact Hr|]. split; [exact Hp|]. split; [exact Hsame|exact (Honce 1 1)].
Defined.


Lemma task_counted_once_witness :
  let st := run Scenario.admins float_of_text Scenario.submitted init in
  reachable Scenario.admins float_of_text st ∧
  (count_where (live_for 1 1) (submissions st) ≤ 1)%nat.
Proof.
  cbn zeta.
  assert (reachable Scenario.admins float_of_text
            (run Scenario.admins float_of_text Scenario.submitted init)) as Hr
    by (by exists Scenario.submitted).
  split; [exact Hr|].
  exact (proj1 (task_counted_once Scenario.admins float_of_text _ 1 1 Hr)).
Defined.

Lemma nothing_is_ever_paid_witness :
  let st := run Scenario.admins float_of_text Scenario.nan_rejected init in
  reachable Scenario.admins float_of_text st ∧
  withdrawals st = [] ∧ transactions st = [].
Proof.
  cbn zeta.
  assert (reachable Scenario.admins float_of_text
            (run Scenario.admins float_of_text Scenario.nan_rejected init)) as Hr
    by (by exists Scenario.nan_rejected).
  destruct (nothing_is_ever_paid Scenario.admins float_of_text _ Hr) as (Hw & Hx & _).
  split; [exact Hr|]. split; [exact Hw|exact Hx].
Defined.

Lemma only_nan_passes_the_amount_check_witness :
  let st := run Scenario.admins float_of_text
              (Scenario.setup ++ [(Scenario.alice, WithdrawMethod "upi")]) init in
  reachable Scenario.admins float_of_text st ∧
  (handle_withdraw_amount float_of_text Scenario.alice "nan" st).2 = AskUpiId ∧
  ∃ a, float_of_text "nan" = Some a ∧ is_nan a = true.
Proof.
  cbn zeta.
  assert (reachable Scenario.admins float_of_text
            (run Scenario.admins float_of_text
               (Scenario.setup ++ [(Scenario.alice, WithdrawMethod "upi")]) init)) as Hr
    by (by eexists).
  assert ((handle_withdraw_amount float_of_text Scenario.alice "nan"
             (run Scenario.admins float_of_text
                (Scenario.setup ++ [(Scenario.alice, WithdrawMethod "upi")]) init)).2
          = AskUpiId) as Hask by (vm_compute; reflexivity).
  split; [exact Hr|]. split; [exact Hask|].
  destruct (proj1 (only_nan_passes_the_amount_check Scenario.admins float_of_text _
                     Scenario.alice "nan" Hr) (or_introl Hask))
    as (a & Ha & Hnan & _).
  exists a. split; [exact Ha|exact Hnan].
Defined.

Lemma keys_count_from_one_witness :
  let st := run Scenario.admins float_of_text Scenario.submitted init in
  reachable Scenario.admins float_of_text st ∧
  numbered submission_id (submissions st).
Proof.
  cbn zeta.
  assert (reachable Scenario.admins float_of_text
            (run Scenario.admins float_of_text Scenario.submitted init)) as Hr
    by (by exists Scenario.submitted).
  split; [exact Hr|].
  exact (proj1 (proj2 (keys_count_from_one Scenario.admins float_of_text _ Hr))).
Defined.

Lemma users_never_blocked_witness :
  let st := run Scenario.admins float_of_text Scenario.submitted init in
  reachable Scenario.admins float_of_text st ∧
  users st !! 1 = Some Walkthrough.alice_row_submitted ∧
  is_blocked Walkthrough.alice_row_submitted = false.
Proof.
  cbn zeta.
  assert (reachable Scenario.admins float_of_text
            (run Scenario.admins float_of_text Scenario.submitted init)) as Hr
    by (by exists Scenario.submitted).
  assert (users (run Scenario.admins float_of_text Scenario.submitted init) !! 1
          = Some Walkthrough.alice_row_submitted) as Hu by (vm_compute; reflexivity).
  split; [exact Hr|]. split; [exact Hu|].
  exact (users_never_blocked Scenario.admins float_of_text _ 1 _ Hr Hu).
Defined.

Lemma rows_refer_to_known_rows_witness :
  let st := run Scenario.admins float_of_text Scenario.submitted init in
  reachable Scenario.admins float_of_text st ∧
  ∀ s, s ∈ submissions st → user_known st (sub_user_id s) ∧ task_known st (sub_task_id s).
Proof.
  cbn zeta.
  assert (reachable Scenario.admins float_of_text
            (run Scenario.admins float_of_text Scenario.submitted init)) as Hr
    by (by exists Scenario.submitted).
  split; [exact Hr|].
  exact (proj1 (rows_refer_to_known_rows Scenario.admins float_of_text _ Hr)).
Defined.

Lemma reviewed_submissions_are_final_witness :
  let st := run Scenario.admins float_of_text Scenario.submitted init in
  reachable Scenario.admins float_of_text st ∧
  rows_kept sub_settled (submissions st)
    (submissions (run Scenario.admins float_of_text
                    [(Scenario.operator, RejectSubmission 1 "blurry")] st)).
Proof.
  cbn zeta.
  assert (reachable Scenario.admins float_of_text
            (run Scenario.admins float_of_text Scenario.submitted init)) as Hr
    by (by exists Scenario.submitted).
  split; [exact Hr|].
  exact (reviewed_submissions_are_final Scenario.admins float_of_text
           [(Scenario.operator, RejectSubmission 1 "blurry")] _ Hr).
Defined.

Lemma settled_withdrawals_are_final_witness :
  let st := Scenario.with_request in
  NoDup (withdrawal_id <$> withdrawals st) ∧
  rows_kept wd_settled (withdrawals st)
    (withdrawals (run Scenario.admins float_of_text
                    [(Scenario.operator, ApproveWithdrawal 1 "TXN1")] st)).
Proof.
  cbn zeta.
  assert (NoDup (withdrawal_id <$> withdrawals Scenario.with_request)) as Hnd.
  { apply NoDup_singleton. }
  split; [exact Hnd|].
  exact (settled_withdrawals_are_final Scenario.admins float_of_text
           [(Scenario.operator, ApproveWithdrawal 1 "TXN1")] _ Hnd).
Defined.

Lemma sender_outside_admin_ids_witness :
  let st := run Scenario.admins float_of_text Scenario.submitted init in
  is_admin Scenario.admins Scenario.alice = false ∧
  tasks (handle Scenario.admins float_of_text Scenario.alice (RemoveTask (Some 1)) st).1
    = tasks st.
Proof.
  cbn zeta.
  assert (is_admin Scenario.admins Scenario.alice = false) as Hna
    by (vm_compute; reflexivity).
  split; [exact Hna|].
  exact (proj1 (sender_outside_admin_ids Scenario.admins float_of_text
                  Scenario.alice (RemoveTask (Some 1)) _ Hna)).
Defined.

Lemma approved_withdrawal_is_final_witness :
  let st := Scenario.with_request in
  let st1 := (admin_approve_withdrawal Scenario.admins Scenario.operator 1 "TXN1" st).1 in
  NoDup (withdrawal_id <$> withdrawals st) ∧
  is_admin Scenario.admins Scenario.operator = true ∧
  Scenario.alice_withdrawal ∈ withdrawals st ∧
  wd_status Scenario.alice_withdrawal = WdPending ∧
  users st1 = users st ∧
  admin_reject_withdrawal Scenario.admins Scenario.operator 1 "late" st1
    = (st1, WithdrawalNotFoundOrProcessed).
Proof.
  cbn zeta.
  assert (NoDup (withdrawal_id <$> withdrawals Scenario.with_request)) as Hnd.
  { apply NoDup_singleton. }
  assert (is_admin Scenario.admins Scenario.operator = true) as Ha
    by (vm_compute; reflexivity).
  assert (Scenario.alice_withdrawal ∈ withdrawals Scenario.with_request)
    as Hin by (vm_compute; constructor).
  assert (wd_status Scenario.alice_withdrawal = WdPending) as Hs by reflexivity.
  destruct (approved_withdrawal_is_final Scenario.admins _
              Scenario.operator Scenario.operator Scenario.alice_withdrawal
              "TXN1" "TXN2" "late" Hnd Ha Ha Hin Hs)
    as (_ & _ & _ & Hus & _ & Hrej & _).
  split; [exact Hnd|]. split; [exact Ha|]. split; [exact Hin|]. split; [exact Hs|].
  split; [exact Hus|exact Hrej].
Defined.

Lemma rejected_submission_pays_nothing_witness :
  let st := run Scenario.admins float_of_text Scenario.submitted init in
  let st1 := (admin_reject_submission Scenario.admins Scenario.operator 1 "blurry" st).1 in
  reachable Scenario.admins float_of_text st ∧
  is_admin Scenario.admins Scenario.operator = true ∧
  Scenario.alice_submission ∈ submissions st ∧
  sub_status Scenario.alice_submission = SubPending ∧
  transactions st1 = transactions st ∧
  admin_approve_submission Scenario.admins Scenario.operator 1 st1
    = (st1, SubmissionNotFoundOrProcessed).
Proof.
  cbn zeta.
  assert (reachable Scenario.admins float_of_text
            (run Scenario.admins float_of_text Scenario.submitted init)) as Hr
    by (by exists Scenario.submitted).
  assert (is_admin Scenario.admins Scenario.operator = true) as Ha
    by (vm_compute; reflexivity).
  assert (Scenario.alice_submission
            ∈ submissions (run Scenario.admins float_of_text Scenario.submitted init))
    as Hin by (vm_compute; constructor).
  assert (sub_status Scenario.alice_submission = SubPending) as Hs by reflexivity.
  destruct (rejected_submission_pays_nothing Scenario.admins float_of_text _
              Scenario.operator Scenario.operator Scenario.alice_submission
              "blurry" "again" Hr Ha Ha Hin Hs)
    as (u & _ & _ & _ & _ & _ & Htx & Happ & _).
  split; [exact Hr|]. split; [exact Ha|]. split; [exact Hin|]. split; [exact Hs|].
  split; [exact Htx|exact Happ].
Defined.

Lemma removed_task_keeps_pending_rows_witness :
  let st := run Scenario.admins float_of_text Scenario.submitted init in
  let st1 := (admin_remove_task Scenario.admins Scenario.operator (Some 1) st).1 in
  reachable Scenario.admins float_of_text st ∧
  is_admin Scenario.admins Scenario.operator = true ∧
  Scenario.alice_submission ∈ submissions st ∧
  sub_status Scenario.alice_submission = SubPending ∧
  admin_approve_submission Scenario.admins Scenario.operator 1 st1 = (st1, Raised) ∧
  (admin_reject_submission Scenario.admins Scenario.operator 1 "blurry" st1).2
    = SubmissionRejected 1.
Proof.
  cbn zeta.
  assert (reachable Scenario.admins float_of_text
            (run Scenario.admins float_of_text Scenario.submitted init)) as Hr
    by (by exists Scenario.submitted).
  assert (is_admin Scenario.admins Scenario.operator = true) as Ha
    by (vm_compute; reflexivity).
  assert (Scenario.alice_submission
            ∈ submissions (run Scenario.admins float_of_text Scenario.submitted init))
    as Hin by (vm_compute; constructor).
  assert (sub_status Scenario.alice_submission = SubPending) as Hs by reflexivity.
  destruct (removed_task_keeps_pending_rows Scenario.admins float_of_text _
              Scenario.operator Scenario.operator Scenario.alice_submission
              "blurry" Hr Ha Ha Hin Hs)
    as (_ & _ & _ & _ & _ & Happ & Hrej).
  split; [exact Hr|]. split; [exact Ha|]. split; [exact Hin|]. split; [exact Hs|].
  split; [exact Happ|exact Hrej].
Defined.

Lemma resubmission_after_review_witness :
  let st := run Scenario.admins float_of_text Scenario.submitted init in
  reachable Scenario.admins float_of_text st ∧
  is_admin Scenario.admins Scenario.operator = true ∧
  Scenario.alice_submission ∈ submissions st ∧
  users st !! 1 = Some Walkthrough.alice_row_submitted ∧
  existsb (λ t, (task_id t =? 1) && is_active t) (tasks st) = true ∧
  admin_approve_submission Scenario.admins Scenario.operator 1 st = (st, Raised) ∧
  submit_task Scenario.alice 1
    (admin_approve_submission Scenario.admins Scenario.operator 1 st).1
    = (st, PendingSubmissionExists).
Proof.
  cbn zeta.
  assert (reachable Scenario.admins float_of_text
            (run Scenario.admins float_of_text Scenario.submitted init)) as Hr
    by (by exists Scenario.submitted).
  assert (is_admin Scenario.admins Scenario.operator = true) as Ha
    by (vm_compute; reflexivity).
  assert (Scenario.alice_submission
            ∈ submissions (run Scenario.admins float_of_text Scenario.submitted init))
    as Hin by (vm_compute; constructor).
  assert (sub_status Scenario.alice_submission = SubPending) as Hs by reflexivity.
  assert (user_id Scenario.alice = sub_user_id Scenario.alice_submission) as Hid
    by reflexivity.
  assert (users (run Scenario.admins float_of_text Scenario.submitted init)
            !! user_id Scenario.alice = Some Walkthrough.alice_row_submitted) as Hu
    by (vm_compute; reflexivity).
  assert (is_verified Walkthrough.alice_row_submitted = true) as Hv by reflexivity.
  assert (existsb (λ t, (task_id t =? sub_task_id Scenario.alice_submission) && is_active t)
            (tasks (run Scenario.admins float_of_text Scenario.submitted init)) = true)
    as Hact by (vm_compute; reflexivity).
  destruct (resubmission_after_review Scenario.admins float_of_text _
              Scenario.operator Scenario.alice Scenario.alice_submission _
              "blurry" "AgACAgQAAx1" Hr Ha Hin Hs Hid Hu Hv Hact)
    as (_ & Happ & Hsub).
  split; [exact Hr|]. split; [exact Ha|]. split; [exact Hin|]. split; [exact Hu|].
  split; [exact Hact|]. split; [exact Happ|exact Hsub].
Defined.

Lemma start_registers_once_witness :
  user_id Scenario.alice = user_id Scenario.alice ∧
  start Scenario.alice (start Scenario.alice init).1
    = ((start Scenario.alice init).1, Welcome).
Proof.
  assert (user_id Scenario.alice = user_id Scenario.alice) as Hid by reflexivity.
  split; [exact Hid|].
  exact (proj1 (start_registers_once Scenario.alice Scenario.alice init Hid)).
Defined.

Lemma outsider_admin_action_swallows_messages_witness :
  let st := run Scenario.admins float_of_text Scenario.nan_typed init in
  let st1 := (handle Scenario.admins float_of_text Scenario.alice AddTaskButton st).1 in
  is_admin Scenario.admins Scenario.alice = false ∧
  handle Scenario.admins float_of_text Scenario.alice (Message "alice@okhdfcbank") st1
    = (st1, NoReply).
Proof.
  cbn zeta.
  assert (is_admin Scenario.admins Scenario.alice = false) as Hna
    by (vm_compute; reflexivity).
  split; [exact Hna|].
  exact (proj1 (outsider_admin_action_swallows_messages Scenario.admins float_of_text
                  Scenario.alice AddTaskButton "alice@okhdfcbank" _ Hna
                  (or_introl eq_refl))).
Defined.

Lemma system_stats_agree_with_counters_witness :
  let st := run Scenario.admins float_of_text Scenario.submitted init in
  reachable Scenario.admins float_of_text st ∧
  blocked_users st = 0 ∧
  sum_users pending_tasks (users st) = Z.of_nat (pending_subs st).
Proof.
  cbn zeta.
  assert (reachable Scenario.admins float_of_text
            (run Scenario.admins float_of_text Scenario.submitted init)) as Hr
    by (by exists Scenario.submitted).
  destruct (system_stats_agree_with_counters Scenario.admins float_of_text _ Hr)
    as (Hb & Hp & _).
  split; [exact Hr|]. split; [exact Hb|exact Hp].
Defined.

Lemma review_commands_round_trip_witness :
  0 ≤ 12 ∧
  approve_submission_id ("/approve_" +:+ pretty 12) = Some 12 ∧
  reject_submission_args "No reason provided" ("/reject_" +:+ pretty 12 +:+ " " +:+ "blurry")
    = Some (12, "blurry").
Proof.
  assert (0 ≤ 12) as Hz by lia.
  destruct (review_commands_round_trip "No reason provided" 12 "blurry" Hz)
    as (Happ & _ & _ & Hrej).
  split; [exact Hz|]. split; [exact Happ|exact Hrej].
Defined.


Lemma withdrawal_commands_round_trip_witness :
  0 ≤ 7 ∧
  approve_withdrawal_args "MANUAL" ("/approve_withdraw_" +:+ pretty 7 +:+ " " +:+ "TXN1")
    = Some (7, "TXN1").
Proof.
  assert (0 ≤ 7) as Hz by lia.
  split; [exact Hz|].
  exact (proj1 (proj2 (withdrawal_commands_round_trip "MANUAL" 7 "TXN1" Hz))).
Defined.

Lemma removal_button_cuts_at_underscore_witness :
  contains_char "_" "@news" = false ∧
  (handle_callback Scenario.admins Scenario.alice
     ("delchan_" +:+ "@news" +:+ "_" +:+ "daily") init).1
    = set_channels (delete "@news" (channels init)) init.
Proof.
  assert (contains_char "_" "@news" = false) as Hc by reflexivity.
  split; [exact Hc|].
  exact (proj1 (proj2 (removal_button_cuts_at_underscore Scenario.admins
                         Scenario.alice "@news" "daily" init Hc))).
Defined.
